(** * MyDiary: note persistence and directory export

    A shallow embedding of the persistence core of the diary web
    application: the [FileStorageManager] class of [src/lib/file-storage.ts],
    the save handler of [src/components/create-note-dialog.tsx], the
    export / import / delete handlers of [src/components/settings-view.tsx]
    and the note loader of the dashboard ([src/unnamed/part_002]).

    The browser platform the code runs on is modelled in the first modules:
    strings and regular-expression replacement, [Date], [JSON], the
    [localStorage] key-value store and the File System Access handles.
    Strings are sequences of code units below 256 ([ascii]); numbers are
    integers; exceptions are values of [exn] threaded through a completion
    type.  Calls of [console.log] have no effect on what is modelled and are
    left out. *)

From Stdlib Require Import ZArith NArith List String Ascii Bool Lia.
From Stdlib Require Import DecimalN DecimalFacts.
From stdpp Require Import gmap strings list.

Local Set Warnings "-register-all".
Local Open Scope string_scope.
Local Open Scope Z_scope.
Local Open Scope list_scope.

(** ** Completions: a call either returns or throws *)

Inductive exn : Set :=
| SyntaxError          (* JSON.parse on text that is not JSON *)
| TypeError            (* calling [push] on something that has none *)
| RangeError           (* toISOString on an invalid date *)
| QuotaExceededError   (* localStorage.setItem beyond the quota *)
| NotFoundError        (* getDirectoryHandle on a missing sub-folder *)
| FileSystemError.     (* permission denied, stale handle, I/O error *)

Inductive completion (A : Type) : Type :=
| Return (a : A)
| Throw (e : exn).
Arguments Return {A} a.
Arguments Throw {A} e.

Definition bind {A B} (m : completion A) (k : A -> completion B) : completion B :=
  match m with
  | Return a => k a
  | Throw e => Throw e
  end.

Notation "x <- m ;; k" := (bind m (fun x => k))
  (at level 100, m at next level, right associativity).

(** ** JavaScript strings *)

Module JSString.

Definition code (c : ascii) : N := N_of_ascii c.

Definition between (lo hi : N) (c : ascii) : bool :=
  ((lo <=? code c) && (code c <=? hi))%N.

Definition is_upper : ascii -> bool := between 65 90.    (* A-Z *)
Definition is_lower : ascii -> bool := between 97 122.   (* a-z *)
Definition is_digit : ascii -> bool := between 48 57.    (* 0-9 *)

(** The class [\s] (also the characters [trim] removes), restricted to
    code units below 256: TAB, LF, VT, FF, CR, SPACE and NBSP. *)
Definition is_space (c : ascii) : bool :=
  between 9 13 c || (code c =? 32)%N || (code c =? 160)%N.

(** [s.replace(/[^a-zA-Z0-9\s]/g, empty)] *)
Definition kept (c : ascii) : bool :=
  is_lower c || is_upper c || is_digit c || is_space c.

Fixpoint remove_unkept (s : string) : string :=
  match s with
  | EmptyString => EmptyString
  | String c r => if kept c then String c (remove_unkept r) else remove_unkept r
  end.

(** [s.replace(/\s+/g, "_")]: every maximal run of [\s] becomes one
    underscore.  [in_run] tells that the previous character was [\s]. *)
Fixpoint underscore_runs (in_run : bool) (s : string) : string :=
  match s with
  | EmptyString => EmptyString
  | String c r =>
      if is_space c
      then (if in_run then underscore_runs true r
            else String "_" (underscore_runs true r))
      else String c (underscore_runs false r)
  end.

(** [s.trim()] *)
Fixpoint trimStart (s : string) : string :=
  match s with
  | EmptyString => EmptyString
  | String c r => if is_space c then trimStart r else s
  end.

Fixpoint trimEnd (s : string) : string :=
  match s with
  | EmptyString => EmptyString
  | String c r =>
      match trimEnd r with
      | EmptyString => if is_space c then EmptyString else String c EmptyString
      | r' => String c r'
      end
  end.

Definition trim (s : string) : string := trimEnd (trimStart s).

(** [s.split(sep)] for a one-character separator; never empty. *)
Fixpoint split (sep : ascii) (s : string) : list string :=
  match s with
  | EmptyString => [EmptyString]
  | String c r =>
      if Ascii.eqb c sep then EmptyString :: split sep r
      else match split sep r with
           | h :: t => String c h :: t
           | [] => [String c EmptyString]
           end
  end.

(** [s.charAt(0).toUpperCase() + s.slice(1)] on code units below 128. *)
Definition toUpperCase1 (c : ascii) : ascii :=
  if is_lower c then ascii_of_N (code c - 32) else c.

Definition capitalize (s : string) : string :=
  match s with
  | EmptyString => EmptyString
  | String c r => String (toUpperCase1 c) r
  end.

(** Truthiness of a string: only the empty string is falsy. *)
Definition truthy (s : string) : bool :=
  match s with EmptyString => false | _ => true end.

End JSString.

(** ** Numbers as decimal text *)

Module JSNumber.

Import Decimal.

Fixpoint chars_of_uint (u : uint) : list ascii :=
  match u with
  | Nil => []
  | D0 u => "0"%char :: chars_of_uint u
  | D1 u => "1"%char :: chars_of_uint u
  | D2 u => "2"%char :: chars_of_uint u
  | D3 u => "3"%char :: chars_of_uint u
  | D4 u => "4"%char :: chars_of_uint u
  | D5 u => "5"%char :: chars_of_uint u
  | D6 u => "6"%char :: chars_of_uint u
  | D7 u => "7"%char :: chars_of_uint u
  | D8 u => "8"%char :: chars_of_uint u
  | D9 u => "9"%char :: chars_of_uint u
  end.

Definition digit_of_char (c : ascii) : option (uint -> uint) :=
  match c with
  | "0"%char => Some D0 | "1"%char => Some D1 | "2"%char => Some D2
  | "3"%char => Some D3 | "4"%char => Some D4 | "5"%char => Some D5
  | "6"%char => Some D6 | "7"%char => Some D7 | "8"%char => Some D8
  | "9"%char => Some D9 | _ => None
  end.

(** The longest prefix of digits, and what follows it. *)
Fixpoint read_uint (s : list ascii) : uint * list ascii :=
  match s with
  | [] => (Nil, [])
  | c :: r =>
      match digit_of_char c with
      | Some d => let '(u, r') := read_uint r in (d u, r')
      | None => (Nil, s)
      end
  end.

(** [String(n)] / [n.toString()] for an integer [n]. *)
Definition chars (z : Z) : list ascii :=
  if z <? 0 then "-"%char :: chars_of_uint (N.to_uint (Z.abs_N z))
  else chars_of_uint (N.to_uint (Z.to_N z)).

Definition toString (z : Z) : string := string_of_list_ascii (chars z).

(** The last [width] decimal digits of [n], zero padded. *)
Fixpoint padded (width : nat) (n : Z) : string :=
  match width with
  | O => EmptyString
  | S w => padded w (n / 10) +:+ String (ascii_of_N (48 + Z.to_N (n mod 10))) EmptyString
  end.

End JSNumber.

(** ** Dates *)

Module JSDate.

(** A [Date] object holds a time value in milliseconds since the epoch,
    or NaN (an invalid date). *)
Inductive Date : Set :=
| InvalidDate
| TimeValue (ms : Z).

Definition maxTime : Z := 8640000000000000.

(** [new Date(ms)] clips the time value. *)
Definition ofTime (ms : Z) : Date :=
  if Z.abs ms <=? maxTime then TimeValue ms else InvalidDate.

Definition msPerDay : Z := 86400000.

(** Year, month and day (proleptic Gregorian, UTC) of a day number
    counted from 1970-01-01. *)
Definition civil_of_days (days : Z) : Z * Z * Z :=
  let z := days + 719468 in
  let era := z / 146097 in
  let doe := z - era * 146097 in
  let yoe := (doe - doe / 1460 + doe / 36524 - doe / 146096) / 365 in
  let doy := doe - (365 * yoe + yoe / 4 - yoe / 100) in
  let mp := (5 * doy + 2) / 153 in
  let d := doy - (153 * mp + 2) / 5 + 1 in
  let m := if mp <? 10 then mp + 3 else mp - 9 in
  let y := yoe + era * 400 + (if m <=? 2 then 1 else 0) in
  (y, m, d).

Definition year_string (y : Z) : string :=
  if (0 <=? y) && (y <=? 9999) then JSNumber.padded 4 y
  else (if y <? 0 then "-" else "+") +:+ JSNumber.padded 6 (Z.abs y).

(** The [YYYY-MM-DD] and [HH:mm:ss.sss] parts of [toISOString], in
    UTC; the year is signed and six digits long outside 0..9999. *)
Definition date_string (ms : Z) : string :=
  let '(y, m, d) := civil_of_days (ms / msPerDay) in
  year_string y +:+ "-" +:+ JSNumber.padded 2 m +:+ "-" +:+ JSNumber.padded 2 d.

Definition time_string (ms : Z) : string :=
  let t := ms mod msPerDay in
  JSNumber.padded 2 (t / 3600000)
  +:+ ":" +:+ JSNumber.padded 2 ((t / 60000) mod 60)
  +:+ ":" +:+ JSNumber.padded 2 ((t / 1000) mod 60)
  +:+ "." +:+ JSNumber.padded 3 (t mod 1000).

(** [date.toISOString()]; throws on an invalid date. *)
Definition toISOString (d : Date) : completion string :=
  match d with
  | InvalidDate => Throw RangeError
  | TimeValue ms => Return (date_string ms +:+ "T" +:+ time_string ms +:+ "Z")
  end.

(** Day number of a calendar date, the inverse of [civil_of_days]. *)
Definition days_of_civil (y m d : Z) : Z :=
  let y' := if m <=? 2 then y - 1 else y in
  let era := y' / 400 in
  let yoe := y' - era * 400 in
  let mp := (m + 9) mod 12 in
  let doy := (153 * mp + 2) / 5 + d - 1 in
  let doe := yoe * 365 + yoe / 4 - yoe / 100 + doy in
  era * 146097 + doe - 719468.

(** Exactly [n] decimal digits. *)
Fixpoint digits (n : nat) (acc : Z) (s : list ascii) : option (Z * list ascii) :=
  match n, s with
  | O, _ => Some (acc, s)
  | S n', c :: r =>
      if JSString.is_digit c
      then digits n' (10 * acc + Z.of_N (JSString.code c - 48)) r
      else None
  | S _, [] => None
  end.

Definition expect (c : ascii) (s : list ascii) : option (list ascii) :=
  match s with
  | x :: r => if Ascii.eqb x c then Some r else None
  | [] => None
  end.

(** [new Date(text)] for the date-time format that [toISOString]
    produces and every engine reads, [YYYY-MM-DDTHH:mm:ss.sssZ].  What
    other texts denote is left to the engine, so the code below takes
    the parser as a parameter and this one serves in the examples. *)
Definition parseISO (text : string) : Date :=
  let parsed :=
    '(y, s) ← digits 4 0 (list_ascii_of_string text);
    s ← expect "-" s; '(m, s) ← digits 2 0 s;
    s ← expect "-" s; '(d, s) ← digits 2 0 s;
    s ← expect "T" s; '(hh, s) ← digits 2 0 s;
    s ← expect ":" s; '(mm, s) ← digits 2 0 s;
    s ← expect ":" s; '(ss, s) ← digits 2 0 s;
    s ← expect "." s; '(ms, s) ← digits 3 0 s;
    s ← expect "Z" s;
    let days := days_of_civil y m d in
    if bool_decide (s = [] ∧ civil_of_days days = (y, m, d)
                    ∧ hh < 24 ∧ mm < 60 ∧ ss < 60)
    then Some (days * msPerDay + hh * 3600000 + mm * 60000 + ss * 1000 + ms)
    else None in
  match parsed with
  | Some ms => ofTime ms
  | None => InvalidDate
  end.

End JSDate.

(** ** JavaScript values and JSON *)

Module JSON.

(** The bytes held by a [Blob]. *)
Definition Blob : Set := list Byte.byte.

(** The values the program handles.  An object is the list of its own
    enumerable properties in creation order; a [Blob] is an object
    without any such property. *)
Inductive value : Set :=
| VUndef
| VNull
| VBool (b : bool)
| VNum (n : Z)
| VStr (s : string)
| VArr (items : list value)
| VObj (props : list (string * value))
| VBlob (bytes : Blob).

(** [o[k]]: the value of the last binding of [k], [undefined] when
    there is none.  The keys of an object literal are distinct; parsed
    text may repeat a key, and then the last occurrence counts.  A binding
    to [undefined] reads like no binding. *)
Fixpoint lookup_prop (k : string) (props : list (string * value)) : value :=
  match props with
  | [] => VUndef
  | (k', v) :: r =>
      match lookup_prop k r with
      | VUndef => if String.eqb k k' then v else VUndef
      | found => found
      end
  end.

Definition get (k : string) (v : value) : value :=
  match v with
  | VObj props => lookup_prop k props
  | _ => VUndef
  end.

(** Truthiness, as tested by [if (x)] and [x || y]. *)
Definition truthy (v : value) : bool :=
  match v with
  | VUndef | VNull => false
  | VBool b => b
  | VNum n => negb (n =? 0)
  | VStr s => JSString.truthy s
  | VArr _ | VObj _ | VBlob _ => true
  end.

(** *** What [JSON.stringify] keeps of a value

    A property whose value is [undefined] is left out, an [undefined]
    array element becomes [null], and a [Blob], having no own enumerable
    property, becomes the empty object. *)
Fixpoint clean (v : value) : value :=
  match v with
  | VArr items =>
      VArr ((fix clean_items (l : list value) : list value :=
               match l with
               | [] => []
               | VUndef :: r => VNull :: clean_items r
               | x :: r => clean x :: clean_items r
               end) items)
  | VObj props =>
      VObj ((fix clean_props (l : list (string * value)) : list (string * value) :=
               match l with
               | [] => []
               | (_, VUndef) :: r => clean_props r
               | (k, x) :: r => (k, clean x) :: clean_props r
               end) props)
  | VBlob _ => VObj []
  | _ => v
  end.

Definition clean_items : list value -> list value :=
  fix clean_items (l : list value) : list value :=
    match l with
    | [] => []
    | VUndef :: r => VNull :: clean_items r
    | x :: r => clean x :: clean_items r
    end.

Definition clean_props : list (string * value) -> list (string * value) :=
  fix clean_props (l : list (string * value)) : list (string * value) :=
    match l with
    | [] => []
    | (_, VUndef) :: r => clean_props r
    | (k, x) :: r => (k, clean x) :: clean_props r
    end.

(** The values JSON text denotes. *)
Fixpoint is_json (v : value) : bool :=
  match v with
  | VUndef | VBlob _ => false
  | VNull | VBool _ | VNum _ | VStr _ => true
  | VArr items => forallb is_json items
  | VObj props => forallb (fun kv => is_json (snd kv)) props
  end.

(** *** Text of a string literal *)

Definition hex_digit (n : N) : ascii :=
  if (n <? 10)%N then ascii_of_N (48 + n) else ascii_of_N (87 + n).

Definition escape (c : ascii) : list ascii :=
  match c with
  | "034"%char => ["\"; "034"]%char
  | "\"%char => ["\"; "\"]%char
  | "008"%char => ["\"; "b"]%char
  | "012"%char => ["\"; "f"]%char
  | "010"%char => ["\"; "n"]%char
  | "013"%char => ["\"; "r"]%char
  | "009"%char => ["\"; "t"]%char
  | _ =>
      if (JSString.code c <? 32)%N
      then ["\"; "u"; "0"; "0"; hex_digit (JSString.code c / 16);
            hex_digit (JSString.code c mod 16)]%char
      else [c]
  end.

Definition quote (s : string) : list ascii :=
  "034"%char :: flat_map escape (list_ascii_of_string s) ++ ["034"%char].

Definition hex_value (c : ascii) : option N :=
  let n := JSString.code c in
  if JSString.is_digit c then Some (n - 48)%N
  else if JSString.between 97 102 c then Some (n - 87)%N
  else if JSString.between 65 70 c then Some (n - 55)%N
  else None.

(** The code unit written [\uXXXX]; code units from 256 on are outside
    the model of strings. *)
Definition hex4 (a b c d : ascii) : option ascii :=
  match hex_value a, hex_value b, hex_value c, hex_value d with
  | Some 0%N, Some 0%N, Some h, Some l => Some (ascii_of_N (16 * h + l))
  | _, _, _, _ => None
  end.

Definition simple_escape (e : ascii) : option ascii :=
  match e with
  | "034"%char => Some "034"%char
  | "\"%char => Some "\"%char
  | "/"%char => Some "/"%char
  | "b"%char => Some "008"%char
  | "f"%char => Some "012"%char
  | "n"%char => Some "010"%char
  | "r"%char => Some "013"%char
  | "t"%char => Some "009"%char
  | _ => None
  end.

Definition prepend (c : ascii) (o : option (list ascii * list ascii))
  : option (list ascii * list ascii) :=
  match o with
  | Some (cs, rest) => Some (c :: cs, rest)
  | None => None
  end.

(** The characters of a string literal after its opening quote, and
    the text after its closing quote. *)
Fixpoint parse_string (s : list ascii) : option (list ascii * list ascii) :=
  match s with
  | [] => None
  | c :: r =>
      if Ascii.eqb c "034" then Some ([], r)
      else if Ascii.eqb c "\" then
        match r with
        | [] => None
        | e :: r1 =>
            match simple_escape e with
            | Some x => prepend x (parse_string r1)
            | None =>
                if Ascii.eqb e "u" then
                  match r1 with
                  | h1 :: h2 :: h3 :: h4 :: r2 =>
                      match hex4 h1 h2 h3 h4 with
                      | Some x => prepend x (parse_string r2)
                      | None => None
                      end
                  | _ => None
                  end
                else None
            end
        end
      else if (JSString.code c <? 32)%N then None
      else prepend c (parse_string r)
  end.

(** *** Printing *)

(** With [space] > 0, [JSON.stringify(v, null, space)] starts every
    element on a line of its own, indented by [space] per level. *)
Definition newline (space depth : nat) : list ascii :=
  match space with
  | O => []
  | _ => "010"%char :: repeat " "%char (space * depth)
  end.

Definition colon (space : nat) : list ascii :=
  match space with
  | O => [":"%char]
  | _ => [":"; " "]%char
  end.

Fixpoint print (space depth : nat) (v : value) : list ascii :=
  match v with
  | VUndef => list_ascii_of_string "undefined"
  | VNull => list_ascii_of_string "null"
  | VBool true => list_ascii_of_string "true"
  | VBool false => list_ascii_of_string "false"
  | VNum n => JSNumber.chars n
  | VStr s => quote s
  | VArr [] => list_ascii_of_string "[]"
  | VArr (x :: items) =>
      "["%char :: newline space (S depth) ++ print space (S depth) x
      ++ (fix print_more (l : list value) : list ascii :=
            match l with
            | [] => []
            | y :: r => ","%char :: newline space (S depth)
                        ++ print space (S depth) y ++ print_more r
            end) items
      ++ newline space depth ++ ["]"%char]
  | VObj [] | VBlob _ => list_ascii_of_string "{}"
  | VObj ((k, x) :: props) =>
      "{"%char :: newline space (S depth) ++ quote k ++ colon space
      ++ print space (S depth) x
      ++ (fix print_more (l : list (string * value)) : list ascii :=
            match l with
            | [] => []
            | (k', y) :: r => ","%char :: newline space (S depth) ++ quote k'
                              ++ colon space ++ print space (S depth) y ++ print_more r
            end) props
      ++ newline space depth ++ ["}"%char]
  end.

(** The elements after the first, each behind its comma. *)
Definition print_more_items (space depth : nat) : list value -> list ascii :=
  fix print_more (l : list value) : list ascii :=
    match l with
    | [] => []
    | y :: r => ","%char :: newline space depth ++ print space depth y ++ print_more r
    end.

Definition print_more_props (space depth : nat) : list (string * value) -> list ascii :=
  fix print_more (l : list (string * value)) : list ascii :=
    match l with
    | [] => []
    | (k', y) :: r => ","%char :: newline space depth ++ quote k'
                      ++ colon space ++ print space depth y ++ print_more r
    end.

(** [JSON.stringify(v, null, space)], as the text its callers use (they
    all coerce the result to a string). *)
Definition stringify (space : nat) (v : value) : string :=
  string_of_list_ascii (print space 0 (clean v)).

(** *** Parsing *)

Definition is_ws (c : ascii) : bool :=
  Ascii.eqb c " " || Ascii.eqb c "009" || Ascii.eqb c "010" || Ascii.eqb c "013".

Fixpoint skip_ws (s : list ascii) : list ascii :=
  match s with
  | [] => []
  | c :: r => if is_ws c then skip_ws r else s
  end.

Fixpoint strip_prefix (p s : list ascii) : option (list ascii) :=
  match p, s with
  | [], _ => Some s
  | _ :: _, [] => None
  | a :: p', b :: s' => if Ascii.eqb a b then strip_prefix p' s' else None
  end.

Definition keyword (word : string) (v : value) (s : list ascii)
  : option (value * list ascii) :=
  match strip_prefix (list_ascii_of_string word) s with
  | Some rest => Some (v, rest)
  | None => None
  end.

(** A number literal continues with a digit, a fraction or an exponent. *)
Definition continues_number (s : list ascii) : bool :=
  match s with
  | [] => false
  | c :: _ => JSString.is_digit c || Ascii.eqb c "." || Ascii.eqb c "e" || Ascii.eqb c "E"
  end.

(** Integer literals; a literal with a fraction or an exponent is
    outside the model (numbers are integers) and is rejected, as is a
    literal with a leading zero, which is not JSON. *)
Definition parse_number (s : list ascii) : option (value * list ascii) :=
  let '(negative, digits) :=
    match s with
    | c :: r => if Ascii.eqb c "-" then (true, r) else (false, s)
    | [] => (false, s)
    end in
  let '(u, rest) := JSNumber.read_uint digits in
  match u with
  | Decimal.Nil => None
  | _ =>
      if Decimal.uint_eq_dec (Decimal.unorm u) u then
        if continues_number rest then None
        else let n := Z.of_N (N.of_uint u) in
             Some (VNum (if negative then - n else n), rest)
      else None
  end.

Fixpoint parse_value (fuel : nat) (s : list ascii) {struct fuel}
  : option (value * list ascii) :=
  match fuel with
  | O => None
  | S f =>
      match skip_ws s with
      | [] => None
      | c :: r =>
          if Ascii.eqb c "n" then keyword "ull" VNull r
          else if Ascii.eqb c "t" then keyword "rue" (VBool true) r
          else if Ascii.eqb c "f" then keyword "alse" (VBool false) r
          else if Ascii.eqb c "034" then
            match parse_string r with
            | Some (cs, r') => Some (VStr (string_of_list_ascii cs), r')
            | None => None
            end
          else if Ascii.eqb c "[" then
            match strip_prefix ["]"%char] (skip_ws r) with
            | Some r' => Some (VArr [], r')
            | None =>
                match parse_items f r with
                | Some (l, r') => Some (VArr l, r')
                | None => None
                end
            end
          else if Ascii.eqb c "{" then
            match strip_prefix ["}"%char] (skip_ws r) with
            | Some r' => Some (VObj [], r')
            | None =>
                match parse_props f r with
                | Some (l, r') => Some (VObj l, r')
                | None => None
                end
            end
          else parse_number (c :: r)
      end
  end

(** One or more elements, up to and including the closing bracket. *)
with parse_items (fuel : nat) (s : list ascii) {struct fuel}
  : option (list value * list ascii) :=
  match fuel with
  | O => None
  | S f =>
      match parse_value f s with
      | None => None
      | Some (v, r) =>
          match skip_ws r with
          | [] => None
          | c :: r1 =>
              if Ascii.eqb c "," then
                match parse_items f r1 with
                | Some (l, r2) => Some (v :: l, r2)
                | None => None
                end
              else if Ascii.eqb c "]" then Some ([v], r1)
              else None
          end
      end
  end

(** One or more members, up to and including the closing brace. *)
with parse_props (fuel : nat) (s : list ascii) {struct fuel}
  : option (list (string * value) * list ascii) :=
  match fuel with
  | O => None
  | S f =>
      match strip_prefix ["034"%char] (skip_ws s) with
      | None => None
      | Some r =>
          match parse_string r with
          | None => None
          | Some (k, r1) =>
              match strip_prefix [":"%char] (skip_ws r1) with
              | None => None
              | Some r2 =>
                  match parse_value f r2 with
                  | None => None
                  | Some (v, r3) =>
                      match skip_ws r3 with
                      | [] => None
                      | c :: r4 =>
                          if Ascii.eqb c "," then
                            match parse_props f r4 with
                            | Some (l, r5) => Some ((string_of_list_ascii k, v) :: l, r5)
                            | None => None
                            end
                          else if Ascii.eqb c "}" then Some ([(string_of_list_ascii k, v)], r4)
                          else None
                      end
                  end
              end
          end
      end
  end.

(** The fuel [parse_value] needs to read a value back. *)
Fixpoint weight (v : value) : nat :=
  match v with
  | VArr items =>
      S ((fix weight_items (l : list value) : nat :=
            match l with
            | [] => O
            | x :: r => S (weight x + weight_items r)
            end) items)
  | VObj props =>
      S ((fix weight_props (l : list (string * value)) : nat :=
            match l with
            | [] => O
            | (_, x) :: r => S (weight x + weight_props r)
            end) props)
  | _ => 1%nat
  end.

Definition weight_items : list value -> nat :=
  fix weight_items (l : list value) : nat :=
    match l with
    | [] => O
    | x :: r => S (weight x + weight_items r)
    end.

Definition weight_props : list (string * value) -> nat :=
  fix weight_props (l : list (string * value)) : nat :=
    match l with
    | [] => O
    | (_, x) :: r => S (weight x + weight_props r)
    end.

(** [JSON.parse(text)]: one value, with nothing but white space after
    it; a [SyntaxError] otherwise. *)
Definition parse (text : string) : completion value :=
  let s := list_ascii_of_string text in
  match parse_value (S (length s)) s with
  | Some (v, rest) =>
      match skip_ws rest with
      | [] => Return v
      | _ :: _ => Throw SyntaxError
      end
  | None => Throw SyntaxError
  end.

(** [a.push(x)]: only an array has the method. *)
Definition push (a x : value) : completion value :=
  match a with
  | VArr items => Return (VArr (items ++ [x]))
  | _ => Throw TypeError
  end.

(** [v.k]: reading a property of [null] or [undefined] throws. *)
Definition get_property (k : string) (v : value) : completion value :=
  match v with
  | VUndef | VNull => Throw TypeError
  | _ => Return (get k v)
  end.

End JSON.

(** ** localStorage *)

Module LocalStorage.

(** The items of one origin, and the room the browser grants it,
    counted in code units of keys and values.  A browser that offers no
    storage grants none. *)
Record Storage : Type := {
  items : gmap string string;
  quota : nat
}.

Definition used (m : gmap string string) : nat :=
  map_fold (fun k v total => (String.length k + String.length v + total)%nat) 0%nat m.

Definition getItem (key : string) (st : Storage) : option string :=
  items st !! key.

(** [localStorage.getItem(key) || fallback]: [null] and the empty
    string are falsy. *)
Definition getItem_or (key fallback : string) (st : Storage) : string :=
  match getItem key st with
  | Some s => if JSString.truthy s then s else fallback
  | None => fallback
  end.

Definition setItem (key val : string) (st : Storage) : completion Storage :=
  let m := <[key := val]> (items st) in
  if (used m <=? quota st)%nat
  then Return {| items := m; quota := quota st |}
  else Throw QuotaExceededError.

Definition removeItem (key : string) (st : Storage) : Storage :=
  {| items := delete key (items st); quota := quota st |}.

End LocalStorage.

(** ** File System Access handles *)

Module FileSystem.

Inductive step : Set :=
| AtGetDirectoryHandle
| AtGetFileHandle
| AtCreateWritable
| AtWrite
| AtClose.

(** The directory the user picked: its sub-folders and the bytes of the
    files in them.  [fault] is the call, if any, that the browser rejects
    (permission withdrawn, stale handle, I/O error). *)
Record Directory : Type := {
  subdirs : gset string;
  files : gmap (string * string) (list Byte.byte);
  fault : option step
}.

Record FileSystemDirectoryHandle : Set := { name : string }.

(** A writable stream collects what is written in a swap file that
    replaces the target only when the stream is closed. *)
Record Writable : Set := {
  target : string * string;
  swap : list Byte.byte
}.

Definition rejects (s : step) (d : Directory) : bool :=
  match fault d, s with
  | Some AtGetDirectoryHandle, AtGetDirectoryHandle
  | Some AtGetFileHandle, AtGetFileHandle
  | Some AtCreateWritable, AtCreateWritable
  | Some AtWrite, AtWrite
  | Some AtClose, AtClose => true
  | _, _ => false
  end.

(** [dir.getDirectoryHandle(sub)], without [create]. *)
Definition getDirectoryHandle (sub : string) (d : Directory)
  : completion string * Directory :=
  if rejects AtGetDirectoryHandle d then (Throw FileSystemError, d)
  else if bool_decide (sub ∈ subdirs d) then (Return sub, d)
  else (Throw NotFoundError, d).

(** [sub.getFileHandle(filename, { create: true })] makes an empty
    file when there is none. *)
Definition getFileHandle (sub filename : string) (d : Directory)
  : completion (string * string) * Directory :=
  if rejects AtGetFileHandle d then (Throw FileSystemError, d)
  else
    match files d !! (sub, filename) with
    | Some _ => (Return (sub, filename), d)
    | None => (Return (sub, filename),
               {| subdirs := subdirs d;
                  files := <[(sub, filename) := []]> (files d);
                  fault := fault d |})
    end.

Definition createWritable (file : string * string) (d : Directory)
  : completion Writable * Directory :=
  if rejects AtCreateWritable d then (Throw FileSystemError, d)
  else (Return {| target := file; swap := [] |}, d).

Definition write (w : Writable) (data : list Byte.byte) (d : Directory)
  : completion Writable * Directory :=
  if rejects AtWrite d then (Throw FileSystemError, d)
  else (Return {| target := target w; swap := swap w ++ data |}, d).

Definition close (w : Writable) (d : Directory) : completion unit * Directory :=
  if rejects AtClose d then (Throw FileSystemError, d)
  else (Return tt,
        {| subdirs := subdirs d;
           files := <[target w := swap w]> (files d);
           fault := fault d |}).

(** The UTF-8 bytes of a string of code units below 256. *)
Definition utf8_char (c : ascii) : list Byte.byte :=
  let n := JSString.code c in
  if (n <? 128)%N then [byte_of_ascii c]
  else [byte_of_ascii (ascii_of_N (192 + n / 64));
        byte_of_ascii (ascii_of_N (128 + n mod 64))].

Definition utf8 (s : string) : list Byte.byte :=
  flat_map utf8_char (list_ascii_of_string s).

End FileSystem.

(** ** src/lib/file-storage.ts *)

Module FileStorage.

Import JSON LocalStorage.

Record FileStorageConfig : Set := {
  diaryPath : string;
  username : string
}.

Inductive NoteType : Set := text | audio | video.

Definition type_string (t : NoteType) : string :=
  match t with
  | text => "text"
  | audio => "audio"
  | video => "video"
  end.

Record NoteFile : Set := {
  id : string;
  title : string;
  type : NoteType;
  filename : string;
  content : option string;
  blob : option Blob;
  date : string;
  tags : list string;
  mood : option string;
  duration : option Z
}.

(** The fields of the class instance. *)
Record FileStorageManager : Set := {
  config : FileStorageConfig;
  directoryHandle : option FileSystem.FileSystemDirectoryHandle
}.

(** What the methods act on: the picked directory and localStorage. *)
Record World : Type := {
  disk : FileSystem.Directory;
  localStorage : Storage
}.

(** A method body runs in a world and returns or throws, leaving the
    world as it was at that point. *)
Definition M (A : Type) : Type := World -> completion A * World.

Definition ret {A} (a : A) : M A := fun w => (Return a, w).

Definition then_ {A B} (m : M A) (k : A -> M B) : M B :=
  fun w =>
    match m w with
    | (Return a, w') => k a w'
    | (Throw e, w') => (Throw e, w')
    end.

Notation "x <~ m ;; k" := (then_ m (fun x => k))
  (at level 100, m at next level, right associativity).

(** [try { body } catch (error) { handler }] *)
Definition try_catch {A} (body : M A) (handler : exn -> M A) : M A :=
  fun w =>
    match body w with
    | (Return a, w') => (Return a, w')
    | (Throw e, w') => handler e w'
    end.

Definition on_disk {A} (op : FileSystem.Directory -> completion A * FileSystem.Directory)
  : M A :=
  fun w =>
    let '(r, d) := op (disk w) in
    (r, {| disk := d; localStorage := localStorage w |}).

Definition on_storage (op : Storage -> completion Storage) : M unit :=
  fun w =>
    match op (localStorage w) with
    | Return st => (Return tt, {| disk := disk w; localStorage := st |})
    | Throw e => (Throw e, w)
    end.

Definition of_completion {A} (c : completion A) : M A := fun w => (c, w).

(** [value | undefined] *)
Definition optional {A} (inj : A -> value) (o : option A) : value :=
  match o with
  | Some a => inj a
  | None => VUndef
  end.

Definition strings (l : list string) : value := VArr (List.map VStr l).

(** [s || fallback] for an optional string. *)
Definition or_else (o : option string) (fallback : string) : string :=
  match o with
  | Some s => if JSString.truthy s then s else fallback
  | None => fallback
  end.

Definition notes_key (user : string) : string := "mydiary_notes_" +:+ user.

(** [generateFilename(title, type, date)] *)
Definition extensions (t : NoteType) : string :=
  match t with
  | text => ".txt"
  | audio => ".mp3"
  | video => ".mp4"
  end.

Definition sanitize (title : string) : string :=
  JSString.underscore_runs false (JSString.remove_unkept title).

Definition generateFilename (title : string) (type : NoteType) (date : JSDate.Date)
  : completion string :=
  iso <- JSDate.toISOString date ;;
  let timestamp := hd EmptyString (JSString.split "T" iso) in
  let sanitizedTitle := sanitize title in
  Return (timestamp +:+ "_" +:+ sanitizedTitle +:+ extensions type).

(** [saveMetadataToLocalStorage(note, filename)] *)
Definition metadata (note : NoteFile) (filename : string) : value :=
  VObj [("id", VStr (id note));
        ("title", VStr (title note));
        ("type", VStr (type_string (type note)));
        ("filename", VStr filename);
        ("date", VStr (date note));
        ("tags", strings (tags note));
        ("mood", optional VStr (mood note));
        ("duration", optional VNum (duration note));
        ("savedToFile", VBool true)].

Definition saveMetadataToLocalStorage (this : FileStorageManager) (note : NoteFile)
    (filename : string) (st : Storage) : completion Storage :=
  let key := notes_key (username (config this)) in
  existingMetadata <- JSON.parse (getItem_or key "[]" st) ;;
  existingMetadata <- JSON.push existingMetadata (metadata note filename) ;;
  setItem key (JSON.stringify 0 existingMetadata) st.

(** [saveToLocalStorage(note)] *)
Definition noteData (note : NoteFile) : value :=
  VObj [("id", VStr (id note));
        ("title", VStr (title note));
        ("type", VStr (type_string (type note)));
        ("content", optional VStr (content note));
        ("audioData", match type note with
                      | audio => optional VBlob (blob note)
                      | _ => VUndef
                      end);
        ("videoData", match type note with
                      | video => optional VBlob (blob note)
                      | _ => VUndef
                      end);
        ("date", VStr (date note));
        ("tags", strings (tags note));
        ("mood", optional VStr (mood note));
        ("duration", optional VNum (duration note));
        ("savedToFile", VBool false)].

(** The statements of [saveToLocalStorage] inside [try]. *)
Definition saveToLocalStorage_try (this : FileStorageManager) (note : NoteFile)
    (st : Storage) : completion Storage :=
  let key := notes_key (username (config this)) in
  existingNotes <- JSON.parse (getItem_or key "[]" st) ;;
  existingNotes <- JSON.push existingNotes (noteData note) ;;
  setItem key (JSON.stringify 0 existingNotes) st.

Definition saveToLocalStorage (this : FileStorageManager) (note : NoteFile) : M bool :=
  try_catch (_ <~ on_storage (saveToLocalStorage_try this note) ;; ret true)
            (fun error => ret false).

Section SaveNoteToFile.

(** [new Date(text)] *)
Variable Date_parse : string -> JSDate.Date.

(** The statements of [saveNoteToFile] inside [try], once the
    directory handle is known to be there. *)
Definition export (this : FileStorageManager) (note : NoteFile) : M bool :=
  let subdirName := JSString.capitalize (type_string (type note)) in
  subdirHandle <~ on_disk (FileSystem.getDirectoryHandle subdirName) ;;
  filename <~ of_completion
                (generateFilename (title note) (type note) (Date_parse (date note))) ;;
  fileHandle <~ on_disk (FileSystem.getFileHandle subdirHandle filename) ;;
  writable <~ on_disk (FileSystem.createWritable fileHandle) ;;
  writable <~ match type note with
              | text =>
                  on_disk (FileSystem.write writable
                             (FileSystem.utf8 (or_else (content note) EmptyString)))
              | _ =>
                  match blob note with
                  | Some b => on_disk (FileSystem.write writable b)
                  | None => ret writable
                  end
              end ;;
  _ <~ on_disk (FileSystem.close writable) ;;
  _ <~ on_storage (saveMetadataToLocalStorage this note filename) ;;
  ret true.

Definition saveNoteToFile (this : FileStorageManager) (note : NoteFile) : M bool :=
  try_catch
    (match directoryHandle this with
     | None => saveToLocalStorage this note
     | Some _ => export this note
     end)
    (fun error => saveToLocalStorage this note).

End SaveNoteToFile.

End FileStorage.

(** ** src/components/create-note-dialog.tsx *)

Module CreateNoteDialog.

Import JSON LocalStorage.

Inductive ViewMode : Set := select | editor | audio_recorder | video_recorder.

(** The [useState] cells of the dialog. *)
Record Form : Set := {
  viewMode : ViewMode;
  noteType : FileStorage.NoteType;
  title : string;
  content : string;
  tags : string;
  mood : string
}.

(** The cells, localStorage, and how often [onNoteCreated] was called. *)
Record State : Type := {
  form : Form;
  storage : Storage;
  created : nat
}.

(** The three readings of the clock in [handleSave]. *)
Record Clock : Set := {
  id_now : Z;          (* Date.now() for [id] *)
  date_now : Z;        (* new Date() for [date] *)
  createdAt_now : Z    (* Date.now() for [createdAt] *)
}.

(** [a || b] *)
Definition or_value (a b : value) : value := if truthy a then a else b.

Definition resetForm (st : State) : State :=
  {| form := {| viewMode := select; noteType := FileStorage.text;
                title := EmptyString; content := EmptyString;
              tags := EmptyString; mood := EmptyString |};
     storage := storage st;
     created := created st |}.

Definition onNoteCreated (st : State) : State :=
  {| form := form st; storage := storage st; created := S (created st) |}.

(** [tags.split(",").map((tag) => tag.trim()).filter(Boolean)] *)
Definition tag_list (tags : string) : list string :=
  List.filter JSString.truthy (List.map JSString.trim (JSString.split "," tags)).

Definition newNote (f : Form) (clock : Clock) (finalTitle : string)
    (noteContent : value) (duration : option Z) (thumbnail : value)
  : completion value :=
  date <- JSDate.toISOString (JSDate.ofTime (date_now clock)) ;;
  Return
    (VObj [("id", VStr (JSNumber.toString (id_now clock)));
           ("title", VStr (JSString.trim finalTitle));
           ("type", VStr (FileStorage.type_string (noteType f)));
           ("content", match noteType f with
                       | FileStorage.text => or_value noteContent (VStr (content f))
                       | _ => VStr EmptyString
                       end);
           ("audioData", match noteType f with
                         | FileStorage.audio => noteContent
                         | _ => VUndef
                         end);
           ("videoData", match noteType f with
                         | FileStorage.video => noteContent
                         | _ => VUndef
                         end);
           ("thumbnail", thumbnail);
           ("duration", or_value (FileStorage.optional VNum duration) (VNum 0));
           ("tags", FileStorage.strings (tag_list (tags f)));
           ("mood", VStr (mood f));
           ("date", VStr date);
           ("createdAt", VNum (createdAt_now clock))]).

(** [handleSave(noteTitle, noteContent, duration, thumbnail)]; a thrown
    exception is not caught, and leaves the state as it was. *)
Definition handleSave (username : string) (clock : Clock)
    (noteTitle : option string) (noteContent : value) (duration : option Z)
    (thumbnail : value) (st : State) : completion State :=
  let finalTitle := FileStorage.or_else noteTitle (title (form st)) in
  if negb (JSString.truthy (JSString.trim finalTitle)) then Return st
  else
    newNote <- newNote (form st) clock finalTitle noteContent duration thumbnail ;;
    let key := FileStorage.notes_key username in
    existingNotes <- JSON.parse (getItem_or key "[]" (storage st)) ;;
    existingNotes <- JSON.push existingNotes newNote ;;
    storage' <- setItem key (JSON.stringify 0 existingNotes) (storage st) ;;
    Return (onNoteCreated
              (resetForm {| form := form st; storage := storage'; created := created st |})).

End CreateNoteDialog.

(** ** src/components/settings-view.tsx *)

Module SettingsView.

Import JSON LocalStorage.

Definition settings_key (user : string) : string := "mydiary_settings_" +:+ user.

Definition defaultSettings : value :=
  VObj [("diaryPath", VStr EmptyString);
        ("theme", VStr "system");
        ("fontFamily", VStr "Inter");
        ("fontSize", VStr "medium");
        ("notifications", VObj [("enabled", VBool false);
                                ("dailyReminder", VBool false);
                                ("reminderTime", VStr "21:00");
                                ("weeklyReminder", VBool false)]);
        ("privacy", VObj [("passwordProtection", VBool false);
                          ("autoLock", VBool false);
                          ("autoLockTime", VNum 15)]);
        ("backup", VObj [("autoBackup", VBool false);
                         ("backupFrequency", VStr "weekly")]);
        ("customization", VObj [("accentColor", VStr "#3b82f6");
                                ("backgroundPattern", VStr "none")])].

(** The [useState] cells the handlers touch, localStorage, and the
    alerts shown so far. *)
Record State : Type := {
  settings : value;
  showDeleteConfirm : bool;
  storage : Storage;
  alerts : list string
}.

Definition alert (message : string) (st : State) : State :=
  {| settings := settings st; showDeleteConfirm := showDeleteConfirm st;
     storage := storage st; alerts := alerts st ++ [message] |}.

Definition setSettings (v : value) (st : State) : State :=
  {| settings := v; showDeleteConfirm := showDeleteConfirm st;
     storage := storage st; alerts := alerts st |}.

Definition setShowDeleteConfirm (b : bool) (st : State) : State :=
  {| settings := settings st; showDeleteConfirm := b;
     storage := storage st; alerts := alerts st |}.

Definition with_storage (s : Storage) (st : State) : State :=
  {| settings := settings st; showDeleteConfirm := showDeleteConfirm st;
     storage := s; alerts := alerts st |}.

(** The two readings of the clock in [exportData]. *)
Record Clock : Set := {
  exportDate_now : Z;
  filename_now : Z
}.

Definition day_of (now : Z) : completion string :=
  iso <- JSDate.toISOString (JSDate.ofTime now) ;;
  Return (hd EmptyString (JSString.split "T" iso)).

(** [exportData()]: the name and the text of the file handed to the
    user; a thrown exception is not caught. *)
Definition exportData (username : string) (clock : Clock) (st : State)
  : completion (string * string) :=
  notes <- JSON.parse (getItem_or (FileStorage.notes_key username) "[]" (storage st)) ;;
  exportDate <- JSDate.toISOString (JSDate.ofTime (exportDate_now clock)) ;;
  let exportData := VObj [("username", VStr username);
                          ("settings", settings st);
                          ("notes", notes);
                          ("exportDate", VStr exportDate);
                          ("version", VStr "1.0")] in
  let blob := JSON.stringify 2 exportData in
  day <- day_of (filename_now clock) ;;
  Return ("mydiary-backup-" +:+ username +:+ "-" +:+ day +:+ ".json", blob).

(** The statements of [reader.onload] inside [try]; the state at the
    point of a throw is kept. *)
Definition importData_try (username : string) (text : string) (st : State)
  : completion unit * State :=
  match JSON.parse text with
  | Throw e => (Throw e, st)
  | Return importedData =>
      match JSON.get_property "notes" importedData with
      | Throw e => (Throw e, st)
      | Return notes =>
          match (if truthy notes
                 then setItem (FileStorage.notes_key username) (JSON.stringify 0 notes)
                              (storage st)
                 else Return (storage st)) with
          | Throw e => (Throw e, st)
          | Return storage1 =>
              let st1 := with_storage storage1 st in
              let imported := get "settings" importedData in
              if truthy imported then
                let st2 := setSettings imported st1 in
                match setItem (settings_key username) (JSON.stringify 0 imported)
                              (storage st2) with
                | Throw e => (Throw e, st2)
                | Return storage2 =>
                    (Return tt, alert "Data imported successfully!" (with_storage storage2 st2))
                end
              else (Return tt, alert "Data imported successfully!" st1)
          end
      end
  end.

(** [importData(event)]: [file] is the text of the chosen file, if one
    was chosen. *)
Definition importData (username : string) (file : option string) (st : State) : State :=
  match file with
  | None => st
  | Some text =>
      match importData_try username text st with
      | (Return _, st') => st'
      | (Throw error, st') =>
          alert "Error importing data. Please check the file format." st'
      end
  end.

(** [deleteAllData()]; the timer that disarms the confirmation after
    five seconds is [confirmTimeout]. *)
Definition deleteAllData (username : string) (st : State) : State :=
  if showDeleteConfirm st then
    let s1 := removeItem (FileStorage.notes_key username) (storage st) in
    let s2 := removeItem (settings_key username) s1 in
    alert "All data has been deleted."
          (setShowDeleteConfirm false (setSettings defaultSettings (with_storage s2 st)))
  else setShowDeleteConfirm true st.

Definition confirmTimeout (st : State) : State := setShowDeleteConfirm false st.

End SettingsView.

(** ** The dashboard ([src/unnamed/part_002]) *)

Module Dashboard.

Import JSON LocalStorage.

(** The first statement of [loadUserStats(username)], which the
    calendar and search views repeat: the user's whole note list. *)
Definition userNotes (username : string) (st : Storage) : completion value :=
  JSON.parse (getItem_or (FileStorage.notes_key username) "[]" st).

End Dashboard.

(** ** src/lib/file-storage.ts: directory setup, download, the shared instance *)

Module DirectoryAccess.

Import JSON LocalStorage FileStorage.

(** What the page finds in [window].  [showDirectoryPicker] is missing
    from it, or is there and, once called, resolves to the handle of the
    folder the user picks or rejects (the user dismisses the picker, the
    browser refuses the folder). *)
Record Window : Type := {
  showDirectoryPicker : option (completion FileSystem.FileSystemDirectoryHandle)
}.

(** [isFileSystemAccessSupported()] *)
Definition isFileSystemAccessSupported (window : Window) : bool :=
  match showDirectoryPicker window with
  | Some _ => true
  | None => false
  end.

Definition directory_key (user : string) : string :=
  "mydiary_directory_initialized_" +:+ user.

(** [dir.getDirectoryHandle(sub, { create: true })] makes the sub-folder
    when there is none.  [taken] are the names that files of the picked
    folder bear: no sub-folder can be made under one of them. *)
Definition getDirectoryHandle_create (taken : gset string) (sub : string)
    (d : FileSystem.Directory) : completion string * FileSystem.Directory :=
  if FileSystem.rejects FileSystem.AtGetDirectoryHandle d then (Throw FileSystemError, d)
  else if bool_decide (sub ∈ FileSystem.subdirs d) then (Return sub, d)
  else if bool_decide (sub ∈ taken) then (Throw FileSystemError, d)
  else (Return sub,
        {| FileSystem.subdirs := {[ sub ]} ∪ FileSystem.subdirs d;
           FileSystem.files := FileSystem.files d;
           FileSystem.fault := FileSystem.fault d |}).

(** [for (const x of xs) { body }] *)
Fixpoint for_of {A} (xs : list A) (body : A -> M unit) : M unit :=
  match xs with
  | [] => ret tt
  | x :: rest => _ <~ body x ;; for_of rest body
  end.

Definition subdirs : list string := ["Text"; "Audio"; "Video"].

(** [createSubdirectories()] *)
Definition createSubdirectories (taken : gset string) (this : FileStorageManager) : M unit :=
  match directoryHandle this with
  | None => ret tt
  | Some _ =>
      for_of subdirs
        (fun subdir =>
           try_catch (_ <~ on_disk (getDirectoryHandle_create taken subdir) ;; ret tt)
                     (fun error => ret tt))
  end.

(** [storeDirectoryReference()] *)
Definition storeDirectoryReference (this : FileStorageManager) : M unit :=
  try_catch (on_storage (setItem (directory_key (username (config this))) "true"))
            (fun error => ret tt).

(** The statements of [initializeDirectoryStructure] inside [try]: what
    they return or throw, the instance with the handle it was given, and
    the world. *)
Definition initializeDirectoryStructure_try (window : Window) (taken : gset string)
    (this : FileStorageManager) (w : World)
  : completion bool * (FileStorageManager * World) :=
  if negb (isFileSystemAccessSupported window) then (Return false, (this, w))
  else
    match showDirectoryPicker window with
    | None => (Throw TypeError, (this, w))
    | Some (Throw e) => (Throw e, (this, w))
    | Some (Return handle) =>
        let this := {| config := config this; directoryHandle := Some handle |} in
        let '(r, w') := (_ <~ createSubdirectories taken this ;;
                         _ <~ storeDirectoryReference this ;;
                         ret true) w in
        (r, (this, w'))
    end.

(** [initializeDirectoryStructure()] *)
Definition initializeDirectoryStructure (window : Window) (taken : gset string)
    (this : FileStorageManager) (w : World) : bool * (FileStorageManager * World) :=
  match initializeDirectoryStructure_try window taken this w with
  | (Return answer, s) => (answer, s)
  | (Throw error, s) => (false, s)
  end.

(** [isDirectoryInitialized()] *)
Definition isDirectoryInitialized (this : FileStorageManager) (st : Storage) : bool :=
  match getItem (directory_key (username (config this))) st with
  | Some flag => String.eqb flag "true"
  | None => false
  end.

(** [resetDirectoryInitialization()] *)
Definition resetDirectoryInitialization (this : FileStorageManager) (st : Storage)
  : FileStorageManager * Storage :=
  ({| config := config this; directoryHandle := None |},
   removeItem (directory_key (username (config this))) st).

(** [triggerDownload(blob, filename)] hands the browser a file to save;
    the files handed over so far are kept in order. *)
Definition triggerDownload (blob : Blob) (filename : string)
    (downloads : list (string * Blob)) : list (string * Blob) :=
  downloads ++ [(filename, blob)].

(** [downloadFile(note)]; [Date_parse] is [new Date(text)]. *)
Definition downloadFile (Date_parse : string -> JSDate.Date) (this : FileStorageManager)
    (note : NoteFile) (downloads : list (string * Blob))
  : completion (list (string * Blob)) :=
  filename <- generateFilename (title note) (type note) (Date_parse (date note)) ;;
  match type note with
  | text =>
      let blob := FileSystem.utf8 (or_else (content note) EmptyString) in
      Return (triggerDownload blob filename downloads)
  | _ =>
      match blob note with
      | Some b => Return (triggerDownload b filename downloads)
      | None => Return downloads
      end
  end.

(** [getFileStorageManager(username, diaryPath)]: the instance handed
    out, which is also what the module variable [fileStorageInstance]
    holds afterwards. *)
Definition getFileStorageManager (username diaryPath : string)
    (fileStorageInstance : option FileStorageManager) : FileStorageManager :=
  match fileStorageInstance with
  | Some instance =>
      if negb (String.eqb (FileStorage.username (config instance)) username)
      then {| config := {| diaryPath := diaryPath; username := username |};
              directoryHandle := None |}
      else instance
  | None => {| config := {| diaryPath := diaryPath; username := username |};
               directoryHandle := None |}
  end.

End DirectoryAccess.

(** ** Objects: own properties, assignment, spread *)

Module JSObject.

Import JSON.

(** An array index: the canonical numeral of an integer below 2^32 - 1. *)
Definition array_index (k : string) : option N :=
  match JSNumber.read_uint (list_ascii_of_string k) with
  | (Decimal.Nil, _) => None
  | (u, []) =>
      if Decimal.uint_eq_dec (Decimal.unorm u) u
      then (if (N.of_uint u <? 4294967295)%N then Some (N.of_uint u) else None)
      else None
  | (_, _ :: _) => None
  end.

Definition has_key (k : string) (props : list (string * value)) : bool :=
  existsb (fun kv => String.eqb k (fst kv)) props.

(** Where a new property goes: an array index among the array indices,
    which come first in ascending order; any other key at the end. *)
Fixpoint insert_prop (k : string) (v : value) (props : list (string * value))
  : list (string * value) :=
  match props with
  | [] => [(k, v)]
  | (k', v') :: rest =>
      match array_index k, array_index k' with
      | Some n, Some n' =>
          if (n <? n')%N then (k, v) :: props else (k', v') :: insert_prop k v rest
      | Some _, None => (k, v) :: props
      | None, _ => (k', v') :: insert_prop k v rest
      end
  end.

(** [o[k] = v] on the properties of an ordinary object: a property that
    is there keeps its place.  A key [__proto__] names no property of the
    object and is outside the model. *)
Definition set_prop (k : string) (v : value) (props : list (string * value))
  : list (string * value) :=
  if has_key k props
  then List.map (fun kv => if String.eqb k (fst kv) then (fst kv, v) else kv) props
  else insert_prop k v props.

(** The elements of an array or the characters of a string under their
    indices. *)
Fixpoint indexed (i : Z) (items : list value) : list (string * value) :=
  match items with
  | [] => []
  | x :: rest => (JSNumber.toString i, x) :: indexed (i + 1) rest
  end.

(** The own enumerable properties that a spread copies. *)
Definition own_props (v : value) : list (string * value) :=
  match v with
  | VObj props => props
  | VArr items => indexed 0 items
  | VStr s =>
      indexed 0 (List.map (fun c => VStr (String c EmptyString)) (list_ascii_of_string s))
  | _ => []
  end.

Definition assign (target : list (string * value)) (source : value)
  : list (string * value) :=
  fold_left (fun acc kv => set_prop (fst kv) (snd kv) acc) (own_props source) target.

(** [{ ...a, ...b }] *)
Definition spread (sources : list value) : value :=
  VObj (fold_left assign sources []).

End JSObject.

(** ** src/components/settings-view.tsx: loading, saving and editing the
    settings, and the directory buttons *)

Module SettingsControls.

Import JSON LocalStorage FileStorage SettingsView.

(** The view with the rest of its [useState] cells, whether the root
    element of the document carries the class [dark], the module variable
    [fileStorageInstance] of [file-storage.ts], and the picked folder. *)
Record Page : Type := {
  view : State;
  hasChanges : bool;
  isDirectoryInitialized : bool;
  isInitializingDirectory : bool;
  dark : bool;
  fileStorageInstance : option FileStorageManager;
  directory : FileSystem.Directory
}.

(** What the browser decides: the folder picker, the names taken in the
    picked folder, and the answer of
    [window.matchMedia("(prefers-color-scheme: dark)")]. *)
Record Browser : Type := {
  window : DirectoryAccess.Window;
  taken : gset string;
  prefersDark : bool
}.

Definition with_view (v : State) (p : Page) : Page :=
  {| view := v; hasChanges := hasChanges p;
     isDirectoryInitialized := isDirectoryInitialized p;
     isInitializingDirectory := isInitializingDirectory p; dark := dark p;
     fileStorageInstance := fileStorageInstance p; directory := directory p |}.

Definition setHasChanges (b : bool) (p : Page) : Page :=
  {| view := view p; hasChanges := b;
     isDirectoryInitialized := isDirectoryInitialized p;
     isInitializingDirectory := isInitializingDirectory p; dark := dark p;
     fileStorageInstance := fileStorageInstance p; directory := directory p |}.

Definition setIsDirectoryInitialized (b : bool) (p : Page) : Page :=
  {| view := view p; hasChanges := hasChanges p;
     isDirectoryInitialized := b;
     isInitializingDirectory := isInitializingDirectory p; dark := dark p;
     fileStorageInstance := fileStorageInstance p; directory := directory p |}.

Definition setIsInitializingDirectory (b : bool) (p : Page) : Page :=
  {| view := view p; hasChanges := hasChanges p;
     isDirectoryInitialized := isDirectoryInitialized p;
     isInitializingDirectory := b; dark := dark p;
     fileStorageInstance := fileStorageInstance p; directory := directory p |}.

Definition with_dark (b : bool) (p : Page) : Page :=
  {| view := view p; hasChanges := hasChanges p;
     isDirectoryInitialized := isDirectoryInitialized p;
     isInitializingDirectory := isInitializingDirectory p; dark := b;
     fileStorageInstance := fileStorageInstance p; directory := directory p |}.

(** The shared instance after a call on it, and the world it acted on. *)
Definition with_instance (m : FileStorageManager) (w : World) (p : Page) : Page :=
  {| view := with_storage (localStorage w) (view p); hasChanges := hasChanges p;
     isDirectoryInitialized := isDirectoryInitialized p;
     isInitializingDirectory := isInitializingDirectory p; dark := dark p;
     fileStorageInstance := Some m; directory := disk w |}.

Definition world_of (p : Page) : World :=
  {| disk := directory p; localStorage := storage (view p) |}.

(** [loadSettings()]; [JSON.parse] is not guarded.  The callback left
    with [setTimeout] is [loadSettings_timeout]. *)
Definition loadSettings (username : string) (p : Page) : completion Page :=
  match getItem (settings_key username) (storage (view p)) with
  | Some savedSettings =>
      if JSString.truthy savedSettings then
        parsed <- JSON.parse savedSettings ;;
        let loadedSettings := JSObject.spread [defaultSettings; parsed] in
        Return (with_view (setSettings loadedSettings (view p)) p)
      else Return p
  | None => Return p
  end.

(** [applyTheme(theme)]: whether the root element carries [dark]
    afterwards. *)
Definition applyTheme (browser : Browser) (theme : value) : bool :=
  match theme with
  | VStr name =>
      if String.eqb name "dark" then true
      else if String.eqb name "light" then false
      else prefersDark browser
  | _ => prefersDark browser
  end.

(** [saveSettings()]; nothing is guarded, and the page at the point of
    a throw is kept. *)
Definition saveSettings (browser : Browser) (username : string) (p : Page)
  : completion unit * Page :=
  match setItem (settings_key username) (JSON.stringify 0 (settings (view p)))
                (storage (view p)) with
  | Throw e => (Throw e, p)
  | Return st =>
      let p := setHasChanges false (with_view (with_storage st (view p)) p) in
      match JSON.get_property "theme" (settings (view p)) with
      | Throw e => (Throw e, p)
      | Return theme => (Return tt, with_dark (applyTheme browser theme) p)
      end
  end.

(** The loop and the last assignment of [updateSettings], on the
    properties of [current]: the object under each key but the last is
    replaced by a copy, and the copy receives the rest of the path. *)
Fixpoint update_path (keys : list string) (value : value)
    (current : list (string * JSON.value)) : list (string * JSON.value) :=
  match keys with
  | [] => current
  | key :: rest =>
      match rest with
      | [] => JSObject.set_prop key value current
      | _ :: _ =>
          let copy := JSObject.assign [] (lookup_prop key current) in
          JSObject.set_prop key (VObj (update_path rest value copy)) current
      end
  end.

(** [updateSettings(path, value)] *)
Definition updateSettings (path : string) (value : value) (p : Page) : Page :=
  let keys := JSString.split "." path in
  let updated := VObj (update_path keys value (JSObject.assign [] (settings (view p)))) in
  setHasChanges true (with_view (setSettings updated (view p)) p).

(** The second argument of [getFileStorageManager], [settings.diaryPath],
    which [UserSettings] declares a string.  The manager keeps the path and
    never reads it; a value that is no string is kept as the empty
    string. *)
Definition path_text (diaryPath : value) : string :=
  match diaryPath with
  | VStr s => s
  | _ => EmptyString
  end.

(** [getFileStorageManager(username, settings.diaryPath)] *)
Definition fileStorage_of (username : string) (settings : value) (p : Page)
  : completion FileStorageManager :=
  diaryPath <- JSON.get_property "diaryPath" settings ;;
  Return (DirectoryAccess.getFileStorageManager username (path_text diaryPath)
            (fileStorageInstance p)).

(** [checkDirectoryStatus()] *)
Definition checkDirectoryStatus (username : string) (p : Page) : completion Page :=
  fileStorage <- fileStorage_of username (settings (view p)) p ;;
  Return (setIsDirectoryInitialized
            (DirectoryAccess.isDirectoryInitialized fileStorage (storage (view p)))
            (with_instance fileStorage (world_of p) p)).

(** The callback of [loadSettings], run with the settings it loaded. *)
Definition loadSettings_timeout (username : string) (loadedSettings : value) (p : Page)
  : completion Page :=
  fileStorage <- fileStorage_of username loadedSettings p ;;
  Return (setIsDirectoryInitialized
            (DirectoryAccess.isDirectoryInitialized fileStorage (storage (view p)))
            (with_instance fileStorage (world_of p) p)).

Definition alert_page (message : string) (p : Page) : Page :=
  with_view (alert message (view p)) p.

(** [initializeDirectoryStructure()] of the view. *)
Definition initializeDirectoryStructure (browser : Browser) (username : string) (p : Page)
  : Page :=
  let p := setIsInitializingDirectory true p in
  match fileStorage_of username (settings (view p)) p with
  | Throw error =>
      setIsInitializingDirectory false
        (alert_page "Error initializing directory structure. Please try again." p)
  | Return fileStorage =>
      let p := with_instance fileStorage (world_of p) p in
      if negb (DirectoryAccess.isFileSystemAccessSupported (window browser)) then
        setIsInitializingDirectory false
          (alert_page "File System Access API is not supported in your browser. Notes will be saved to localStorage and can be downloaded individually." p)
      else
        let '(success, (fileStorage, w)) :=
          DirectoryAccess.initializeDirectoryStructure (window browser) (taken browser)
            fileStorage (world_of p) in
        let p := with_instance fileStorage w p in
        setIsInitializingDirectory false
          (if success
           then alert_page "Directory structure initialized successfully! Your notes will now be saved to the selected folder with subfolders for Text, Audio, and Video."
                  (setIsDirectoryInitialized true p)
           else alert_page "Failed to initialize directory structure. Notes will continue to be saved to localStorage." p)
  end.

(** [resetDirectoryInitialization()] of the view; nothing is guarded. *)
Definition resetDirectoryInitialization (username : string) (p : Page) : completion Page :=
  fileStorage <- fileStorage_of username (settings (view p)) p ;;
  let '(fileStorage, st) :=
    DirectoryAccess.resetDirectoryInitialization fileStorage (storage (view p)) in
  Return (alert_page "Directory initialization has been reset. You can now select a new directory."
            (setIsDirectoryInitialized false
               (with_instance fileStorage
                  {| disk := directory p; localStorage := st |} p))).

End SettingsControls.

(** ** The dashboard ([src/unnamed/part_002]) and the home page
    ([src/unnamed/part_001]) *)

Module DashboardStats.

Import JSON LocalStorage.

(** [x === s] for a string [s] *)
Definition is_string (s : string) (x : value) : bool :=
  match x with
  | VStr t => String.eqb t s
  | _ => false
  end.

(** [checkDirectorySetup(username)]: the value handed to
    [setIsDirectorySetup]; [JSON.parse] is not guarded. *)
Definition checkDirectorySetup (username : string) (st : Storage) : completion bool :=
  userSettings <- JSON.parse (getItem_or (SettingsView.settings_key username) "{}" st) ;;
  let isSetup :=
    match getItem (DirectoryAccess.directory_key username) st with
    | Some flag => String.eqb flag "true"
    | None => false
    end in
  Return isSetup.

(** [notes.filter((note) => note.type === t).length] on the elements
    of an array; reading [type] of [null] throws. *)
Fixpoint count_of_type (t : string) (notes : list value) : completion Z :=
  match notes with
  | [] => Return 0
  | note :: rest =>
      type <- JSON.get_property "type" note ;;
      n <- count_of_type t rest ;;
      Return (if is_string t type then n + 1 else n)
  end.

(** [userNotes.filter(...).length]: only an array has [filter]. *)
Definition filter_count (t : string) (userNotes : value) : completion Z :=
  match userNotes with
  | VArr notes => count_of_type t notes
  | _ => Throw TypeError
  end.

(** [Math.round(a / b)] for [a >= 0] and [b > 0]: halves go up. *)
Definition round_div (a b : Z) : Z := (2 * a + b) / (2 * b).

(** [storageUsed] of [loadUserStats], from [storageSize]. *)
Definition storageUsed (storageSize : Z) : string :=
  if storageSize <? 1024 then JSNumber.toString storageSize +:+ " B"
  else if storageSize <? 1024 * 1024
       then JSNumber.toString (round_div storageSize 1024) +:+ " KB"
       else JSNumber.toString (round_div storageSize (1024 * 1024)) +:+ " MB".

(** [s.substring(0, n)] *)
Fixpoint substring0 (n : nat) (s : string) : string :=
  match n, s with
  | S n', String c rest => String c (substring0 n' rest)
  | _, _ => EmptyString
  end.

(** [String(v)], as a template literal does it. *)
Fixpoint to_string (v : value) : string :=
  match v with
  | VUndef => "undefined"
  | VNull => "null"
  | VBool true => "true"
  | VBool false => "false"
  | VNum n => JSNumber.toString n
  | VStr s => s
  | VArr items =>
      String.concat ","
        (List.map (fun x => match x with
                            | VUndef | VNull => EmptyString
                            | _ => to_string x
                            end) items)
  | VObj _ => "[object Object]"
  | VBlob _ => "[object Blob]"
  end.

(** The [preview] that [loadUserStats] gives a recent note. *)
Definition preview (note : value) : completion string :=
  type <- JSON.get_property "type" note ;;
  if is_string "text" type then
    match get "content" note with
    | VUndef | VNull => Return ("undefined" +:+ "...")
    | VStr content => Return (substring0 100 content +:+ "...")
    | _ => Throw TypeError
    end
  else Return (to_string type +:+ " recording").

(** [handleLogout()], before it tells the home page. *)
Definition handleLogout (st : Storage) : Storage :=
  removeItem "mydiary_remember" (removeItem "mydiary_user" st).

(** The effect of the home page: whether the dashboard is shown
    rather than the login form. *)
Definition isAuthenticated (st : Storage) : bool :=
  match getItem "mydiary_user" st with
  | Some user =>
      JSString.truthy user
      && match getItem "mydiary_remember" st with
         | Some rememberMe => String.eqb rememberMe "true"
         | None => false
         end
  | None => false
  end.

End DashboardStats.

(** ** The editors behind the dialog, and the small helpers of the views *)

Module NoteEditors.

Import JSON LocalStorage CreateNoteDialog.

(** [handleOpenTextEditor()], [handleOpenAudioRecorder()] and
    [handleOpenVideoRecorder()] of the dialog. *)
Definition open_editor (type : FileStorage.NoteType) (mode : ViewMode) (st : State) : State :=
  {| form := {| viewMode := mode; noteType := type;
                title := title (form st); content := content (form st);
                tags := tags (form st); mood := mood (form st) |};
     storage := storage st;
     created := created st |}.

Definition handleOpenTextEditor : State -> State := open_editor FileStorage.text editor.

Definition handleOpenAudioRecorder : State -> State :=
  open_editor FileStorage.audio audio_recorder.

Definition handleOpenVideoRecorder : State -> State :=
  open_editor FileStorage.video video_recorder.

(** [handleCancel()]: the state, and the argument of [onOpenChange]. *)
Definition handleCancel (st : State) : State * bool := (resetForm st, false).

(** [handleSave()] of the audio recorder: the arguments of [onSave],
    when it is called. *)
Definition audio_handleSave (audioBlob : option Blob) (title : string) (duration : Z)
  : option (string * Blob * Z) :=
  match audioBlob with
  | Some blob =>
      if JSString.truthy (JSString.trim title)
      then Some (JSString.trim title, blob, duration)
      else None
  | None => None
  end.

(** [handleSave()] of the video recorder. *)
Definition video_handleSave (videoBlob thumbnailBlob : option Blob) (title : string)
    (duration : Z) : option (string * Blob * Blob * Z) :=
  match videoBlob, thumbnailBlob with
  | Some video, Some thumbnail =>
      if JSString.truthy (JSString.trim title)
      then Some (JSString.trim title, video, thumbnail, duration)
      else None
  | _, _ => None
  end.

(** [handleSave()] of the text editor; [innerHTML] is the content of
    the editor element, when there is one. *)
Definition text_handleSave (innerHTML : option string) (title : string)
  : option (string * string) :=
  match innerHTML with
  | Some html => Some (title, html)
  | None => None
  end.

(** The [onSave] callbacks that the dialog hands to the editors. *)
Definition onSave_text (username : string) (clock : Clock) (noteTitle noteContent : string)
  : State -> completion State :=
  handleSave username clock (Some noteTitle) (VStr noteContent) None VUndef.

Definition onSave_audio (username : string) (clock : Clock) (noteTitle : string)
    (audioBlob : Blob) (duration : Z) : State -> completion State :=
  handleSave username clock (Some noteTitle) (VBlob audioBlob) (Some duration) VUndef.

Definition onSave_video (username : string) (clock : Clock) (noteTitle : string)
    (videoBlob thumbnailBlob : Blob) (duration : Z) : State -> completion State :=
  handleSave username clock (Some noteTitle) (VBlob videoBlob) (Some duration)
             (VBlob thumbnailBlob).

(** [s.padStart(2, "0")] *)
Definition padStart2 (s : string) : string :=
  match s with
  | EmptyString => "00"
  | String c EmptyString => String "0" s
  | _ => s
  end.

(** [Number.MAX_SAFE_INTEGER], 2^53 - 1: up to it, in absolute value,
    every whole number is a double. *)
Definition MAX_SAFE_INTEGER : Z := 9007199254740991.

(** [formatTime(seconds)] of the two recorders, for a whole number of
    seconds: [Math.floor(seconds / 60)] and [seconds % 60], which the code
    computes on doubles.  For a safe whole number the quotient of the
    doubles, rounded down, is the quotient of the whole numbers (it is
    below 2^48, where the nearest double is off by 1/64 at most, less than
    the 1/60 that keeps a quotient from the next whole number), the
    remainder is exact, and both are written in plain decimal digits.
    Beyond, the doubles part from the whole numbers and the model gives no
    answer. *)
Definition formatTime (seconds : Z) : option string :=
  if Z.abs seconds <=? MAX_SAFE_INTEGER then
    let mins := seconds / 60 in
    let secs := Z.rem seconds 60 in
    Some (padStart2 (JSNumber.toString mins) +:+ ":" +:+ padStart2 (JSNumber.toString secs))
  else None.

(** [formatDuration(seconds)] of the search view, on the same numbers. *)
Definition formatDuration (seconds : Z) : option string :=
  if Z.abs seconds <=? MAX_SAFE_INTEGER then
    let mins := seconds / 60 in
    let secs := Z.rem seconds 60 in
    Some (JSNumber.toString mins +:+ ":" +:+ padStart2 (JSNumber.toString secs))
  else None.

(** [toggleType(type)] and [toggleTag(tag)] of the search view:
    [prev.includes(x) ? prev.filter((t) => t !== x) : [...prev, x]] *)
Definition toggle (x : string) (prev : list string) : list string :=
  if existsb (String.eqb x) prev
  then List.filter (fun t => negb (String.eqb t x)) prev
  else prev ++ [x].

End NoteEditors.

(** * The vocabulary of the properties *)

Module Vocabulary.
Import JSON LocalStorage FileStorage.

(** ** JSON text *)

(** The text goes on with a digit. *)
Definition starts_with_digit (s : list ascii) : bool :=
  match s with
  | [] => false
  | c :: _ => JSString.is_digit c
  end.

(** What may follow a value inside JSON text: nothing, white space, a
    comma or a closing bracket. *)
Definition delimited (rest : list ascii) : bool :=
  match rest with
  | [] => true
  | c :: _ => is_ws c || Ascii.eqb c "," || Ascii.eqb c "]" || Ascii.eqb c "}"
  end.

(** The text starts a value: no white space first, no closing bracket. *)
Definition opens_value (s : list ascii) : Prop :=
  skip_ws s = s /\ strip_prefix ["]"%char] s = None.

(** With [fuel], the parser reads back every printed value, element
    list and member list that needs no more. *)
Definition reads_back (fuel : nat) : Prop :=
  (forall j space depth rest,
      (weight j <= fuel)%nat -> is_json j = true -> delimited rest = true ->
      parse_value fuel (print space depth j ++ rest) = Some (j, rest))
  /\ (forall x l space depth w0 w rest,
         (weight_items (x :: l) <= fuel)%nat ->
         forallb is_json (x :: l) = true ->
         forallb is_ws w0 = true -> forallb is_ws w = true ->
         parse_items fuel (w0 ++ print space depth x ++ print_more_items space depth l
                           ++ w ++ "]"%char :: rest)
         = Some (x :: l, rest))
  /\ (forall k x ps space depth w0 w rest,
         (weight_props ((k, x) :: ps) <= fuel)%nat ->
         forallb (fun kv => is_json (snd kv)) ((k, x) :: ps) = true ->
         forallb is_ws w0 = true -> forallb is_ws w = true ->
         parse_props fuel (w0 ++ quote k ++ colon space ++ print space depth x
                           ++ print_more_props space depth ps ++ w ++ "}"%char :: rest)
         = Some ((k, x) :: ps, rest)).

(** With [fuel], whatever the parser returns is JSON. *)
Definition parses_json (fuel : nat) : Prop :=
  (forall s v r, parse_value fuel s = Some (v, r) -> is_json v = true)
  /\ (forall s l r, parse_items fuel s = Some (l, r) -> forallb is_json l = true)
  /\ (forall s l r, parse_props fuel s = Some (l, r) ->
                    forallb (fun kv => is_json (snd kv)) l = true).

(** A field that holds JSON data, or is missing. *)
Definition plain (v : value) : Prop := is_json v = true \/ v = VUndef.

(** The string has no letter [T]. *)
Fixpoint no_T (s : string) : bool :=
  match s with
  | EmptyString => true
  | String c r => negb (Ascii.eqb c "T") && no_T r
  end.

(** ** File names *)

(** The sanitization in the words of the specification: remove every
    character outside [A-Za-z0-9 ], then turn each run of white space
    into one underscore. *)
Definition spec_kept (c : ascii) : bool :=
  JSString.is_lower c || JSString.is_upper c || JSString.is_digit c || Ascii.eqb c " ".

Fixpoint spec_remove (s : string) : string :=
  match s with
  | EmptyString => EmptyString
  | String c r => if spec_kept c then String c (spec_remove r) else spec_remove r
  end.

Definition sanitize_spec (title : string) : string :=
  JSString.underscore_runs false (spec_remove title).

(** A title with every white-space character read as a space. *)
Fixpoint spaces_for_whitespace (s : string) : string :=
  match s with
  | EmptyString => EmptyString
  | String c r =>
      String (if JSString.is_space c then " "%char else c) (spaces_for_whitespace r)
  end.

(** ** The note list and the two paths of saveNoteToFile *)

(** The read-modify-write that [saveToLocalStorage],
    [saveMetadataToLocalStorage] and [handleSave] share. *)
Definition append_to_list (key : string) (x : value) (st : Storage) : completion Storage :=
  existing <- JSON.parse (getItem_or key "[]" st) ;;
  existing <- JSON.push existing x ;;
  setItem key (JSON.stringify 0 existing) st.

(** What the record of the fallback path holds once read back. *)
Definition is_fallback_record (note : NoteFile) (stored : value) : Prop :=
  get "id" stored = VStr (id note)
  /\ get "title" stored = VStr (title note)
  /\ get "type" stored = VStr (type_string (type note))
  /\ get "content" stored = optional VStr (content note)
  /\ get "date" stored = VStr (date note)
  /\ get "tags" stored = strings (tags note)
  /\ get "mood" stored = optional VStr (mood note)
  /\ get "duration" stored = optional VNum (duration note)
  /\ get "savedToFile" stored = VBool false.

(** The keys of the shadow record. *)
Definition shadow_keys : list string :=
  ["id"; "title"; "type"; "filename"; "date"; "tags"; "mood"; "duration"; "savedToFile"].

(** What the shadow record holds once read back: the reduced projection
    of the note, the flag, and nothing else. *)
Definition is_shadow_record (note : NoteFile) (filename : string) (stored : value) : Prop :=
  get "id" stored = VStr (id note)
  /\ get "title" stored = VStr (title note)
  /\ get "type" stored = VStr (type_string (type note))
  /\ get "filename" stored = VStr filename
  /\ get "date" stored = VStr (date note)
  /\ get "tags" stored = strings (tags note)
  /\ get "mood" stored = optional VStr (mood note)
  /\ get "duration" stored = optional VNum (duration note)
  /\ get "savedToFile" stored = VBool true
  /\ forall k, ~ In k shadow_keys -> get k stored = VUndef.

(** The bytes [saveNoteToFile] writes for a note. *)
Definition written_bytes (note : NoteFile) : list Byte.byte :=
  match type note with
  | text => FileSystem.utf8 (or_else (content note) EmptyString)
  | _ => match blob note with
         | Some b => b
         | None => []
         end
  end.

(** The export path fails, leaving the world [w1]: there is no
    directory handle, or one of the calls of the path throws. *)
Definition export_fails (Date_parse : string -> JSDate.Date)
    (this : FileStorageManager) (note : NoteFile) (w w1 : World)
  : Prop :=
  (directoryHandle this = None /\ w1 = w)
  \/ (exists h e, directoryHandle this = Some h
                  /\ export Date_parse this note w = (Throw e, w1)).

(** The export path runs to its end, leaving the world [w1]. *)
Definition export_completes (Date_parse : string -> JSDate.Date)
    (this : FileStorageManager) (note : NoteFile) (w w1 : World)
  : Prop :=
  exists h, directoryHandle this = Some h
            /\ export Date_parse this note w = (Return true, w1).

(** ** The dialog and the settings view *)

(** The title [handleSave] settles on: [noteTitle || title]. *)
Definition finalTitle (noteTitle : option string) (st : CreateNoteDialog.State) : string :=
  or_else noteTitle (CreateNoteDialog.title (CreateNoteDialog.form st)).

(** The exported document, as a value. *)
Definition export_document (username : string) (settings notes : value) (exportDate : string)
  : value :=
  VObj [("username", VStr username);
        ("settings", settings);
        ("notes", notes);
        ("exportDate", VStr exportDate);
        ("version", VStr "1.0")].

End Vocabulary.

(** ** Directory setup, objects, the dashboard and the editors *)

Module SetupVocabulary.
Import JSON LocalStorage FileStorage DirectoryAccess.

(** The picked folder after one [getDirectoryHandle(sub, { create: true })],
    whether the call returned or threw. *)
Definition after_create (taken : gset string) (sub : string) (d : FileSystem.Directory)
  : FileSystem.Directory :=
  if FileSystem.rejects FileSystem.AtGetDirectoryHandle d then d
  else {| FileSystem.subdirs :=
            FileSystem.subdirs d ∪ (if bool_decide (sub ∈ taken) then ∅ else {[ sub ]});
          FileSystem.files := FileSystem.files d;
          FileSystem.fault := FileSystem.fault d |}.

(** The picker is there and resolves. *)
Definition picked (window : Window) : option FileSystem.FileSystemDirectoryHandle :=
  match showDirectoryPicker window with
  | Some (Return handle) => Some handle
  | _ => None
  end.

End SetupVocabulary.

Module ObjectVocabulary.
Import JSON.

(** [v[k1][k2]...], reading [undefined] through what is no object. *)
Definition get_path (keys : list string) (v : value) : value :=
  fold_left (fun current key => get key current) keys v.

(** [a ?? b] on a property read: the value there, or [b] when there is
    none. *)
Definition or_default (a b : value) : value :=
  match a with
  | VUndef => b
  | _ => a
  end.

(** The value that the last binding of [k] in a list of properties
    gives it. *)
Fixpoint last_binding (k : string) (ps : list (string * value)) : option value :=
  match ps with
  | [] => None
  | (k', v) :: rest =>
      match last_binding k rest with
      | Some found => Some found
      | None => if String.eqb k k' then Some v else None
      end
  end.

End ObjectVocabulary.

Module SettingsVocabulary.
Import JSON ObjectVocabulary.

(** Every value met along [keys], starting from [v], is an object
    that holds JSON data. *)
Fixpoint objects_along (keys : list string) (v : value) : bool :=
  match v with
  | VObj props =>
      forallb (fun kv => is_json (snd kv)) props
      && match keys with
         | [] => true
         | key :: rest => objects_along rest (lookup_prop key props)
         end
  | _ => false
  end.

End SettingsVocabulary.

Module DashboardVocabulary.
Import JSON.

(** A note of one of the three types. *)
Definition typed_note (note : value) : bool :=
  DashboardStats.is_string "text" (get "type" note)
  || DashboardStats.is_string "audio" (get "type" note)
  || DashboardStats.is_string "video" (get "type" note).

(** [null] or [undefined], of which no property can be read. *)
Definition nullish (v : value) : bool :=
  match v with
  | VUndef | VNull => true
  | _ => false
  end.

End DashboardVocabulary.

Module EditorVocabulary.

(** The string holds the character. *)
Fixpoint contains (c : ascii) (s : string) : bool :=
  match s with
  | EmptyString => false
  | String x rest => Ascii.eqb x c || contains c rest
  end.

(** The string does not start with white space. *)
Definition starts_clean (s : string) : bool :=
  match s with
  | EmptyString => true
  | String c _ => negb (JSString.is_space c)
  end.

End EditorVocabulary.

(** ** JSON text, by its grammar *)

Module JSONText.
Import JSON.

(** The texts [JSON.parse] accepts, by the grammar of JSON (ECMA-404) on
    code units below 256.  Unlike the parser of the model, the recognizer
    takes a number with a fraction or an exponent and every escape
    [\uXXXX]: a text it refuses is a text on which [JSON.parse] throws a
    [SyntaxError], whatever the numbers and strings in it. *)

Fixpoint skip_digits (s : list ascii) : list ascii :=
  match s with
  | [] => []
  | c :: r => if JSString.is_digit c then skip_digits r else s
  end.

(** One digit or more. *)
Definition skim_digits (s : list ascii) : option (list ascii) :=
  match s with
  | [] => None
  | c :: r => if JSString.is_digit c then Some (skip_digits r) else None
  end.

(** The integer part: a zero, or a digit from 1 to 9 and more digits. *)
Definition skim_int (s : list ascii) : option (list ascii) :=
  match s with
  | [] => None
  | c :: r =>
      if Ascii.eqb c "0" then Some r
      else if JSString.is_digit c then Some (skip_digits r)
      else None
  end.

(** The fraction, if there is one: a point and digits. *)
Definition skim_fraction (s : list ascii) : option (list ascii) :=
  match s with
  | c :: r => if Ascii.eqb c "." then skim_digits r else Some s
  | [] => Some s
  end.

(** The exponent, if there is one: [e] or [E], a sign or none, digits. *)
Definition skim_exponent (s : list ascii) : option (list ascii) :=
  match s with
  | c :: r =>
      if Ascii.eqb c "e" || Ascii.eqb c "E" then
        match r with
        | d :: r' => if Ascii.eqb d "+" || Ascii.eqb d "-" then skim_digits r' else skim_digits r
        | [] => None
        end
      else Some s
  | [] => Some s
  end.

Definition skim_number (s : list ascii) : option (list ascii) :=
  let unsigned :=
    match s with
    | c :: r => if Ascii.eqb c "-" then r else s
    | [] => s
    end in
  match skim_int unsigned with
  | None => None
  | Some r =>
      match skim_fraction r with
      | None => None
      | Some r' => skim_exponent r'
      end
  end.

Definition is_hex (c : ascii) : bool :=
  match hex_value c with
  | Some _ => true
  | None => false
  end.

(** A string literal after its opening quote: what follows its closing
    quote. *)
Fixpoint skim_string (s : list ascii) : option (list ascii) :=
  match s with
  | [] => None
  | c :: r =>
      if Ascii.eqb c "034" then Some r
      else if Ascii.eqb c "\" then
        match r with
        | [] => None
        | e :: r1 =>
            match simple_escape e with
            | Some _ => skim_string r1
            | None =>
                if Ascii.eqb e "u" then
                  match r1 with
                  | h1 :: h2 :: h3 :: h4 :: r2 =>
                      if is_hex h1 && is_hex h2 && is_hex h3 && is_hex h4
                      then skim_string r2
                      else None
                  | _ => None
                  end
                else None
            end
        end
      else if (JSString.code c <? 32)%N then None
      else skim_string r
  end.

(** A value, the elements of an array and the members of an object, with
    the fuel of the parser.  An element takes one unit of fuel and two
    characters or more, a level of nesting two units and its two brackets:
    the length of the text and one is fuel enough for JSON text. *)
Fixpoint skim_value (fuel : nat) (s : list ascii) {struct fuel} : option (list ascii) :=
  match fuel with
  | O => None
  | S f =>
      match skip_ws s with
      | [] => None
      | c :: r =>
          if Ascii.eqb c "n" then strip_prefix (list_ascii_of_string "ull") r
          else if Ascii.eqb c "t" then strip_prefix (list_ascii_of_string "rue") r
          else if Ascii.eqb c "f" then strip_prefix (list_ascii_of_string "alse") r
          else if Ascii.eqb c "034" then skim_string r
          else if Ascii.eqb c "[" then
            match strip_prefix ["]"%char] (skip_ws r) with
            | Some r' => Some r'
            | None => skim_items f r
            end
          else if Ascii.eqb c "{" then
            match strip_prefix ["}"%char] (skip_ws r) with
            | Some r' => Some r'
            | None => skim_props f r
            end
          else skim_number (c :: r)
      end
  end

with skim_items (fuel : nat) (s : list ascii) {struct fuel} : option (list ascii) :=
  match fuel with
  | O => None
  | S f =>
      match skim_value f s with
      | None => None
      | Some r =>
          match skip_ws r with
          | [] => None
          | c :: r1 =>
              if Ascii.eqb c "," then skim_items f r1
              else if Ascii.eqb c "]" then Some r1
              else None
          end
      end
  end

with skim_props (fuel : nat) (s : list ascii) {struct fuel} : option (list ascii) :=
  match fuel with
  | O => None
  | S f =>
      match strip_prefix ["034"%char] (skip_ws s) with
      | None => None
      | Some r =>
          match skim_string r with
          | None => None
          | Some r1 =>
              match strip_prefix [":"%char] (skip_ws r1) with
              | None => None
              | Some r2 =>
                  match skim_value f r2 with
                  | None => None
                  | Some r3 =>
                      match skip_ws r3 with
                      | [] => None
                      | c :: r4 =>
                          if Ascii.eqb c "," then skim_props f r4
                          else if Ascii.eqb c "}" then Some r4
                          else None
                      end
                  end
              end
          end
      end
  end.

(** The text is one JSON value, with nothing but white space around it. *)
Definition is_json_text (text : string) : bool :=
  let s := list_ascii_of_string text in
  match skim_value (S (length s)) s with
  | Some rest =>
      match skip_ws rest with
      | [] => true
      | _ :: _ => false
      end
  | None => false
  end.

(** The text is within the model: it is not JSON, or the parser of the
    model reads it (its numbers are whole, without fraction or exponent,
    and its escapes denote code units below 256). *)
Definition modelled (text : string) : bool :=
  match JSON.parse text with
  | Return _ => true
  | Throw _ => negb (is_json_text text)
  end.

(** The value is an array. *)
Definition is_array (v : value) : bool :=
  match v with
  | VArr _ => true
  | _ => false
  end.

End JSONText.

(** * Sample data *)

Import JSON LocalStorage FileStorage Vocabulary.

(** A manager without a directory handle, and one with a handle. *)
Definition alice : FileStorageManager :=
  {| config := {| diaryPath := "Diary"; username := "alice" |};
     directoryHandle := None |}.

Definition alice_exporting : FileStorageManager :=
  {| config := {| diaryPath := "Diary"; username := "alice" |};
     directoryHandle := Some {| FileSystem.name := "Diary" |} |}.

(** A text note and an audio note with three bytes of payload. *)
Definition hello_note : NoteFile :=
  {| id := "1736937000000";
     title := "Hello, World!";
     type := text;
     filename := "hello.txt";
     content := Some "Dear diary";
     blob := None;
     date := "2025-01-15T10:30:00.000Z";
     tags := ["day"; "first"];
     mood := Some "happy";
     duration := None |}.

Definition voice_note : NoteFile :=
  {| id := "1736937000001";
     title := "Voice memo";
     type := audio;
     filename := "memo.mp3";
     content := None;
     blob := Some [Byte.x01; Byte.x02; Byte.x03];
     date := "2025-01-15T10:31:00.000Z";
     tags := [];
     mood := None;
     duration := Some 3 |}.

(** A store with room, a store without any, and a store whose note list
    is not JSON. *)
Definition empty_store : Storage := {| items := ∅; quota := 2000 |}.

Definition full_store : Storage := {| items := ∅; quota := 0 |}.

Definition corrupt_store : Storage :=
  {| items := {[ notes_key "alice" := "not json" ]}; quota := 2000 |}.

(** The picked directory with its three sub-folders and no file, and
    the call that the browser rejects, if any. *)
Definition diary_directory (fault : option FileSystem.step) : FileSystem.Directory :=
  {| FileSystem.subdirs := {[ "Text"; "Audio"; "Video" ]};
     FileSystem.files := ∅;
     FileSystem.fault := fault |}.

Definition world (fault : option FileSystem.step) (st : Storage) : World :=
  {| disk := diary_directory fault; localStorage := st |}.

(** A title with a tab between two letters. *)
Definition tab_title : string := String "a" (String "009" (String "b" EmptyString)).

(** A form whose title is three spaces, and the clock of a save. *)
Definition blank_form : CreateNoteDialog.Form :=
  {| CreateNoteDialog.viewMode := CreateNoteDialog.select;
     CreateNoteDialog.noteType := text;
     CreateNoteDialog.title := "   ";
     CreateNoteDialog.content := "Dear diary";
     CreateNoteDialog.tags := "day, first";
     CreateNoteDialog.mood := "happy" |}.

Definition sample_clock : CreateNoteDialog.Clock :=
  {| CreateNoteDialog.id_now := 1736937000000;
     CreateNoteDialog.date_now := 1736937000000;
     CreateNoteDialog.createdAt_now := 1736937000001 |}.

(** The settings view with the default settings over a store. *)
Definition settings_state (confirm : bool) (st : Storage) : SettingsView.State :=
  {| SettingsView.settings := SettingsView.defaultSettings;
     SettingsView.showDeleteConfirm := confirm;
     SettingsView.storage := st;
     SettingsView.alerts := [] |}.

(** A store that holds a note list and settings for alice. *)
Definition alice_store : Storage :=
  {| items := {[ notes_key "alice" := JSON.stringify 0 (VArr [clean (noteData hello_note)]);
                 SettingsView.settings_key "alice"
                 := JSON.stringify 0 SettingsView.defaultSettings ]};
     quota := 2000 |}.

(** The dialog with a title filled in, over a store. *)
Definition titled_dialog (st : Storage) : CreateNoteDialog.State :=
  {| CreateNoteDialog.form :=
       {| CreateNoteDialog.viewMode := CreateNoteDialog.editor;
          CreateNoteDialog.noteType := text;
          CreateNoteDialog.title := "Hello";
          CreateNoteDialog.content := "Dear diary";
          CreateNoteDialog.tags := "day, first";
          CreateNoteDialog.mood := "happy" |};
     CreateNoteDialog.storage := st;
     CreateNoteDialog.created := 0 |}.

(** The clock of an export. *)
Definition export_clock : SettingsView.Clock :=
  {| SettingsView.exportDate_now := 1736937000000;
     SettingsView.filename_now := 1736937000005 |}.

(** A store that holds one note and has little room left. *)
Definition tight_store : Storage :=
  {| items := {[ notes_key "alice" := JSON.stringify 0 (VArr [clean (noteData hello_note)]) ]};
     quota := 300 |}.

(** The document exported from an empty store with the default settings. *)
Definition empty_backup : string :=
  match SettingsView.exportData "alice" export_clock (settings_state false empty_store) with
  | Return (_, doc) => doc
  | Throw _ => EmptyString
  end.

(** A browser whose folder picker hands out the diary folder, one whose
    user dismisses the picker, and one without the picker. *)
Definition picking_window : DirectoryAccess.Window :=
  {| DirectoryAccess.showDirectoryPicker := Some (Return {| FileSystem.name := "Diary" |}) |}.

Definition dismissing_window : DirectoryAccess.Window :=
  {| DirectoryAccess.showDirectoryPicker := Some (Throw FileSystemError) |}.

Definition plain_window : DirectoryAccess.Window :=
  {| DirectoryAccess.showDirectoryPicker := None |}.

(** A folder the user has just made: no sub-folder, no file of the
    diary, no call rejected. *)
Definition fresh_directory : FileSystem.Directory :=
  {| FileSystem.subdirs := ∅; FileSystem.files := ∅; FileSystem.fault := None |}.

Definition fresh_world (st : Storage) : World :=
  {| disk := fresh_directory; localStorage := st |}.

(** The folder holds a file called Audio. *)
Definition audio_taken : gset string := {[ "Audio" ]}.

(** A note whose date no engine reads as one. *)
Definition undated_note : NoteFile :=
  {| id := "1736937000002";
     title := "Undated";
     type := text;
     filename := "undated.txt";
     content := Some "Dear diary";
     blob := None;
     date := "yesterday";
     tags := [];
     mood := None;
     duration := None |}.

(** The settings page as it is first shown, over a store. *)
Definition settings_page (st : Storage) : SettingsControls.Page :=
  {| SettingsControls.view := settings_state false st;
     SettingsControls.hasChanges := false;
     SettingsControls.isDirectoryInitialized := false;
     SettingsControls.isInitializingDirectory := false;
     SettingsControls.dark := false;
     SettingsControls.fileStorageInstance := None;
     SettingsControls.directory := fresh_directory |}.

Definition picking_browser : SettingsControls.Browser :=
  {| SettingsControls.window := picking_window;
     SettingsControls.taken := audio_taken;
     SettingsControls.prefersDark := true |}.

(** Settings saved with a theme and one notification switch only. *)
Definition partial_settings : value :=
  VObj [("theme", VStr "dark"); ("notifications", VObj [("enabled", VBool true)])].

Definition partial_settings_store : Storage :=
  {| items := {[ SettingsView.settings_key "alice" := JSON.stringify 0 partial_settings ]};
     quota := 2000 |}.

(** The properties of the default settings. *)
Definition default_props : list (string * value) :=
  match SettingsView.defaultSettings with
  | VObj props => props
  | _ => []
  end.

(** The dialog after a recording was saved from the audio recorder. *)
Definition after_recording : CreateNoteDialog.State :=
  match NoteEditors.onSave_audio "alice" sample_clock "Voice memo"
          [Byte.x01; Byte.x02; Byte.x03] 3
          (NoteEditors.handleOpenAudioRecorder (titled_dialog empty_store)) with
  | Return st => st
  | Throw _ => titled_dialog empty_store
  end.

(** A store whose note list is JSON and not an array, and one whose
    settings are not JSON. *)
Definition object_store : Storage :=
  {| items := {[ notes_key "alice" := "{}" ]}; quota := 2000 |}.

Definition corrupt_settings_store : Storage :=
  {| items := {[ SettingsView.settings_key "alice" := "not json" ]}; quota := 2000 |}.

(** * Properties *)

(** ** JSON text: what is written is read back *)

Module JSONFacts.
Import JSON Vocabulary.

(** Decimal digits *)

Lemma digit_of_char_spec c :
  JSNumber.digit_of_char c = None <-> JSString.is_digit c = false.
Proof.
  destruct c as [[] [] [] [] [] [] [] []]; vm_compute; split; congruence.
Qed.

Lemma read_uint_chars u rest :
  starts_with_digit rest = false ->
  JSNumber.read_uint (JSNumber.chars_of_uint u ++ rest) = (u, rest).
Proof.
  intros Hrest. induction u; simpl; try (rewrite IHu; reflexivity).
  destruct rest as [|c r]; [reflexivity|]. simpl in *.
  apply digit_of_char_spec in Hrest. rewrite Hrest. reflexivity.
Qed.

Lemma to_uint_normal n : Decimal.unorm (N.to_uint n) = N.to_uint n.
Proof.
  rewrite <- (DecimalN.Unsigned.to_of (N.to_uint n)).
  rewrite DecimalN.Unsigned.of_to. reflexivity.
Qed.

Lemma to_uint_nonnil n : N.to_uint n <> Decimal.Nil.
Proof. rewrite <- to_uint_normal. apply unorm_nonnil. Qed.

Lemma continues_not_digit rest :
  continues_number rest = false -> starts_with_digit rest = false.
Proof.
  destruct rest as [|c r]; [reflexivity|]. simpl.
  intros H. repeat (apply orb_false_elim in H; destruct H as [H ?]). exact H.
Qed.

Lemma parse_number_unsigned n rest :
  continues_number rest = false ->
  parse_number (JSNumber.chars_of_uint (N.to_uint n) ++ rest)
  = Some (VNum (Z.of_N n), rest).
Proof.
  intros Hrest. unfold parse_number.
  pose proof (to_uint_nonnil n) as Hnil.
  pose proof (to_uint_normal n) as Hnorm.
  pose proof (DecimalN.Unsigned.of_to n) as Hof.
  pose proof (read_uint_chars (N.to_uint n) rest (continues_not_digit _ Hrest)) as Hread.
  destruct (N.to_uint n) as [|u|u|u|u|u|u|u|u|u|u] eqn:Hu; [congruence|..];
    cbn [JSNumber.chars_of_uint app] in Hread |- *; cbn [Ascii.eqb Bool.eqb];
    rewrite Hread;
    (destruct (Decimal.uint_eq_dec _ _) as [_|Hne]; [|congruence]);
    rewrite Hrest, Hof; reflexivity.
Qed.

Lemma parse_number_chars z rest :
  continues_number rest = false ->
  parse_number (JSNumber.chars z ++ rest) = Some (VNum z, rest).
Proof.
  intros Hrest. unfold JSNumber.chars.
  destruct (Z.ltb_spec z 0) as [Hneg|Hpos].
  - unfold parse_number. cbn [app Ascii.eqb Bool.eqb].
    pose proof (to_uint_nonnil (Z.abs_N z)) as Hnil.
    pose proof (to_uint_normal (Z.abs_N z)) as Hnorm.
    rewrite (read_uint_chars _ _ (continues_not_digit _ Hrest)).
    destruct (N.to_uint (Z.abs_N z)) eqn:Hu; [congruence|..];
      (destruct (Decimal.uint_eq_dec _ _) as [_|Hne]; [|congruence]);
      rewrite Hrest, <- Hu, DecimalN.Unsigned.of_to, N2Z.inj_abs_N;
      replace (- Z.abs z) with z by lia; reflexivity.
  - rewrite parse_number_unsigned by assumption.
    rewrite Z2N.id by assumption. reflexivity.
Qed.

(** String literals *)

Lemma parse_string_escape c tl :
  parse_string (escape c ++ tl) = prepend c (parse_string tl).
Proof.
  destruct c as [[] [] [] [] [] [] [] []]; reflexivity.
Qed.

Lemma parse_string_escaped cs rest :
  parse_string (flat_map escape cs ++ "034"%char :: rest) = Some (cs, rest).
Proof.
  induction cs as [|c cs IH]; [reflexivity|].
  cbn [flat_map]. rewrite <- app_assoc, parse_string_escape, IH. reflexivity.
Qed.

Lemma parse_string_quote s rest :
  exists body : list ascii,
    (quote s ++ rest)%list = "034"%char :: body
    /\ parse_string body = Some (list_ascii_of_string s, rest).
Proof.
  exists (flat_map escape (list_ascii_of_string s) ++ "034"%char :: rest). split.
  - unfold quote. cbn [app]. rewrite <- app_assoc. reflexivity.
  - apply parse_string_escaped.
Qed.

(** White space *)

Lemma skip_ws_app w s : forallb is_ws w = true -> skip_ws (w ++ s) = skip_ws s.
Proof.
  induction w as [|c w IH]; [reflexivity|]. cbn [forallb app skip_ws].
  intros [Hc Hw]%andb_prop. rewrite Hc. auto.
Qed.

Lemma newline_ws space depth : forallb is_ws (newline space depth) = true.
Proof.
  destruct space; [reflexivity|]. cbn [newline forallb]. 
  generalize (S space * depth)%nat. intros n. induction n; [reflexivity|exact IHn].
Qed.

Lemma parse_value_ws fuel w s :
  forallb is_ws w = true -> parse_value fuel (w ++ s) = parse_value fuel s.
Proof.
  intros Hw. destruct fuel; [reflexivity|]. cbn [parse_value].
  rewrite skip_ws_app by assumption. reflexivity.
Qed.

(** How printed values begin *)

Lemma delimited_continues rest :
  delimited rest = true -> continues_number rest = false.
Proof.
  destruct rest as [|c r]; [reflexivity|].
  destruct c as [[] [] [] [] [] [] [] []]; vm_compute; congruence.
Qed.

Lemma chars_head z :
  exists c t, JSNumber.chars z = c :: t
              /\ (JSString.is_digit c || Ascii.eqb c "-") = true.
Proof.
  unfold JSNumber.chars. destruct (z <? 0).
  - eexists _, _. split; reflexivity.
  - pose proof (to_uint_nonnil (Z.to_N z)) as Hnil.
    destruct (N.to_uint (Z.to_N z)); [congruence|..];
      eexists _, _; split; reflexivity.
Qed.

Lemma number_start c :
  (JSString.is_digit c || Ascii.eqb c "-") = true ->
  is_ws c = false
  /\ Ascii.eqb c "n" = false /\ Ascii.eqb c "t" = false /\ Ascii.eqb c "f" = false
  /\ Ascii.eqb c "034" = false /\ Ascii.eqb c "[" = false /\ Ascii.eqb c "{" = false
  /\ Ascii.eqb "]" c = false.
Proof.
  destruct c as [[] [] [] [] [] [] [] []]; vm_compute; intros H;
    try discriminate H; repeat split; reflexivity.
Qed.

Lemma number_dispatch c r fuel :
  (JSString.is_digit c || Ascii.eqb c "-") = true ->
  parse_value (S fuel) (c :: r) = parse_number (c :: r)
  /\ opens_value (c :: r).
Proof.
  intros (Hws & Hn & Ht & Hf & Hq & Ha & Ho & Hc)%number_start.
  unfold opens_value. cbn [parse_value skip_ws strip_prefix].
  rewrite Hws, Hn, Ht, Hf, Hq, Ha, Ho, Hc. auto.
Qed.

Lemma print_opens space depth j rest :
  is_json j = true -> opens_value (print space depth j ++ rest).
Proof.
  destruct j as [| |[]|n|s|[|x l]|[|[k x] ps]|b]; try discriminate; intros _.
  1, 2, 3, 6, 7, 8, 9: split; reflexivity.
  - destruct (chars_head n) as (c & t & Hc & Hd). cbn [print]. rewrite Hc.
    apply (number_dispatch c (t ++ rest) O Hd).
  - destruct (parse_string_quote s rest) as (body & Hb & _). cbn [print].
    rewrite Hb. split; reflexivity.
Qed.

(** Reading back what was printed *)

Lemma print_array space depth x l :
  print space depth (VArr (x :: l))
  = "["%char :: newline space (S depth) ++ print space (S depth) x
    ++ print_more_items space (S depth) l ++ newline space depth ++ ["]"%char].
Proof. reflexivity. Qed.

Lemma print_object space depth k x ps :
  print space depth (VObj ((k, x) :: ps))
  = "{"%char :: newline space (S depth) ++ quote k ++ colon space
    ++ print space (S depth) x
    ++ print_more_props space (S depth) ps ++ newline space depth ++ ["}"%char].
Proof. reflexivity. Qed.

Lemma delimited_closing w close rest :
  forallb is_ws w = true ->
  close = "]"%char \/ close = "}"%char ->
  delimited (w ++ close :: rest) = true.
Proof.
  intros Hw Hc. destruct w as [|c w]; cbn [app delimited].
  - destruct Hc as [-> | ->]; reflexivity.
  - cbn [forallb] in Hw. apply andb_prop in Hw as [-> _]. reflexivity.
Qed.

Lemma delimited_more_items space depth l w rest :
  forallb is_ws w = true ->
  delimited (print_more_items space depth l ++ w ++ "]"%char :: rest) = true.
Proof.
  intros Hw. destruct l; [|reflexivity]. apply delimited_closing; auto.
Qed.

Lemma delimited_more_props space depth ps w rest :
  forallb is_ws w = true ->
  delimited (print_more_props space depth ps ++ w ++ "}"%char :: rest) = true.
Proof.
  intros Hw. destruct ps as [|[k y] ps]; [|reflexivity]. apply delimited_closing; auto.
Qed.

Lemma strip_prefix_same c s : strip_prefix [c] (c :: s) = Some s.
Proof. cbn [strip_prefix]. rewrite Ascii.eqb_refl. reflexivity. Qed.

Lemma strip_colon space s :
  exists w, strip_prefix [":"%char] (skip_ws (colon space ++ s)) = Some (w ++ s)
            /\ forallb is_ws w = true.
Proof.
  destruct space; [exists []|exists [" "%char]]; split; reflexivity.
Qed.

Lemma reads_back_value fuel :
  reads_back fuel ->
  forall j space depth rest,
    (weight j <= S fuel)%nat -> is_json j = true -> delimited rest = true ->
    parse_value (S fuel) (print space depth j ++ rest) = Some (j, rest).
Proof.
  intros (IHv & IHi & IHp) j space depth rest Hw Hj Hrest.
  destruct j as [| |[]|n|s|[|x l]|[|[k x] ps]|b]; try discriminate; try reflexivity.
  - (* number *)
    destruct (chars_head n) as (c & t & Hc & Hd).
    pose proof (number_dispatch c (t ++ rest) fuel Hd) as [Hdisp _].
    cbn [print]. rewrite Hc in *. cbn [app]. rewrite Hdisp.
    change (c :: t ++ rest) with ((c :: t) ++ rest). rewrite <- Hc.
    apply parse_number_chars, delimited_continues, Hrest.
  - (* string *)
    destruct (parse_string_quote s rest) as (body & Hb & Hp).
    cbn [print]. rewrite Hb. cbn [parse_value skip_ws is_ws Ascii.eqb Bool.eqb orb].
    rewrite Hp, string_of_list_ascii_of_string. reflexivity.
  - (* array *)
    rewrite print_array. cbn [app]. rewrite <- !app_assoc. cbn [app].
    cbn [parse_value skip_ws is_ws Ascii.eqb Bool.eqb orb].
    cbn [weight] in Hw. fold (weight_items (x :: l)) in Hw.
    cbn [is_json] in Hj.
    rewrite (skip_ws_app (newline _ _)) by apply newline_ws.
    destruct (print_opens space (S depth) x
                (print_more_items space (S depth) l ++ newline space depth
                 ++ "]"%char :: rest)) as [Hskip Hopen].
    { cbn [forallb] in Hj. apply andb_prop in Hj. tauto. }
    rewrite Hskip, Hopen.
    rewrite IHi; auto using newline_ws. lia.
  - (* object *)
    rewrite print_object. cbn [app]. rewrite <- !app_assoc. cbn [app].
    cbn [parse_value skip_ws is_ws Ascii.eqb Bool.eqb orb].
    cbn [weight] in Hw. fold (weight_props ((k, x) :: ps)) in Hw.
    cbn [is_json] in Hj.
    rewrite (skip_ws_app (newline _ _)) by apply newline_ws.
    destruct (parse_string_quote k (colon space ++ print space (S depth) x
                ++ print_more_props space (S depth) ps ++ newline space depth
                ++ "}"%char :: rest)) as (body & Hb & _).
    match goal with
    | |- context [strip_prefix ?p (skip_ws ?s)] =>
        assert (strip_prefix p (skip_ws s) = None) as ->
          by (rewrite Hb; reflexivity)
    end.
    rewrite IHp; auto using newline_ws. lia.
Qed.

Lemma reads_back_items fuel :
  reads_back fuel ->
  forall x l space depth w0 w rest,
    (weight_items (x :: l) <= S fuel)%nat ->
    forallb is_json (x :: l) = true ->
    forallb is_ws w0 = true -> forallb is_ws w = true ->
    parse_items (S fuel) (w0 ++ print space depth x ++ print_more_items space depth l
                          ++ w ++ "]"%char :: rest)
    = Some (x :: l, rest).
Proof.
  intros (IHv & IHi & IHp) x l space depth w0 w rest Hw Hj Hw0 Hws.
  cbn [weight_items] in Hw. fold weight_items in Hw.
  cbn [forallb] in Hj. apply andb_prop in Hj as [Hx Hl].
  cbn [parse_items]. rewrite parse_value_ws by assumption.
  rewrite IHv; [|lia|assumption|apply delimited_more_items; assumption].
  destruct l as [|y l].
  - cbn [print_more_items app]. rewrite skip_ws_app by assumption. reflexivity.
  - cbn [print_more_items app skip_ws is_ws Ascii.eqb Bool.eqb orb].
    rewrite <- !app_assoc.
    rewrite IHi; auto using newline_ws. lia.
Qed.

Lemma reads_back_props fuel :
  reads_back fuel ->
  forall k x ps space depth w0 w rest,
    (weight_props ((k, x) :: ps) <= S fuel)%nat ->
    forallb (fun kv => is_json (snd kv)) ((k, x) :: ps) = true ->
    forallb is_ws w0 = true -> forallb is_ws w = true ->
    parse_props (S fuel) (w0 ++ quote k ++ colon space ++ print space depth x
                          ++ print_more_props space depth ps ++ w ++ "}"%char :: rest)
    = Some ((k, x) :: ps, rest).
Proof.
  intros (IHv & IHi & IHp) k x ps space depth w0 w rest Hw Hj Hw0 Hws.
  cbn [weight_props] in Hw. fold weight_props in Hw.
  cbn [forallb snd] in Hj. apply andb_prop in Hj as [Hx Hps].
  cbn [parse_props]. rewrite skip_ws_app by assumption.
  destruct (parse_string_quote k (colon space ++ print space depth x
              ++ print_more_props space depth ps ++ w ++ "}"%char :: rest))
    as (body & Hb & Hp).
  rewrite Hb. change (skip_ws ("034"%char :: body)) with ("034"%char :: body).
  rewrite strip_prefix_same, Hp.
  destruct (strip_colon space (print space depth x
              ++ print_more_props space depth ps ++ w ++ "}"%char :: rest))
    as (wc & Hc & Hwc).
  rewrite Hc, parse_value_ws by assumption.
  rewrite IHv; [|lia|assumption|apply delimited_more_props; assumption].
  rewrite string_of_list_ascii_of_string.
  destruct ps as [|[k' y] ps].
  - cbn [print_more_props app]. rewrite skip_ws_app by assumption. reflexivity.
  - cbn [print_more_props app skip_ws is_ws Ascii.eqb Bool.eqb orb].
    rewrite <- !app_assoc.
    rewrite IHp; auto using newline_ws. lia.
Qed.

Lemma reads_back_all fuel : reads_back fuel.
Proof.
  induction fuel as [|fuel IH].
  - repeat split.
    + intros j ? ? ? Hw. destruct j; cbn in Hw; lia.
    + intros ? ? ? ? ? ? ? Hw. cbn in Hw. lia.
    + intros ? ? ? ? ? ? ? ? Hw. cbn in Hw. lia.
  - repeat split.
    + apply reads_back_value, IH.
    + apply reads_back_items, IH.
    + apply reads_back_props, IH.
Qed.

(** Induction over values, through the lists nested in them *)

Section ValueInduction.
Variable P : value -> Prop.
Hypothesis HUndef : P VUndef.
Hypothesis HNull : P VNull.
Hypothesis HBool : forall b, P (VBool b).
Hypothesis HNum : forall n, P (VNum n).
Hypothesis HStr : forall s, P (VStr s).
Hypothesis HArr : forall l, Forall P l -> P (VArr l).
Hypothesis HObj : forall ps, Forall (fun kv => P (snd kv)) ps -> P (VObj ps).
Hypothesis HBlob : forall b, P (VBlob b).

Lemma value_induction (v : value) : P v.
Proof.
  revert v. fix IH 1. intros [| |b|n|s|l|ps|b].
  - exact HUndef.
  - exact HNull.
  - apply HBool.
  - apply HNum.
  - apply HStr.
  - apply HArr. revert l. fix IHl 1. intros [|x l].
    + apply List.Forall_nil.
    + apply List.Forall_cons; [apply IH|apply IHl].
  - apply HObj. revert ps. fix IHps 1. intros [|[k x] ps].
    + apply List.Forall_nil.
    + apply List.Forall_cons; [apply IH|apply IHps].
  - apply HBlob.
Qed.

End ValueInduction.

Lemma clean_array l : clean (VArr l) = VArr (clean_items l).
Proof. reflexivity. Qed.

Lemma clean_object ps : clean (VObj ps) = VObj (clean_props ps).
Proof. reflexivity. Qed.

Lemma clean_items_app l1 l2 : clean_items (l1 ++ l2) = clean_items l1 ++ clean_items l2.
Proof.
  induction l1 as [|x l1 IH]; [reflexivity|].
  cbn [app clean_items]. fold clean_items. rewrite IH. destruct x; reflexivity.
Qed.

(** What [stringify] keeps is JSON, and JSON is kept as it is. *)
Lemma clean_is_json v : v <> VUndef -> is_json (clean v) = true.
Proof.
  induction v as [| | | | |l IH|ps IH|] using value_induction;
    intros Hv; try reflexivity; try congruence.
  - rewrite clean_array. cbn [is_json]. clear Hv.
    induction IH as [|x l Hx _ IHl]; [reflexivity|].
    cbn [clean_items]. fold clean_items.
    destruct x; cbn [forallb]; rewrite ?IHl; try reflexivity;
      rewrite Hx by congruence; reflexivity.
  - rewrite clean_object. cbn [is_json]. clear Hv.
    induction IH as [|[k x] ps Hx _ IHps]; [reflexivity|].
    cbn [clean_props]. fold clean_props. cbn [snd] in Hx.
    destruct x; cbn [forallb snd]; rewrite ?IHps; try reflexivity;
      rewrite Hx by congruence; reflexivity.
Qed.

Lemma clean_items_cons x l :
  x <> VUndef -> clean_items (x :: l) = clean x :: clean_items l.
Proof. destruct x; congruence || reflexivity. Qed.

Lemma clean_props_cons k x ps :
  x <> VUndef -> clean_props ((k, x) :: ps) = (k, clean x) :: clean_props ps.
Proof. destruct x; congruence || reflexivity. Qed.

Lemma json_defined v : is_json v = true -> v <> VUndef.
Proof. intros H ->. discriminate. Qed.

Lemma clean_json v : is_json v = true -> clean v = v.
Proof.
  induction v as [| |b|n|s|l IH|ps IH|b] using value_induction;
    intros Hv; try reflexivity; try discriminate.
  - rewrite clean_array. f_equal. cbn [is_json] in Hv.
    induction IH as [|x l Hx _ IHl]; [reflexivity|].
    cbn [forallb] in Hv. apply andb_prop in Hv as [Hjx Hjl].
    rewrite clean_items_cons by (apply json_defined, Hjx).
    rewrite IHl, Hx by assumption. reflexivity.
  - rewrite clean_object. f_equal. cbn [is_json] in Hv.
    induction IH as [|[k x] ps Hx _ IHps]; [reflexivity|].
    cbn [forallb snd] in Hv, Hx. apply andb_prop in Hv as [Hjx Hjps].
    rewrite clean_props_cons by (apply json_defined, Hjx).
    rewrite IHps, Hx by assumption. reflexivity.
Qed.

Lemma clean_items_json l : forallb is_json l = true -> clean_items l = l.
Proof.
  intros Hl. pose proof (clean_json (VArr l) Hl) as H.
  rewrite clean_array in H. congruence.
Qed.

(** Printed text is at least as long as the fuel it takes to read. *)
Lemma quote_length s : (1 <= length (quote s))%nat.
Proof. unfold quote. cbn [length]. lia. Qed.

Lemma weight_le_length v :
  forall space depth, (weight v <= length (print space depth v))%nat.
Proof.
  induction v as [| |b|n|s|l IH|ps IH|b] using value_induction;
    intros space depth.
  - cbn. lia.
  - cbn. lia.
  - destruct b; cbn; lia.
  - destruct (chars_head n) as (c & t & Hc & _). cbn [print weight].
    rewrite Hc. cbn [length]. lia.
  - cbn [print weight]. apply quote_length.
  - destruct IH as [|x l Hx Hl]; [cbn; lia|].
    rewrite print_array. cbn [weight]. fold (weight_items l).
    cbn [length]. rewrite !length_app. cbn [length].
    specialize (Hx space (S depth)).
    assert (weight_items l <= length (print_more_items space (S depth) l))%nat; [|lia].
    induction Hl as [|y l Hy _ IHl]; [cbn; lia|].
    cbn [weight_items print_more_items]. fold weight_items.
    fold (print_more_items space (S depth)).
    cbn [length]. rewrite !length_app.
    specialize (Hy space (S depth)). lia.
  - destruct IH as [|[k x] ps Hx Hps]; [cbn; lia|].
    rewrite print_object. cbn [weight]. fold (weight_props ps).
    cbn [length]. rewrite !length_app. cbn [length snd] in *.
    specialize (Hx space (S depth)).
    assert (weight_props ps <= length (print_more_props space (S depth) ps))%nat; [|lia].
    induction Hps as [|[k' y] ps Hy _ IHps]; [cbn; lia|].
    cbn [weight_props print_more_props]. fold weight_props.
    fold (print_more_props space (S depth)).
    cbn [length snd] in *. rewrite !length_app.
    specialize (Hy space (S depth)). lia.
  - cbn. lia.
Qed.

(** [JSON.parse(JSON.stringify(v, null, space))] is what [stringify]
    keeps of [v]. *)
Theorem parse_stringify space v :
  v <> VUndef -> parse (stringify space v) = Return (clean v).
Proof.
  intros Hv. unfold parse, stringify.
  rewrite list_ascii_of_string_of_list_ascii.
  pose proof (reads_back_all (S (length (print space 0 (clean v))))) as (Hread & _).
  specialize (Hread (clean v) space O []).
  rewrite app_nil_r in Hread. rewrite Hread; [reflexivity| |apply clean_is_json, Hv|reflexivity].
  pose proof (weight_le_length (clean v) space O). lia.
Qed.

(** Whatever is parsed is JSON. *)

Ltac split_matches :=
  repeat match goal with
    | H : Some _ = Some _ |- _ => injection H as <- <-
    | H : None = Some _ |- _ => discriminate H
    | H : context [match ?x with _ => _ end] |- _ => destruct x eqn:?
    end.

Lemma parses_json_all fuel : parses_json fuel.
Proof.
  induction fuel as [|fuel (IHv & IHi & IHp)]; [repeat split; discriminate|].
  repeat split.
  - intros s v r H. cbn [parse_value] in H. unfold keyword, parse_number in H.
    split_matches; try reflexivity; cbn [is_json]; eauto.
  - intros s l r H. cbn [parse_items] in H.
    split_matches; cbn [forallb]; rewrite ?andb_true_r; apply andb_true_intro || idtac; eauto.
  - intros s l r H. cbn [parse_props] in H.
    split_matches; cbn [forallb snd]; rewrite ?andb_true_r; apply andb_true_intro || idtac; eauto.
Qed.

Theorem parse_is_json text v : parse text = Return v -> is_json v = true.
Proof.
  unfold parse. intros H.
  destruct (parse_value _ _) as [[v' r]|] eqn:Hp; [|discriminate].
  destruct (skip_ws r); [|discriminate].
  injection H as <-. eapply (parses_json_all _), Hp.
Qed.

(** Text that parses can be written back and read again unchanged. *)
Corollary parse_stringify_parsed text v space :
  parse text = Return v -> parse (stringify space v) = Return v.
Proof.
  intros H. pose proof (parse_is_json _ _ H) as Hj.
  rewrite parse_stringify; [|intros ->; discriminate].
  rewrite clean_json by assumption. reflexivity.
Qed.

(** [push] onto a parsed array, written and read back. *)
Lemma parse_stringify_push text l x :
  parse text = Return (VArr l) -> x <> VUndef ->
  parse (stringify 0 (VArr (l ++ [x]))) = Return (VArr (l ++ [clean x])).
Proof.
  intros H Hx. rewrite parse_stringify by discriminate.
  rewrite clean_array, clean_items_app.
  rewrite (clean_items_json l) by exact (parse_is_json _ _ H).
  destruct x; try reflexivity. congruence.
Qed.

End JSONFacts.

(** ** localStorage and the note list *)

Module StoreFacts.
Import JSON LocalStorage Vocabulary JSONFacts.

Lemma getItem_setItem key val st st' :
  setItem key val st = Return st' -> getItem key st' = Some val.
Proof.
  unfold setItem, getItem. destruct (_ <=? _)%nat; [|discriminate].
  intros [= <-]. cbn. apply lookup_insert_eq.
Qed.

Lemma getItem_setItem_ne key key' val st st' :
  key <> key' -> setItem key val st = Return st' -> getItem key' st' = getItem key' st.
Proof.
  unfold setItem, getItem. intros Hne. destruct (_ <=? _)%nat; [|discriminate].
  intros [= <-]. cbn. apply lookup_insert_ne, Hne.
Qed.

Lemma getItem_removeItem key st : getItem key (removeItem key st) = None.
Proof. apply lookup_delete_eq. Qed.

Lemma getItem_removeItem_ne key key' st :
  key <> key' -> getItem key' (removeItem key st) = getItem key' st.
Proof. intros Hne. apply lookup_delete_ne, Hne. Qed.

Lemma weight_pos v : (1 <= weight v)%nat.
Proof. destruct v; cbn; lia. Qed.

Lemma stringify_truthy space v : JSString.truthy (stringify space v) = true.
Proof.
  unfold stringify.
  pose proof (weight_le_length (clean v) space O) as Hlen.
  pose proof (weight_pos (clean v)) as Hpos.
  destruct (print space O (clean v)); [cbn in Hlen; lia|reflexivity].
Qed.

Lemma getItem_or_setItem key fallback space v st st' :
  setItem key (stringify space v) st = Return st' ->
  getItem_or key fallback st' = stringify space v.
Proof.
  intros H. unfold getItem_or. rewrite (getItem_setItem _ _ _ _ H).
  rewrite stringify_truthy. reflexivity.
Qed.

Lemma getItem_or_ne key key' fallback val st st' :
  key <> key' -> setItem key val st = Return st' ->
  getItem_or key' fallback st' = getItem_or key' fallback st.
Proof.
  intros Hne H. unfold getItem_or. rewrite (getItem_setItem_ne _ _ _ _ _ Hne H).
  reflexivity.
Qed.

(** The read-modify-write of every append: once the new list is
    stored, reading gives the old list followed by what [stringify]
    keeps of the new element. *)
Lemma append_read_back key st l x st' :
  parse (getItem_or key "[]" st) = Return (VArr l) ->
  x <> VUndef ->
  setItem key (stringify 0 (VArr (l ++ [x]))) st = Return st' ->
  parse (getItem_or key "[]" st') = Return (VArr (l ++ [clean x])).
Proof.
  intros Hread Hx Hset. rewrite (getItem_or_setItem _ _ _ _ _ _ Hset).
  eapply parse_stringify_push; eassumption.
Qed.

(** Reading a property of what [stringify] keeps. *)
Lemma clean_defined v : v <> VUndef -> clean v <> VUndef.
Proof. destruct v; cbn; congruence. Qed.

Lemma undefined_or_not (v : value) : v = VUndef \/ v <> VUndef.
Proof. destruct v; (left; reflexivity) || (right; discriminate). Qed.

Lemma lookup_clean k ps : lookup_prop k (clean_props ps) = clean (lookup_prop k ps).
Proof.
  induction ps as [|[k' x] ps IH]; [reflexivity|].
  destruct (undefined_or_not x) as [->|Hx].
  - cbn [clean_props lookup_prop]. fold clean_props. rewrite IH.
    destruct (lookup_prop k ps), (String.eqb k k'); reflexivity.
  - rewrite clean_props_cons by assumption. cbn [lookup_prop]. rewrite IH.
    destruct (undefined_or_not (lookup_prop k ps)) as [->|Hfound].
    + cbn [clean]. destruct (String.eqb k k'); reflexivity.
    + pose proof (clean_defined _ Hfound) as Hc.
      destruct (lookup_prop k ps); try congruence;
        destruct (clean _) eqn:E; congruence.
Qed.

Lemma get_clean k v : get k (clean v) = clean (get k v).
Proof.
  destruct v; try reflexivity. rewrite clean_object. apply lookup_clean.
Qed.

(** A field that holds JSON data, or none, is read back as it was. *)
Lemma get_clean_json k v :
  is_json (get k v) = true \/ get k v = VUndef -> get k (clean v) = get k v.
Proof.
  rewrite get_clean. intros [H| ->]; [apply clean_json, H|reflexivity].
Qed.

Lemma clean_strings l : clean (FileStorage.strings l) = FileStorage.strings l.
Proof.
  apply clean_json. unfold FileStorage.strings. cbn [is_json].
  induction l; [reflexivity|assumption].
Qed.

Lemma keys_differ user : FileStorage.notes_key user <> SettingsView.settings_key user.
Proof. discriminate. Qed.

End StoreFacts.

(** ** File names *)

Module FilenameFacts.
Import FileStorage Vocabulary.

Lemma no_T_app a b : no_T (a +:+ b) = no_T a && no_T b.
Proof.
  induction a as [|c a IH]; [reflexivity|].
  change (String c a +:+ b) with (String c (a +:+ b)). cbn [no_T].
  rewrite IH. apply andb_assoc.
Qed.

Lemma last_digit_listed n : In (n mod 10) [0; 1; 2; 3; 4; 5; 6; 7; 8; 9].
Proof.
  pose proof (Z.mod_pos_bound n 10 ltac:(lia)) as Hd. cbn [In]. lia.
Qed.

Lemma no_T_padded width n : no_T (JSNumber.padded width n) = true.
Proof.
  revert n. induction width as [|w IH]; intros n; [reflexivity|].
  cbn [JSNumber.padded]. rewrite no_T_app, IH.
  pose proof (last_digit_listed n) as Hd. cbn [In] in Hd.
  repeat (destruct Hd as [<-|Hd]; [reflexivity|]). contradiction.
Qed.

Lemma no_T_year y : no_T (JSDate.year_string y) = true.
Proof.
  unfold JSDate.year_string. destruct (_ && _); [apply no_T_padded|].
  rewrite no_T_app, no_T_padded. destruct (y <? 0); reflexivity.
Qed.

Lemma no_T_date ms : no_T (JSDate.date_string ms) = true.
Proof.
  unfold JSDate.date_string. destruct (JSDate.civil_of_days _) as [[y m] d].
  rewrite !no_T_app, no_T_year, !no_T_padded. reflexivity.
Qed.

(** [(a + "T" + b).split("T")[0]] is [a] when [a] has no [T]. *)
Lemma split_head a b :
  no_T a = true -> hd EmptyString (JSString.split "T" (a +:+ String "T" b)) = a.
Proof.
  induction a as [|c a IH]; [reflexivity|].
  change (String c a +:+ String "T" b) with (String c (a +:+ String "T" b)).
  cbn [no_T JSString.split].
  intros [Hc Ha]%andb_prop. apply negb_true_iff in Hc. rewrite Hc.
  specialize (IH Ha). destruct (JSString.split _ _) as [|h t]; cbn [hd] in *; congruence.
Qed.

Lemma append_length a b :
  String.length (a +:+ b) = (String.length a + String.length b)%nat.
Proof.
  induction a as [|c a IH]; [reflexivity|].
  change (String c a +:+ b) with (String c (a +:+ b)). cbn [String.length].
  rewrite IH. reflexivity.
Qed.

Lemma padded_length width n : String.length (JSNumber.padded width n) = width.
Proof.
  revert n. induction width as [|w IH]; intros n; [reflexivity|].
  cbn [JSNumber.padded]. rewrite append_length, IH. cbn [String.length]. lia.
Qed.

Lemma space_is_space c : Ascii.eqb c " " = true -> JSString.is_space c = true.
Proof. intros ->%Ascii.eqb_eq. reflexivity. Qed.

(** The code sanitizes as the specification says once every white-space
    character of the title is read as a space. *)
Lemma sanitize_refines title :
  sanitize title = sanitize_spec (spaces_for_whitespace title).
Proof.
  unfold sanitize, sanitize_spec. generalize false as in_run.
  induction title as [|c title IH]; intros in_run; [reflexivity|].
  cbn [JSString.remove_unkept spaces_for_whitespace spec_remove].
  unfold JSString.kept, spec_kept.
  destruct (JSString.is_space c) eqn:Hs.
  - rewrite !orb_true_r. cbn [JSString.underscore_runs orb]. rewrite Hs.
    change (JSString.is_space " ") with true. cbn match.
    destruct in_run; rewrite IH; reflexivity.
  - assert (Ascii.eqb c " " = false) as ->.
    { destruct (Ascii.eqb c " ") eqn:E; [|reflexivity].
      apply space_is_space in E. congruence. }
    rewrite !orb_false_r.
    destruct (_ || _); [|apply IH].
    cbn [JSString.underscore_runs]. rewrite Hs, IH. reflexivity.
Qed.

Lemma generateFilename_time title type ms :
  generateFilename title type (JSDate.TimeValue ms)
  = Return (JSDate.date_string ms +:+ "_" +:+ sanitize title +:+ extensions type).
Proof.
  unfold generateFilename. cbn [JSDate.toISOString bind].
  change ("T" +:+ ?x) with (String "T" x).
  rewrite split_head by apply no_T_date. reflexivity.
Qed.

End FilenameFacts.

(** ** The file storage manager *)

Module FileStorageFacts.
Import JSON LocalStorage FileStorage Vocabulary JSONFacts StoreFacts.

Lemma saveToLocalStorage_try_eq this note st :
  saveToLocalStorage_try this note st
  = append_to_list (notes_key (username (config this))) (noteData note) st.
Proof. reflexivity. Qed.

Lemma saveMetadataToLocalStorage_eq this note filename st :
  saveMetadataToLocalStorage this note filename st
  = append_to_list (notes_key (username (config this))) (metadata note filename) st.
Proof. reflexivity. Qed.

Lemma append_to_list_array key x st l :
  JSON.parse (getItem_or key "[]" st) = Return (VArr l) ->
  append_to_list key x st = setItem key (JSON.stringify 0 (VArr (l ++ [x]))) st.
Proof. unfold append_to_list. intros ->. reflexivity. Qed.

Lemma append_to_list_throws key x st e :
  JSON.parse (getItem_or key "[]" st) = Throw e -> append_to_list key x st = Throw e.
Proof. unfold append_to_list. intros ->. reflexivity. Qed.

Lemma append_to_list_returns key x st st' :
  append_to_list key x st = Return st' ->
  exists l, JSON.parse (getItem_or key "[]" st) = Return (VArr l)
            /\ setItem key (JSON.stringify 0 (VArr (l ++ [x]))) st = Return st'.
Proof.
  unfold append_to_list. destruct (JSON.parse _) as [existing|e]; [|discriminate].
  destruct existing; try discriminate. cbn [bind push]. eauto.
Qed.

(** A write that is refused, or a list that cannot be read, leaves the
    store as it was: [append_to_list] has no other effect. *)
Lemma append_to_list_absent key x st :
  getItem key st = None ->
  append_to_list key x st = setItem key (JSON.stringify 0 (VArr [x])) st.
Proof.
  intros H. apply (append_to_list_array key x st []).
  unfold getItem_or. rewrite H. reflexivity.
Qed.

(** [saveToLocalStorage] never throws: it reports the outcome of the
    read-modify-write as a boolean. *)
Lemma saveToLocalStorage_run this note w :
  saveToLocalStorage this note w
  = match saveToLocalStorage_try this note (localStorage w) with
    | Return st => (Return true, {| disk := disk w; localStorage := st |})
    | Throw _ => (Return false, w)
    end.
Proof.
  unfold saveToLocalStorage, try_catch, then_, on_storage, ret.
  destruct (saveToLocalStorage_try _ _ _); reflexivity.
Qed.

Lemma clean_optional_string o : clean (optional VStr o) = optional VStr o.
Proof. destruct o; reflexivity. Qed.

Lemma clean_optional_number o : clean (optional VNum o) = optional VNum o.
Proof. destruct o; reflexivity. Qed.

Lemma noteData_fields note : is_fallback_record note (noteData note).
Proof.
  destruct note as [i t ty f c b d tg m du].
  destruct ty, c, b, m, du; repeat split; reflexivity.
Qed.

Lemma noteData_stored note : is_fallback_record note (clean (noteData note)).
Proof.
  pose proof (noteData_fields note) as (H1 & H2 & H3 & H4 & H5 & H6 & H7 & H8 & H9).
  unfold is_fallback_record. rewrite !get_clean, H1, H2, H3, H4, H5, H6, H7, H8, H9.
  rewrite clean_strings, !clean_optional_string, clean_optional_number.
  repeat split; reflexivity.
Qed.

(** The payload field of the fallback record: a [Blob] has no enumerable
    property of its own, so [JSON.stringify] writes it as [{}]. *)
Lemma noteData_payload_lost note b :
  blob note = Some b ->
  (type note = audio -> get "audioData" (noteData note) = VBlob b
                        /\ get "audioData" (clean (noteData note)) = VObj [])
  /\ (type note = video -> get "videoData" (noteData note) = VBlob b
                           /\ get "videoData" (clean (noteData note)) = VObj []).
Proof.
  destruct note as [i t ty f c b' d tg m du]. cbn [blob type]. intros ->.
  split; intros ->; rewrite get_clean; destruct c, m, du; split; reflexivity.
Qed.

(** Taking a method body apart. *)
Lemma then_inv {A B} (m : M A) (k : A -> M B) w r w' :
  then_ m k w = (r, w') ->
  (exists e, m w = (Throw e, w') /\ r = Throw e)
  \/ (exists a w1, m w = (Return a, w1) /\ k a w1 = (r, w')).
Proof.
  unfold then_. destruct (m w) as [[a|e] w1]; [eauto|].
  intros [= <- <-]. eauto.
Qed.

Lemma on_disk_inv {A} (op : FileSystem.Directory -> completion A * FileSystem.Directory)
    w r w' :
  on_disk op w = (r, w') ->
  localStorage w' = localStorage w /\ op (disk w) = (r, disk w').
Proof.
  unfold on_disk. destruct (op (disk w)) as [r0 d]. intros [= <- <-]. auto.
Qed.

Lemma on_storage_inv op w r w' :
  on_storage op w = (r, w') ->
  disk w' = disk w
  /\ ((exists e, r = Throw e /\ op (localStorage w) = Throw e /\ w' = w)
      \/ (r = Return tt /\ op (localStorage w) = Return (localStorage w'))).
Proof.
  unfold on_storage. destruct (op (localStorage w)) as [st|e]; intros [= <- <-]; eauto 6.
Qed.

Section ExportPath.

Variable Date_parse : string -> JSDate.Date.

(** The export path either throws, leaving localStorage untouched, or
    runs to its end: the file holds the note's bytes and the shadow record
    has been appended. *)
Lemma export_inv this note w r w' :
  export Date_parse this note w = (r, w') ->
  (exists e, r = Throw e /\ localStorage w' = localStorage w)
  \/ (r = Return true
      /\ exists filename,
          generateFilename (title note) (type note) (Date_parse (date note)) = Return filename
          /\ saveMetadataToLocalStorage this note filename (localStorage w)
             = Return (localStorage w')
          /\ FileSystem.files (disk w')
               !! (JSString.capitalize (type_string (type note)), filename)
             = Some (written_bytes note)).
Proof.
  unfold export. intros H.
  apply then_inv in H as [(e & H & ->)|(sub & w1 & H1 & H)].
  { left. apply on_disk_inv in H as [H _]. eauto. }
  apply on_disk_inv in H1 as [S1 H1].
  assert (sub = JSString.capitalize (type_string (type note))) as ->.
  { unfold FileSystem.getDirectoryHandle in H1.
    repeat (destruct (_ : bool) in H1); congruence. }
  clear H1.
  apply then_inv in H as [(e & H & ->)|(filename & w2 & H2 & H)].
  { left. injection H as _ <-. eauto. }
  injection H2 as H2 <-.
  apply then_inv in H as [(e & H & ->)|(fileHandle & w3 & H3 & H)].
  { left. apply on_disk_inv in H as [H _]. exists e. split; congruence. }
  apply on_disk_inv in H3 as [S3 H3].
  assert (fileHandle = (JSString.capitalize (type_string (type note)), filename)) as ->.
  { unfold FileSystem.getFileHandle in H3.
    destruct (FileSystem.rejects _ _); [discriminate|].
    destruct (_ !! _); congruence. }
  clear H3.
  apply then_inv in H as [(e & H & ->)|(writable & w4 & H4 & H)].
  { left. apply on_disk_inv in H as [H _]. exists e. split; congruence. }
  apply on_disk_inv in H4 as [S4 H4].
  assert (writable = {| FileSystem.target :=
                          (JSString.capitalize (type_string (type note)), filename);
                        FileSystem.swap := [] |}) as ->.
  { unfold FileSystem.createWritable in H4.
    destruct (FileSystem.rejects _ _); congruence. }
  clear H4.
  apply then_inv in H as [(e & H & ->)|(written & w5 & H5 & H)].
  { left. exists e. split; [reflexivity|].
    destruct (type note); [|destruct (blob note)..];
      first [ apply on_disk_inv in H as [H _]; congruence
            | unfold ret in H; discriminate H ]. }
  assert (localStorage w5 = localStorage w
          /\ written = {| FileSystem.target :=
                            (JSString.capitalize (type_string (type note)), filename);
                          FileSystem.swap := written_bytes note |}) as [S5 ->].
  { unfold written_bytes.
    destruct (type note); [|destruct (blob note)..];
      first [ apply on_disk_inv in H5 as [S5 H5];
              unfold FileSystem.write in H5;
              destruct (FileSystem.rejects _ _); [discriminate|];
              injection H5 as <- _; split; [congruence|reflexivity]
            | unfold ret in H5; injection H5 as <- <-; split; [congruence|reflexivity] ]. }
  clear H5.
  apply then_inv in H as [(e & H & ->)|([] & w6 & H6 & H)].
  { left. apply on_disk_inv in H as [H _]. exists e. split; congruence. }
  apply on_disk_inv in H6 as [S6 H6].
  assert (FileSystem.files (disk w6)
            !! (JSString.capitalize (type_string (type note)), filename)
          = Some (written_bytes note)) as Hfile.
  { unfold FileSystem.close in H6. destruct (FileSystem.rejects _ _); [discriminate|].
    injection H6 as <-. cbn. apply lookup_insert_eq. }
  clear H6.
  apply then_inv in H as [(e & H & ->)|([] & w7 & H7 & H)].
  { left. apply on_storage_inv in H as [_ [(e' & _ & _ & ->)|[? _]]]; [|discriminate].
    exists e. split; congruence. }
  injection H as <- <-.
  apply on_storage_inv in H7 as [D7 [(e' & ? & _)|[_ H7]]]; [discriminate|].
  right. split; [reflexivity|]. exists filename.
  rewrite D7. repeat split; [assumption| |assumption].
  rewrite <- H7. f_equal. congruence.
Qed.

Lemma saveNoteToFile_no_handle this note w :
  directoryHandle this = None ->
  saveNoteToFile Date_parse this note w = saveToLocalStorage this note w.
Proof.
  intros H. unfold saveNoteToFile, try_catch. rewrite H, saveToLocalStorage_run.
  destruct (saveToLocalStorage_try _ _ _); reflexivity.
Qed.

Lemma saveNoteToFile_exported this note w h b w' :
  directoryHandle this = Some h ->
  export Date_parse this note w = (Return b, w') ->
  saveNoteToFile Date_parse this note w = (Return b, w').
Proof. intros H He. unfold saveNoteToFile, try_catch. rewrite H, He. reflexivity. Qed.

Lemma saveNoteToFile_export_threw this note w h e w1 :
  directoryHandle this = Some h ->
  export Date_parse this note w = (Throw e, w1) ->
  saveNoteToFile Date_parse this note w = saveToLocalStorage this note w1.
Proof. intros H He. unfold saveNoteToFile, try_catch. rewrite H, He. reflexivity. Qed.

Lemma export_fails_storage this note w w1 :
  export_fails Date_parse this note w w1 -> localStorage w1 = localStorage w.
Proof.
  intros [[_ ->]|(h & e & _ & H)]; [reflexivity|].
  apply export_inv in H as [(e' & _ & H)|[? _]]; [assumption|discriminate].
Qed.

Lemma export_fails_fallback this note w w1 :
  export_fails Date_parse this note w w1 ->
  saveNoteToFile Date_parse this note w = saveToLocalStorage this note w1.
Proof.
  intros [[H ->]|(h & e & H & He)].
  - apply saveNoteToFile_no_handle, H.
  - eapply saveNoteToFile_export_threw; eassumption.
Qed.

(** A call that returns was not rejected, and leaves the fault of the
    directory as it was. *)
Lemma getDirectoryHandle_returned sub d a d' :
  FileSystem.getDirectoryHandle sub d = (Return a, d') ->
  FileSystem.rejects FileSystem.AtGetDirectoryHandle d = false
  /\ FileSystem.fault d' = FileSystem.fault d.
Proof.
  unfold FileSystem.getDirectoryHandle.
  destruct (FileSystem.rejects _ d); [discriminate|].
  destruct (bool_decide _); intros [= <- <-]; auto.
Qed.

Lemma getFileHandle_returned sub filename d a d' :
  FileSystem.getFileHandle sub filename d = (Return a, d') ->
  FileSystem.rejects FileSystem.AtGetFileHandle d = false
  /\ FileSystem.fault d' = FileSystem.fault d.
Proof.
  unfold FileSystem.getFileHandle.
  destruct (FileSystem.rejects _ d); [discriminate|].
  destruct (_ !! _); intros [= <- <-]; auto.
Qed.

Lemma createWritable_returned file d a d' :
  FileSystem.createWritable file d = (Return a, d') ->
  FileSystem.rejects FileSystem.AtCreateWritable d = false
  /\ FileSystem.fault d' = FileSystem.fault d.
Proof.
  unfold FileSystem.createWritable.
  destruct (FileSystem.rejects _ d); [discriminate|]. intros [= <- <-]; auto.
Qed.

Lemma write_returned writable data d a d' :
  FileSystem.write writable data d = (Return a, d') ->
  FileSystem.rejects FileSystem.AtWrite d = false
  /\ FileSystem.fault d' = FileSystem.fault d.
Proof.
  unfold FileSystem.write.
  destruct (FileSystem.rejects _ d); [discriminate|]. intros [= <- <-]; auto.
Qed.

Lemma close_returned writable d a d' :
  FileSystem.close writable d = (Return a, d') ->
  FileSystem.rejects FileSystem.AtClose d = false
  /\ FileSystem.fault d' = FileSystem.fault d.
Proof.
  unfold FileSystem.close.
  destruct (FileSystem.rejects _ d); [discriminate|]. intros [= <- <-]; auto.
Qed.

Lemma rejects_fault step d d' :
  FileSystem.fault d' = FileSystem.fault d ->
  FileSystem.rejects step d' = FileSystem.rejects step d.
Proof. unfold FileSystem.rejects. intros ->. reflexivity. Qed.

Lemma rejects_own_fault step d :
  FileSystem.fault d = Some step -> FileSystem.rejects step d = true.
Proof. unfold FileSystem.rejects. intros ->. destruct step; reflexivity. Qed.

(** When the export path runs to its end, the browser has rejected none
    of the calls made: a fault, if there is one, is on a write that the
    note does not need. *)
Lemma export_returned_no_fault this note w b w' step :
  export Date_parse this note w = (Return b, w') ->
  FileSystem.fault (disk w) = Some step ->
  step = FileSystem.AtWrite /\ type note <> text /\ blob note = None.
Proof.
  unfold export. intros H Hfault.
  pose proof (rejects_own_fault _ _ Hfault) as Hrej.
  apply then_inv in H as [(e & _ & ?)|(sub & w1 & H1 & H)]; [discriminate|].
  apply on_disk_inv in H1 as [_ H1]. apply getDirectoryHandle_returned in H1 as [R1 F1].
  apply then_inv in H as [(e & _ & ?)|(filename & w2 & H2 & H)]; [discriminate|].
  injection H2 as _ <-.
  apply then_inv in H as [(e & _ & ?)|(fileHandle & w3 & H3 & H)]; [discriminate|].
  apply on_disk_inv in H3 as [_ H3]. apply getFileHandle_returned in H3 as [R3 F3].
  apply then_inv in H as [(e & _ & ?)|(writable & w4 & H4 & H)]; [discriminate|].
  apply on_disk_inv in H4 as [_ H4]. apply createWritable_returned in H4 as [R4 F4].
  apply then_inv in H as [(e & _ & ?)|(written & w5 & H5 & H)]; [discriminate|].
  apply then_inv in H as [(e & _ & ?)|([] & w6 & H6 & H)]; [discriminate|].
  apply on_disk_inv in H6 as [_ H6]. apply close_returned in H6 as [R6 F6].
  rewrite (rejects_fault _ _ _ F1) in R3.
  rewrite (rejects_fault _ _ _ F3), (rejects_fault _ _ _ F1) in R4.
  assert (FileSystem.fault (disk w5) = FileSystem.fault (disk w)
          /\ (FileSystem.rejects FileSystem.AtWrite (disk w) = false
              \/ (type note <> text /\ blob note = None))) as [F5 R5].
  { destruct (type note) eqn:Htype; [|destruct (blob note) eqn:Hblob..];
      first [ apply on_disk_inv in H5 as [_ H5]; apply write_returned in H5 as [R5 F5];
              rewrite (rejects_fault _ _ _ F4), (rejects_fault _ _ _ F3),
                (rejects_fault _ _ _ F1) in R5;
              split; [congruence|left; exact R5]
            | unfold ret in H5; injection H5 as _ <-;
              split; [congruence|right; split; [discriminate|reflexivity]] ]. }
  rewrite (rejects_fault _ _ _ F5) in R6.
  destruct step; try congruence.
  destruct R5 as [R5|R5]; [congruence|]. split; [reflexivity|exact R5].
Qed.

(** So the export path fails whenever the browser rejects a call it
    makes: access denied on the way to the file, or a failure of the
    write or of the close. *)
Lemma rejected_export_fails this note w h step :
  directoryHandle this = Some h ->
  FileSystem.fault (disk w) = Some step ->
  (step = FileSystem.AtWrite -> type note = text \/ blob note <> None) ->
  exists e w1, export Date_parse this note w = (Throw e, w1).
Proof.
  intros Hh Hfault Hwrite.
  destruct (export Date_parse this note w) as [[b|e] w1] eqn:He; [|eauto].
  destruct (export_returned_no_fault _ _ _ _ _ _ He Hfault) as (-> & Htype & Hblob).
  destruct (Hwrite eq_refl); contradiction.
Qed.

(** One of the two always is the case. *)
Lemma export_outcome this note w :
  (exists w1, export_fails Date_parse this note w w1) \/ (exists w1, export_completes Date_parse this note w w1).
Proof.
  unfold export_fails, export_completes.
  destruct (directoryHandle this) as [h|]; [|left; eauto].
  destruct (export Date_parse this note w) as [[b|e] w1] eqn:He.
  - right. exists w1, h. split; [reflexivity|].
    apply export_inv in He as [(e & ? & _)|[-> _]]; [discriminate|reflexivity].
  - left. exists w1. right. eauto.
Qed.

End ExportPath.

End FileStorageFacts.

(** ** Property lookup in object literals *)

Module RecordFacts.
Import JSON FileStorage Vocabulary JSONFacts StoreFacts FileStorageFacts.

(** A property read is [undefined] or one of the values bound to the key. *)
Lemma lookup_prop_bound k ps :
  lookup_prop k ps = VUndef \/ In (k, lookup_prop k ps) ps.
Proof.
  induction ps as [|[k' v] ps IH]; [left; reflexivity|].
  cbn [lookup_prop].
  destruct (undefined_or_not (lookup_prop k ps)) as [->|Hfound].
  - destruct (String.eqb_spec k k') as [->|_]; [right; left; reflexivity|left; reflexivity].
  - destruct IH as [IH|IH]; [contradiction|].
    destruct (lookup_prop k ps); try contradiction; right; right; exact IH.
Qed.

Lemma metadata_fields note filename : is_shadow_record note filename (metadata note filename).
Proof.
  unfold is_shadow_record.
  split; [|split; [|split; [|split; [|split; [|split; [|split; [|split; [|split]]]]]]]];
    try (destruct note as [i t ty f c b d tg m du]; destruct m, du; reflexivity).
  intros k Hk. cbn [get metadata].
  destruct (lookup_prop_bound k
              [("id", VStr (id note)); ("title", VStr (title note));
               ("type", VStr (type_string (type note))); ("filename", VStr filename);
               ("date", VStr (date note)); ("tags", strings (tags note));
               ("mood", optional VStr (mood note));
               ("duration", optional VNum (duration note));
               ("savedToFile", VBool true)]) as [H|H]; [exact H|].
  exfalso. apply Hk. unfold shadow_keys. cbn [In] in *.
  repeat (destruct H as [H|H]; [injection H as <- _; tauto|]). contradiction.
Qed.

Lemma metadata_stored note filename :
  is_shadow_record note filename (clean (metadata note filename)).
Proof.
  pose proof (metadata_fields note filename)
    as (H1 & H2 & H3 & H4 & H5 & H6 & H7 & H8 & H9 & H10).
  unfold is_shadow_record. rewrite !get_clean, H1, H2, H3, H4, H5, H6, H7, H8, H9.
  rewrite clean_strings, !clean_optional_string, clean_optional_number.
  repeat split; try reflexivity.
  intros k Hk. rewrite get_clean, (H10 k Hk). reflexivity.
Qed.

Lemma not_a_shadow_key k :
  In k ["content"; "audioData"; "videoData"; "blob"] -> ~ In k shadow_keys.
Proof.
  cbn [In]. intros [<-|[<-|[<-|[<-|[]]]]] H; cbn [shadow_keys In] in H;
    repeat (destruct H as [H|H]; [discriminate H|]); exact H.
Qed.

End RecordFacts.

(** ** The create-note dialog *)

Module DialogFacts.
Import JSON LocalStorage Vocabulary JSONFacts StoreFacts FileStorageFacts CreateNoteDialog.

Lemma trimStart_blank s :
  forallb JSString.is_space (list_ascii_of_string s) = true ->
  JSString.trimStart s = EmptyString.
Proof.
  induction s as [|c s IH]; [reflexivity|].
  cbn [list_ascii_of_string forallb JSString.trimStart].
  intros [-> Hs]%andb_prop. auto.
Qed.

(** A title made of white space only trims to the empty string. *)
Lemma trim_blank s :
  forallb JSString.is_space (list_ascii_of_string s) = true ->
  JSString.trim s = EmptyString.
Proof. intros H. unfold JSString.trim. rewrite trimStart_blank by exact H. reflexivity. Qed.

Lemma handleSave_blank username clock noteTitle noteContent duration thumbnail st :
  JSString.trim (finalTitle noteTitle st) = EmptyString ->
  handleSave username clock noteTitle noteContent duration thumbnail st = Return st.
Proof. unfold handleSave, finalTitle. intros ->. reflexivity. Qed.

(** With a title, [handleSave] is the shared read-modify-write on the
    new record, followed by the reset of the form. *)
Lemma handleSave_titled username clock noteTitle noteContent duration thumbnail st record :
  JSString.truthy (JSString.trim (finalTitle noteTitle st)) = true ->
  newNote (form st) clock (finalTitle noteTitle st) noteContent duration thumbnail
  = Return record ->
  handleSave username clock noteTitle noteContent duration thumbnail st
  = (storage' <- append_to_list (FileStorage.notes_key username) record (storage st) ;;
     Return (onNoteCreated
               (resetForm {| form := form st; storage := storage';
                             created := created st |}))).
Proof.
  unfold handleSave, finalTitle, append_to_list. intros -> ->. cbn [negb bind].
  destruct (JSON.parse _) as [existing|e]; [|reflexivity]. cbn [bind].
  destruct (JSON.push _ _); reflexivity.
Qed.

Lemma newNote_defined f clock t noteContent duration thumbnail record :
  newNote f clock t noteContent duration thumbnail = Return record -> record <> VUndef.
Proof.
  unfold newNote. destruct (JSDate.toISOString _); [|discriminate].
  intros [= <-]. discriminate.
Qed.

End DialogFacts.

(** ** The settings view *)

Module SettingsFacts.
Import JSON LocalStorage Vocabulary JSONFacts StoreFacts SettingsView.

Lemma toISOString_valid now :
  Z.abs now <= JSDate.maxTime ->
  JSDate.toISOString (JSDate.ofTime now)
  = Return (JSDate.date_string now +:+ "T" +:+ JSDate.time_string now +:+ "Z").
Proof.
  intros H. unfold JSDate.ofTime. destruct (Z.leb_spec (Z.abs now) JSDate.maxTime); [|lia].
  reflexivity.
Qed.

Lemma export_document_clean username settings notes exportDate :
  is_json settings = true -> is_json notes = true ->
  clean (export_document username settings notes exportDate)
  = export_document username settings notes exportDate.
Proof.
  intros Hs Hn. apply clean_json. cbn. rewrite Hs, Hn. reflexivity.
Qed.

Lemma export_document_notes username settings l exportDate :
  get "notes" (export_document username settings (VArr l) exportDate) = VArr l.
Proof. reflexivity. Qed.

Lemma export_document_settings username settings notes exportDate :
  truthy settings = true ->
  get "settings" (export_document username settings notes exportDate) = settings.
Proof. destruct settings, notes; try discriminate; reflexivity. Qed.

End SettingsFacts.

(** ** JSON text: what the parser reads is JSON text *)

Module JSONTextFacts.
Import JSON LocalStorage Vocabulary JSONText.

Lemma digit_of_char_is_digit c :
  JSString.is_digit c
  = match JSNumber.digit_of_char c with
    | Some _ => true
    | None => false
    end.
Proof. destruct c as [[] [] [] [] [] [] [] []]; reflexivity. Qed.

Lemma read_uint_rest s : snd (JSNumber.read_uint s) = skip_digits s.
Proof.
  induction s as [|c s IH]; [reflexivity|].
  cbn [JSNumber.read_uint skip_digits]. rewrite digit_of_char_is_digit.
  destruct (JSNumber.digit_of_char c); [|reflexivity].
  destruct (JSNumber.read_uint s). exact IH.
Qed.

Lemma read_uint_none s :
  fst (JSNumber.read_uint s) = Decimal.Nil -> snd (JSNumber.read_uint s) = s.
Proof.
  destruct s as [|c s]; [reflexivity|]. cbn [JSNumber.read_uint].
  destruct (JSNumber.digit_of_char c) as [d|] eqn:Hd; [|reflexivity].
  destruct (JSNumber.read_uint s) as [u r]. cbn [fst].
  destruct c as [[] [] [] [] [] [] [] []]; cbn in Hd; try discriminate Hd;
    injection Hd as <-; discriminate.
Qed.

(** A numeral without leading zero that starts with a zero is the
    zero. *)
Lemma unorm_zero u : Decimal.unorm (Decimal.D0 u) = Decimal.D0 u -> u = Decimal.Nil.
Proof.
  unfold Decimal.unorm. cbn [Decimal.nzhead]. intros H.
  pose proof (DecimalFacts.nzhead_nonzero u u) as Hn.
  destruct (Decimal.nzhead u); congruence.
Qed.

Lemma eqb_zero_digit c :
  Ascii.eqb c "0"
  = match JSNumber.digit_of_char c with
    | Some d => match d Decimal.Nil with Decimal.D0 _ => true | _ => false end
    | None => false
    end.
Proof. destruct c as [[] [] [] [] [] [] [] []]; reflexivity. Qed.

Lemma continues_fraction rest :
  continues_number rest = false -> skim_fraction rest = Some rest.
Proof.
  destruct rest as [|c r]; [reflexivity|]. cbn [continues_number skim_fraction].
  intros H. repeat (apply orb_false_iff in H as [H ?]).
  replace (Ascii.eqb c ".") with false by congruence. reflexivity.
Qed.

Lemma continues_exponent rest :
  continues_number rest = false -> skim_exponent rest = Some rest.
Proof.
  destruct rest as [|c r]; [reflexivity|]. cbn [continues_number skim_exponent].
  intros H. repeat (apply orb_false_iff in H as [H ?]).
  replace (Ascii.eqb c "e") with false by congruence.
  replace (Ascii.eqb c "E") with false by congruence. reflexivity.
Qed.

Lemma skim_int_read digits u rest :
  JSNumber.read_uint digits = (u, rest) ->
  u <> Decimal.Nil -> Decimal.unorm u = u ->
  skim_int digits = Some rest.
Proof.
  destruct digits as [|c r]; [intros [= <- _]; congruence|].
  cbn [JSNumber.read_uint skim_int].
  rewrite eqb_zero_digit, digit_of_char_is_digit.
  destruct (JSNumber.digit_of_char c) as [d|] eqn:Hd; [|intros [= <- _]; congruence].
  pose proof (read_uint_rest r) as Hrest. pose proof (read_uint_none r) as Hnone.
  destruct (JSNumber.read_uint r) as [u' r']. cbn [fst snd] in *.
  intros [= <- <-] _ Hnorm.
  destruct c as [[] [] [] [] [] [] [] []]; cbn in Hd; try discriminate Hd;
    injection Hd as <-; cbn match; try (rewrite Hrest; reflexivity).
  apply unorm_zero in Hnorm. rewrite (Hnone Hnorm). reflexivity.
Qed.

(** A number the parser reads is a number of JSON. *)
Lemma skim_number_parsed s v rest :
  parse_number s = Some (v, rest) -> skim_number s = Some rest.
Proof.
  unfold parse_number, skim_number.
  set (unsigned := match s with
                   | c :: r => if Ascii.eqb c "-" then r else s
                   | [] => s
                   end).
  assert ((let '(negative, digits) :=
             match s with
             | c :: r => if Ascii.eqb c "-" then (true, r) else (false, s)
             | [] => (false, s)
             end in
           digits) = unsigned) as Hsame.
  { subst unsigned. destruct s as [|c r]; [reflexivity|]. destruct (Ascii.eqb c "-"); reflexivity. }
  destruct (match s with
            | c :: r => if Ascii.eqb c "-" then (true, r) else (false, s)
            | [] => (false, s)
            end) as [negative digits].
  cbv beta iota zeta in Hsame. subst digits.
  destruct (JSNumber.read_uint unsigned) as [u r] eqn:Hread.
  intros H.
  assert (u <> Decimal.Nil /\ Decimal.unorm u = u /\ continues_number r = false /\ r = rest)
    as (Hu & Hnorm & Hcont & ->).
  { destruct u; try discriminate H;
      (destruct (Decimal.uint_eq_dec _ _) as [Heq|]; [|discriminate H]);
      (destruct (continues_number r); [discriminate H|]);
      injection H as _ <-; repeat split; congruence. }
  rewrite (skim_int_read _ _ _ Hread Hu Hnorm).
  rewrite (continues_fraction _ Hcont). apply continues_exponent, Hcont.
Qed.

Lemma hex4_is_hex a b c d x :
  hex4 a b c d = Some x -> is_hex a && is_hex b && is_hex c && is_hex d = true.
Proof.
  unfold hex4, is_hex.
  destruct (hex_value a) as [[]|]; try discriminate;
    destruct (hex_value b) as [[]|]; try discriminate;
    destruct (hex_value c); try discriminate;
    destruct (hex_value d); try discriminate; reflexivity.
Qed.

(** A string literal the parser reads is a string literal of JSON. *)
Lemma skim_string_parsed n :
  forall s cs rest,
    (length s <= n)%nat -> parse_string s = Some (cs, rest) -> skim_string s = Some rest.
Proof.
  induction n as [|n IH]; intros s cs rest Hlen H.
  { destruct s; [discriminate H | cbn in Hlen; lia]. }
  destruct s as [|c r]; [discriminate H|].
  cbn [parse_string skim_string] in *. cbn [length] in Hlen.
  destruct (Ascii.eqb c "034"); [congruence|].
  destruct (Ascii.eqb c "\").
  - destruct r as [|e r1]; [discriminate H|]. cbn [length] in Hlen.
    destruct (simple_escape e).
    + destruct (parse_string r1) as [[cs' r']|] eqn:E; [|discriminate H].
      injection H as _ <-. apply (IH r1 cs'); [lia | exact E].
    + destruct (Ascii.eqb e "u"); [|discriminate H].
      destruct r1 as [|h1 [|h2 [|h3 [|h4 r2]]]]; try discriminate H.
      cbn [length] in Hlen.
      destruct (hex4 h1 h2 h3 h4) eqn:Hhex; [|discriminate H].
      rewrite (hex4_is_hex _ _ _ _ _ Hhex).
      destruct (parse_string r2) as [[cs' r']|] eqn:E; [|discriminate H].
      injection H as _ <-. apply (IH r2 cs'); [lia | exact E].
  - destruct (JSString.code c <? 32)%N; [discriminate H|].
    destruct (parse_string r) as [[cs' r']|] eqn:E; [|discriminate H].
    injection H as _ <-. apply (IH r cs'); [lia | exact E].
Qed.

Lemma skim_string_read s cs rest :
  parse_string s = Some (cs, rest) -> skim_string s = Some rest.
Proof. apply (skim_string_parsed (length s)). lia. Qed.

Lemma keyword_rest word v s v' rest :
  keyword word v s = Some (v', rest) ->
  strip_prefix (list_ascii_of_string word) s = Some rest.
Proof.
  unfold keyword. destruct (strip_prefix _ _); [|discriminate]. congruence.
Qed.

(** With the same fuel, the recognizer takes what the parser reads and
    leaves the same text behind. *)
Lemma skims_parsed fuel :
  (forall s v r, parse_value fuel s = Some (v, r) -> skim_value fuel s = Some r)
  /\ (forall s l r, parse_items fuel s = Some (l, r) -> skim_items fuel s = Some r)
  /\ (forall s l r, parse_props fuel s = Some (l, r) -> skim_props fuel s = Some r).
Proof.
  induction fuel as [|fuel (IHv & IHi & IHp)]; [repeat split; discriminate|].
  split; [|split].
  - intros s v r H. cbn [parse_value skim_value] in *.
    destruct (skip_ws s) as [|c r0]; [discriminate H|].
    destruct (Ascii.eqb c "n"); [eapply keyword_rest, H|].
    destruct (Ascii.eqb c "t"); [eapply keyword_rest, H|].
    destruct (Ascii.eqb c "f"); [eapply keyword_rest, H|].
    destruct (Ascii.eqb c "034").
    { destruct (parse_string r0) as [[cs r']|] eqn:E; [|discriminate H].
      injection H as _ <-. eapply skim_string_read, E. }
    destruct (Ascii.eqb c "[").
    { destruct (strip_prefix _ (skip_ws r0)); [congruence|].
      destruct (parse_items fuel r0) as [[l r']|] eqn:E; [|discriminate H].
      injection H as _ <-. eapply IHi, E. }
    destruct (Ascii.eqb c "{").
    { destruct (strip_prefix _ (skip_ws r0)); [congruence|].
      destruct (parse_props fuel r0) as [[l r']|] eqn:E; [|discriminate H].
      injection H as _ <-. eapply IHp, E. }
    eapply skim_number_parsed, H.
  - intros s l r H. cbn [parse_items skim_items] in *.
    destruct (parse_value fuel s) as [[v r0]|] eqn:E; [|discriminate H].
    rewrite (IHv _ _ _ E).
    destruct (skip_ws r0) as [|c r1]; [discriminate H|].
    destruct (Ascii.eqb c ",").
    { destruct (parse_items fuel r1) as [[l' r']|] eqn:E'; [|discriminate H].
      injection H as _ <-. eapply IHi, E'. }
    destruct (Ascii.eqb c "]"); [congruence|discriminate H].
  - intros s l r H. cbn [parse_props skim_props] in *.
    destruct (strip_prefix _ (skip_ws s)) as [r0|]; [|discriminate H].
    destruct (parse_string r0) as [[k r1]|] eqn:Ek; [|discriminate H].
    rewrite (skim_string_read _ _ _ Ek).
    destruct (strip_prefix _ (skip_ws r1)) as [r2|]; [|discriminate H].
    destruct (parse_value fuel r2) as [[v r3]|] eqn:E; [|discriminate H].
    rewrite (IHv _ _ _ E).
    destruct (skip_ws r3) as [|c r4]; [discriminate H|].
    destruct (Ascii.eqb c ",").
    { destruct (parse_props fuel r4) as [[l' r']|] eqn:E'; [|discriminate H].
      injection H as _ <-. eapply IHp, E'. }
    destruct (Ascii.eqb c "}"); [congruence|discriminate H].
Qed.

(** What [JSON.parse] reads is JSON text; on text that is not,
    it throws a [SyntaxError]. *)
Lemma parsed_is_json_text text v : JSON.parse text = Return v -> is_json_text text = true.
Proof.
  unfold JSON.parse, is_json_text.
  destruct (parse_value _ _) as [[v' r]|] eqn:E; [|discriminate].
  rewrite (proj1 (skims_parsed _) _ _ _ E).
  destruct (skip_ws r); [reflexivity|discriminate].
Qed.

Lemma parse_throws_SyntaxError text e : JSON.parse text = Throw e -> e = SyntaxError.
Proof.
  unfold JSON.parse. destruct (parse_value _ _) as [[v r]|]; [|congruence].
  destruct (skip_ws r); congruence.
Qed.

Lemma not_json_text_throws text :
  is_json_text text = false -> JSON.parse text = Throw SyntaxError.
Proof.
  intros H. destruct (JSON.parse text) as [v|e] eqn:E.
  - rewrite (parsed_is_json_text _ _ E) in H. discriminate H.
  - rewrite (parse_throws_SyntaxError _ _ E). reflexivity.
Qed.

(** Within the model, text that the parser refuses is not JSON. *)
Lemma modelled_throws text e :
  modelled text = true -> JSON.parse text = Throw e -> is_json_text text = false.
Proof.
  unfold modelled. intros H E. rewrite E in H. apply negb_true_iff, H.
Qed.

Lemma is_array_true v : is_array v = true -> exists l, v = VArr l.
Proof. destruct v; try discriminate. eauto. Qed.

(** [push] on what is not an array is a [TypeError]. *)
Lemma push_not_array v x : is_array v = false -> JSON.push v x = Throw TypeError.
Proof. destruct v; try reflexivity. discriminate. Qed.

Lemma append_to_list_not_json key x st :
  is_json_text (getItem_or key "[]" st) = false ->
  append_to_list key x st = Throw SyntaxError.
Proof.
  intros H. unfold append_to_list. rewrite (not_json_text_throws _ H). reflexivity.
Qed.

Lemma append_to_list_not_array key x st v :
  JSON.parse (getItem_or key "[]" st) = Return v -> is_array v = false ->
  append_to_list key x st = Throw TypeError.
Proof.
  intros H Hv. unfold append_to_list. rewrite H. cbn [bind].
  rewrite (push_not_array _ _ Hv). reflexivity.
Qed.

Lemma setItem_throws key val st e : setItem key val st = Throw e -> e = QuotaExceededError.
Proof. unfold setItem. destruct (_ <=? _)%nat; congruence. Qed.

(** Why an append fails: the stored text is not read, what is read is
    not an array, or the store refuses the new list. *)
Lemma append_to_list_failure key x st e :
  append_to_list key x st = Throw e ->
  (e = SyntaxError /\ JSON.parse (getItem_or key "[]" st) = Throw SyntaxError)
  \/ (e = TypeError
      /\ exists v, JSON.parse (getItem_or key "[]" st) = Return v /\ is_array v = false)
  \/ (e = QuotaExceededError
      /\ exists l, JSON.parse (getItem_or key "[]" st) = Return (VArr l)
                   /\ setItem key (JSON.stringify 0 (VArr (l ++ [x]))) st
                      = Throw QuotaExceededError).
Proof.
  unfold append_to_list. destruct (JSON.parse _) as [v|e'] eqn:E.
  - destruct (is_array v) eqn:Hv.
    + apply is_array_true in Hv as [l ->]. cbn [bind push]. intros H.
      pose proof (setItem_throws _ _ _ _ H) as ->. right. right. eauto.
    + cbn [bind]. rewrite (push_not_array _ _ Hv). cbn [bind]. intros [= <-].
      right. left. eauto.
  - cbn [bind]. intros [= <-]. left.
    rewrite (parse_throws_SyntaxError _ _ E). auto.
Qed.

End JSONTextFacts.

(** * The claims of the specification *)

Import JSONFacts StoreFacts FilenameFacts FileStorageFacts RecordFacts DialogFacts SettingsFacts.

(** ** Evaluation on the samples *)

Example toISOString_sample :
  JSDate.toISOString (JSDate.TimeValue 1736937000123) = Return "2025-01-15T10:30:00.123Z".
Proof. vm_compute. reflexivity. Qed.

Example parseISO_sample :
  JSDate.parseISO "2025-01-15T10:30:00.123Z" = JSDate.TimeValue 1736937000123.
Proof. vm_compute. reflexivity. Qed.

Example stringify_sample :
  JSON.stringify 0 (VArr [VObj [("a", VNum (-12)); ("b", VUndef);
                                ("d", VBlob [Byte.x01])];
                          VUndef; VArr []; VBool true])
  = "[{" +:+ String "034" ("a" +:+ String "034" (":-12," +:+ String "034" ("d"
     +:+ String "034" ":{}},null,[],true]"))).
Proof. vm_compute. reflexivity. Qed.

Example parse_sample :
  JSON.parse ("  [ {" +:+ String "034" ("a" +:+ String "034" " : -12 } ,null,[ ],true ] "))
  = Return (VArr [VObj [("a", VNum (-12))]; VNull; VArr []; VBool true]).
Proof. vm_compute. reflexivity. Qed.

Example parse_not_json : JSON.parse "not json" = Throw SyntaxError.
Proof. vm_compute. reflexivity. Qed.

Example saveNoteToFile_exports_sample :
  let result :=
    saveNoteToFile JSDate.parseISO alice_exporting hello_note (world None empty_store) in
  fst result = Return true
  /\ FileSystem.files (disk (snd result)) !! ("Text", "2025-01-15_Hello_World.txt")
     = Some (FileSystem.utf8 "Dear diary")
  /\ Dashboard.userNotes "alice" (localStorage (snd result))
     = Return (VArr [VObj [("id", VStr "1736937000000"); ("title", VStr "Hello, World!");
                           ("type", VStr "text");
                           ("filename", VStr "2025-01-15_Hello_World.txt");
                           ("date", VStr "2025-01-15T10:30:00.000Z");
                           ("tags", VArr [VStr "day"; VStr "first"]);
                           ("mood", VStr "happy"); ("savedToFile", VBool true)]]).
Proof. vm_compute. repeat split; reflexivity. Qed.

(** ** C2: file name derivation *)

(** C2, counterexample.  The claim has the sanitization remove every
    character outside [A-Za-z0-9 ]; a tab is such a character, yet the
    code keeps it as white space and turns it into an underscore: the
    file name is [2025-01-15_a_b.txt] and not [2025-01-15_ab.txt]. *)
Lemma generateFilename_tab_counterexample :
  sanitize_spec tab_title = "ab"
  /\ generateFilename tab_title text (JSDate.TimeValue 1736937000000)
     = Return "2025-01-15_a_b.txt"
  /\ generateFilename tab_title text (JSDate.TimeValue 1736937000000)
     <> Return ("2025-01-15_" +:+ sanitize_spec tab_title +:+ ".txt").
Proof. vm_compute. repeat split; [reflexivity..|discriminate]. Qed.

(** C2, amended.  For a valid date, [generateFilename] yields the UTC
    day of the date, an underscore, the title sanitized as the
    specification says once every white-space character is read as a
    space, and the extension of the type. The result depends on the date
    only through its day. For a year in 0..9999 the day has the ten
    characters [YYYY-MM-DD]. On an invalid date the call throws. The text
    note titled [Hello, World!] dated 2025-01-15 is named
    [2025-01-15_Hello_World.txt]. *)
Theorem generateFilename_form (title : string) (type : NoteType) (ms : Z) :
  generateFilename title type (JSDate.TimeValue ms)
  = Return (JSDate.date_string ms +:+ "_"
            +:+ sanitize_spec (spaces_for_whitespace title) +:+ extensions type)
  /\ (forall ms', ms' / JSDate.msPerDay = ms / JSDate.msPerDay ->
                  generateFilename title type (JSDate.TimeValue ms')
                  = generateFilename title type (JSDate.TimeValue ms))
  /\ (forall y m d, JSDate.civil_of_days (ms / JSDate.msPerDay) = (y, m, d) ->
                    0 <= y <= 9999 ->
                    JSDate.date_string ms
                    = JSNumber.padded 4 y +:+ "-" +:+ JSNumber.padded 2 m
                      +:+ "-" +:+ JSNumber.padded 2 d
                    /\ String.length (JSDate.date_string ms) = 10%nat)
  /\ generateFilename title type JSDate.InvalidDate = Throw RangeError
  /\ (extensions text = ".txt" /\ extensions audio = ".mp3" /\ extensions video = ".mp4")
  /\ generateFilename "Hello, World!" text (JSDate.TimeValue 1736937000000)
     = Return "2025-01-15_Hello_World.txt".
Proof.
  split; [|split; [|split; [|split; [|split]]]].
  - rewrite generateFilename_time, sanitize_refines. reflexivity.
  - intros ms' Hday. rewrite !generateFilename_time.
    unfold JSDate.date_string. rewrite Hday. reflexivity.
  - intros y m d Hcivil Hy. unfold JSDate.date_string, JSDate.year_string.
    rewrite Hcivil.
    destruct (Z.leb_spec 0 y); [|lia]. destruct (Z.leb_spec y 9999); [|lia].
    cbn [andb]. split; [reflexivity|].
    rewrite !append_length, !padded_length. reflexivity.
  - reflexivity.
  - repeat split.
  - vm_compute. reflexivity.
Qed.

Lemma generateFilename_form_witness :
  generateFilename "Hello, World!" text (JSDate.TimeValue 1736899200000)
  = generateFilename "Hello, World!" text (JSDate.TimeValue 1736937000000)
  /\ JSDate.date_string 1736937000000 = "2025-01-15".
Proof.
  destruct (generateFilename_form "Hello, World!" text 1736937000000)
    as (_ & Hday & Hform & _).
  split.
  - apply Hday. reflexivity.
  - destruct (Hform 2025 1 15) as [-> _]; [reflexivity|lia|reflexivity].
Defined.

(** ** C10: a blank title saves nothing *)

(** C10.  When the title [handleSave] settles on (its argument, or the
    title cell when the argument is missing or empty) is empty or made of
    white space only, [handleSave] returns without any effect: nothing is
    written to the store, the form is not reset and [onNoteCreated] is
    not called. *)
Theorem handleSave_blank_title :
  forall (username : string) (clock : CreateNoteDialog.Clock) (noteTitle : option string)
         (noteContent : value) (duration : option Z) (thumbnail : value)
         (st : CreateNoteDialog.State),
    forallb JSString.is_space (list_ascii_of_string (finalTitle noteTitle st)) = true ->
    CreateNoteDialog.handleSave username clock noteTitle noteContent duration thumbnail st
    = Return st.
Proof.
  intros username clock noteTitle noteContent duration thumbnail st Hblank.
  apply handleSave_blank, trim_blank, Hblank.
Qed.

Lemma handleSave_blank_title_witness :
  CreateNoteDialog.handleSave "alice" sample_clock None (VStr "Dear diary") None VUndef
    {| CreateNoteDialog.form := blank_form;
       CreateNoteDialog.storage := empty_store;
       CreateNoteDialog.created := 0 |}
  = Return {| CreateNoteDialog.form := blank_form;
              CreateNoteDialog.storage := empty_store;
              CreateNoteDialog.created := 0 |}.
Proof. apply handleSave_blank_title. reflexivity. Defined.

(** With a title the same call stores the note. *)
Example handleSave_titled_sample :
  match CreateNoteDialog.handleSave "alice" sample_clock (Some " Hello ") (VStr "Dear diary")
          None VUndef
          {| CreateNoteDialog.form := blank_form;
             CreateNoteDialog.storage := empty_store;
             CreateNoteDialog.created := 0 |} with
  | Return st' =>
      Dashboard.userNotes "alice" (CreateNoteDialog.storage st')
      = Return (VArr [VObj [("id", VStr "1736937000000"); ("title", VStr "Hello");
                            ("type", VStr "text"); ("content", VStr "Dear diary");
                            ("duration", VNum 0);
                            ("tags", VArr [VStr "day"; VStr "first"]);
                            ("mood", VStr "happy");
                            ("date", VStr "2025-01-15T10:30:00.000Z");
                            ("createdAt", VNum 1736937000001)]])
      /\ CreateNoteDialog.created st' = 1%nat
  | Throw _ => False
  end.
Proof. vm_compute. split; reflexivity. Qed.

(** ** C5: wiping a user's data *)

(** C5.  Once the confirmation is armed, [deleteAllData] removes the
    note list and the settings of the user from the store, whatever they
    were, and reading the user's notes afterwards gives the empty list;
    the settings cell is back to the defaults.  The first click only arms
    the confirmation and leaves the store alone. *)
Theorem deleteAllData_wipes :
  forall (username : string) (st : SettingsView.State),
    (SettingsView.showDeleteConfirm st = true ->
     let st' := SettingsView.deleteAllData username st in
     getItem (notes_key username) (SettingsView.storage st') = None
     /\ getItem (SettingsView.settings_key username) (SettingsView.storage st') = None
     /\ Dashboard.userNotes username (SettingsView.storage st') = Return (VArr [])
     /\ SettingsView.settings st' = SettingsView.defaultSettings
     /\ SettingsView.showDeleteConfirm st' = false)
    /\ (SettingsView.showDeleteConfirm st = false ->
        let st' := SettingsView.deleteAllData username st in
        SettingsView.storage st' = SettingsView.storage st
        /\ SettingsView.showDeleteConfirm st' = true).
Proof.
  intros username st. unfold SettingsView.deleteAllData. split; intros ->; cbn.
  - assert (getItem (notes_key username)
              (removeItem (SettingsView.settings_key username)
                 (removeItem (notes_key username) (SettingsView.storage st))) = None) as Hn.
    { rewrite getItem_removeItem_ne by (intros H; symmetry in H; revert H; apply keys_differ).
      apply getItem_removeItem. }
    repeat split; try reflexivity.
    + exact Hn.
    + apply getItem_removeItem.
    + unfold Dashboard.userNotes, getItem_or. rewrite Hn. reflexivity.
  - split; reflexivity.
Qed.

Lemma deleteAllData_wipes_witness :
  Dashboard.userNotes "alice" alice_store = Return (VArr [clean (noteData hello_note)])
  /\ Dashboard.userNotes "alice"
       (SettingsView.storage (SettingsView.deleteAllData "alice" (settings_state true alice_store)))
     = Return (VArr [])
  /\ SettingsView.storage (SettingsView.deleteAllData "alice" (settings_state false alice_store))
     = alice_store.
Proof.
  split; [vm_compute; reflexivity|].
  destruct (deleteAllData_wipes "alice" (settings_state true alice_store)) as [Harmed _].
  destruct (deleteAllData_wipes "alice" (settings_state false alice_store)) as [_ Hfirst].
  split.
  - apply Harmed. reflexivity.
  - apply Hfirst. reflexivity.
Defined.

(** ** C7: the append on the note list *)

Lemma saveToLocalStorage_true this note w w' :
  saveToLocalStorage this note w = (Return true, w') ->
  saveToLocalStorage_try this note (localStorage w) = Return (localStorage w')
  /\ disk w' = disk w.
Proof.
  rewrite saveToLocalStorage_run.
  destruct (saveToLocalStorage_try _ _ _); intros [= <-]; auto.
Qed.

(** C7, counterexample.  The store holds text that is not JSON under the
    user's key.  The claim has the append treat it as the empty list and
    store the record; the code does not write: [saveToLocalStorage]
    catches the [SyntaxError] and answers [false], [handleSave] lets it
    escape, and the text is still there. *)
Lemma saveToLocalStorage_unparsable_counterexample :
  getItem (notes_key "alice") corrupt_store = Some "not json"
  /\ JSONText.is_json_text "not json" = false
  /\ Dashboard.userNotes "alice" corrupt_store = Throw SyntaxError
  /\ saveToLocalStorage alice hello_note (world None corrupt_store)
     = (Return false, world None corrupt_store)
  /\ CreateNoteDialog.handleSave "alice" sample_clock None VUndef None VUndef
       (titled_dialog corrupt_store)
     = Throw SyntaxError.
Proof. vm_compute. repeat split; reflexivity. Qed.

(** C7, amended.  The append reads the text stored under the user's key,
    the text of the empty list when the key is absent or the item empty.

    - When the text reads as a list [l], the append writes back, under the
      same key, the whole of [l] followed by the record, and succeeds
      exactly when that write is accepted; afterwards the item is that
      text, and the list reads as [l] followed by what JSON keeps of the
      record.  [handleSave] does the same with its own record.
    - When the text is not JSON, nothing is written: [saveToLocalStorage]
      answers [false] and leaves the store as it was, and [handleSave]
      throws the [SyntaxError].
    - When the text is JSON and what it reads as is not an array (an
      object, [null], a number, a string, a boolean), nothing is written
      either: [saveToLocalStorage] answers [false] and [handleSave] throws
      a [TypeError].

    These are all the cases of a text within the model.  No uniqueness is
    enforced: a second record with the same id is appended after the
    first, and both are stored. *)
Theorem append_reads_appends_writes :
  forall (this : FileStorageManager) (note : NoteFile) (st : Storage),
    let user := username (config this) in
    let key := notes_key user in
    let stored := getItem_or key "[]" st in
    (getItem key st = None \/ getItem key st = Some EmptyString ->
     stored = "[]" /\ Dashboard.userNotes user st = Return (VArr []))
    /\ (forall l,
           Dashboard.userNotes user st = Return (VArr l) ->
           saveToLocalStorage_try this note st
           = setItem key (JSON.stringify 0 (VArr (l ++ [noteData note]))) st
           /\ (forall st',
                  saveToLocalStorage_try this note st = Return st' ->
                  getItem key st' = Some (JSON.stringify 0 (VArr (l ++ [noteData note])))
                  /\ Dashboard.userNotes user st'
                     = Return (VArr (l ++ [clean (noteData note)])))
           /\ (forall clock noteTitle noteContent duration thumbnail s record,
                  CreateNoteDialog.storage s = st ->
                  JSString.truthy (JSString.trim (finalTitle noteTitle s)) = true ->
                  CreateNoteDialog.newNote (CreateNoteDialog.form s) clock
                    (finalTitle noteTitle s) noteContent duration thumbnail = Return record ->
                  CreateNoteDialog.handleSave user clock noteTitle noteContent duration
                    thumbnail s
                  = (storage' <- setItem key (JSON.stringify 0 (VArr (l ++ [record]))) st ;;
                     Return (CreateNoteDialog.onNoteCreated
                               (CreateNoteDialog.resetForm
                                  {| CreateNoteDialog.form := CreateNoteDialog.form s;
                                     CreateNoteDialog.storage := storage';
                                     CreateNoteDialog.created := CreateNoteDialog.created s |})))))
    /\ (JSONText.is_json_text stored = false ->
        (forall w, localStorage w = st -> saveToLocalStorage this note w = (Return false, w))
        /\ (forall clock noteTitle noteContent duration thumbnail s record,
               CreateNoteDialog.storage s = st ->
               JSString.truthy (JSString.trim (finalTitle noteTitle s)) = true ->
               CreateNoteDialog.newNote (CreateNoteDialog.form s) clock
                 (finalTitle noteTitle s) noteContent duration thumbnail = Return record ->
               CreateNoteDialog.handleSave user clock noteTitle noteContent duration
                 thumbnail s
               = Throw SyntaxError))
    /\ (forall v,
           Dashboard.userNotes user st = Return v -> JSONText.is_array v = false ->
           (forall w, localStorage w = st -> saveToLocalStorage this note w = (Return false, w))
           /\ (forall clock noteTitle noteContent duration thumbnail s record,
                  CreateNoteDialog.storage s = st ->
                  JSString.truthy (JSString.trim (finalTitle noteTitle s)) = true ->
                  CreateNoteDialog.newNote (CreateNoteDialog.form s) clock
                    (finalTitle noteTitle s) noteContent duration thumbnail = Return record ->
                  CreateNoteDialog.handleSave user clock noteTitle noteContent duration
                    thumbnail s
                  = Throw TypeError))
    /\ (JSONText.modelled stored = true ->
        JSONText.is_json_text stored = false
        \/ (exists v, Dashboard.userNotes user st = Return v /\ JSONText.is_array v = false)
        \/ (exists l, Dashboard.userNotes user st = Return (VArr l)))
    /\ (forall l note' st1 st2,
           Dashboard.userNotes user st = Return (VArr l) ->
           id note' = id note ->
           saveToLocalStorage_try this note st = Return st1 ->
           saveToLocalStorage_try this note' st1 = Return st2 ->
           Dashboard.userNotes user st2
           = Return (VArr (l ++ [clean (noteData note); clean (noteData note')]))
           /\ get "id" (clean (noteData note')) = get "id" (clean (noteData note))).
Proof.
  intros this note st user key stored. unfold Dashboard.userNotes. fold key. fold stored.
  assert (forall n s l s', JSON.parse (getItem_or key "[]" s) = Return (VArr l) ->
            saveToLocalStorage_try this n s = Return s' ->
            JSON.parse (getItem_or key "[]" s')
            = Return (VArr (l ++ [clean (noteData n)]))) as Hback.
  { intros n s l s' Hread Htry. rewrite saveToLocalStorage_try_eq in Htry. fold user key in Htry.
    rewrite (append_to_list_array _ _ _ _ Hread) in Htry.
    eapply append_read_back; [exact Hread|discriminate|exact Htry]. }
  split; [|split; [|split; [|split; [|split]]]].
  - subst stored. intros [Habsent|Habsent]; unfold getItem_or; rewrite Habsent; split; reflexivity.
  - intros l Hread.
    assert (saveToLocalStorage_try this note st
            = setItem key (JSON.stringify 0 (VArr (l ++ [noteData note]))) st) as Htry.
    { rewrite saveToLocalStorage_try_eq. apply append_to_list_array, Hread. }
    split; [exact Htry|]. split.
    + intros st' Hst'. split; [|apply (Hback note st l st' Hread Hst')].
      rewrite Htry in Hst'. apply (getItem_setItem _ _ _ _ Hst').
    + intros clock noteTitle noteContent duration thumbnail s record <- Htitle Hnew.
      rewrite (handleSave_titled _ _ _ _ _ _ _ _ Htitle Hnew).
      fold user key. rewrite (append_to_list_array _ _ _ _ Hread). reflexivity.
  - intros Hnot. split.
    + intros w <-. rewrite saveToLocalStorage_run, saveToLocalStorage_try_eq.
      fold user key. rewrite (JSONTextFacts.append_to_list_not_json _ _ _ Hnot). reflexivity.
    + intros clock noteTitle noteContent duration thumbnail s record <- Htitle Hnew.
      rewrite (handleSave_titled _ _ _ _ _ _ _ _ Htitle Hnew).
      fold user key. rewrite (JSONTextFacts.append_to_list_not_json _ _ _ Hnot). reflexivity.
  - intros v Hread Hv. split.
    + intros w <-. rewrite saveToLocalStorage_run, saveToLocalStorage_try_eq.
      fold user key. rewrite (JSONTextFacts.append_to_list_not_array _ _ _ _ Hread Hv).
      reflexivity.
    + intros clock noteTitle noteContent duration thumbnail s record <- Htitle Hnew.
      rewrite (handleSave_titled _ _ _ _ _ _ _ _ Htitle Hnew).
      fold user key. rewrite (JSONTextFacts.append_to_list_not_array _ _ _ _ Hread Hv).
      reflexivity.
  - intros Hmodel. destruct (JSON.parse stored) as [v|e] eqn:Hread.
    + right. destruct (JSONText.is_array v) eqn:Hv.
      * right. apply JSONTextFacts.is_array_true in Hv as [l ->]. eauto.
      * left. eauto.
    + left. eapply JSONTextFacts.modelled_throws; eassumption.
  - intros l note' st1 st2 Hread Hid H1 H2. split.
    + rewrite (Hback note' st1 (l ++ [clean (noteData note)]) st2);
        [rewrite <- app_assoc; reflexivity|eapply Hback; eassumption|exact H2].
    + pose proof (noteData_stored note) as [-> _].
      pose proof (noteData_stored note') as [-> _]. congruence.
Qed.

(** An absent key; a list that is not JSON; a list that is an object;
    the same note saved twice. *)
Lemma append_reads_appends_writes_witness :
  Dashboard.userNotes "alice" empty_store = Return (VArr [])
  /\ saveToLocalStorage alice hello_note (world None corrupt_store)
     = (Return false, world None corrupt_store)
  /\ saveToLocalStorage alice hello_note (world None object_store)
     = (Return false, world None object_store)
  /\ CreateNoteDialog.handleSave "alice" sample_clock None VUndef None VUndef
       (titled_dialog object_store)
     = Throw TypeError
  /\ Dashboard.userNotes "alice"
       (localStorage
          (snd (saveToLocalStorage alice hello_note
                  (snd (saveToLocalStorage alice hello_note (world None empty_store))))))
     = Return (VArr [clean (noteData hello_note); clean (noteData hello_note)]).
Proof.
  pose (st1 := localStorage (snd (saveToLocalStorage alice hello_note
                                    (world None empty_store)))).
  pose (st2 := localStorage (snd (saveToLocalStorage alice hello_note
                                    (world None st1)))).
  destruct (append_reads_appends_writes alice hello_note empty_store)
    as (Habsent & _ & _ & _ & _ & Htwice).
  destruct (append_reads_appends_writes alice hello_note corrupt_store)
    as (_ & _ & Hnot & _).
  destruct (append_reads_appends_writes alice hello_note object_store)
    as (_ & _ & _ & Hobject & _).
  split; [apply Habsent; left; reflexivity|].
  split; [apply Hnot; reflexivity|].
  destruct (Hobject (VObj []) eq_refl eq_refl) as [Hfalse Hthrows].
  split; [apply Hfalse; reflexivity|].
  split.
  { apply (Hthrows sample_clock None VUndef None VUndef (titled_dialog object_store)
             (VObj [("id", VStr "1736937000000"); ("title", VStr "Hello");
                    ("type", VStr "text"); ("content", VStr "Dear diary");
                    ("audioData", VUndef); ("videoData", VUndef); ("thumbnail", VUndef);
                    ("duration", VNum 0); ("tags", VArr [VStr "day"; VStr "first"]);
                    ("mood", VStr "happy"); ("date", VStr "2025-01-15T10:30:00.000Z");
                    ("createdAt", VNum 1736937000001)]));
      vm_compute; reflexivity. }
  destruct (Htwice [] hello_note st1 st2) as [Hboth _].
  - reflexivity.
  - reflexivity.
  - vm_compute. reflexivity.
  - vm_compute. reflexivity.
  - exact Hboth.
Defined.

(** Two saves of the same note leave two records. *)
Example same_id_twice_sample :
  let once := snd (saveToLocalStorage alice hello_note (world None empty_store)) in
  let twice := snd (saveToLocalStorage alice hello_note once) in
  Dashboard.userNotes "alice" (localStorage twice)
  = Return (VArr [clean (noteData hello_note); clean (noteData hello_note)]).
Proof. vm_compute. reflexivity. Qed.

(** A list with a fraction in it is JSON text that the model does not
    read. *)
Example fraction_sample :
  JSONText.is_json_text "[1.5]" = true
  /\ JSONText.modelled "[1.5]" = false
  /\ JSONText.modelled "not json" = true
  /\ JSONText.modelled "{}" = true.
Proof. vm_compute. repeat split; reflexivity. Qed.

(** ** C3: append, then read *)

(** C3, counterexample.  The store has no room (the quota is used up or
    storage is switched off).  The append fails, [handleSave] with an
    uncaught exception and [saveToLocalStorage] with [false], and the
    list read afterwards is empty: the record is not in it. *)
Lemma append_full_store_counterexample :
  CreateNoteDialog.handleSave "alice" sample_clock None VUndef None VUndef
    (titled_dialog full_store)
  = Throw QuotaExceededError
  /\ saveToLocalStorage alice hello_note (world None full_store)
     = (Return false, world None full_store)
  /\ Dashboard.userNotes "alice" full_store = Return (VArr []).
Proof. vm_compute. repeat split; reflexivity. Qed.

(** C3, amended.  When the user's stored list reads as a list [l] and
    the append succeeds (the write is accepted), the list read afterwards
    is [l] followed by the stored record, and every field of the record
    that holds JSON data (text, numbers, booleans, lists of them), or is
    missing, is read back unchanged.  This holds for the append of
    [saveToLocalStorage] and for the one of [handleSave]. *)
Theorem append_then_readAll :
  forall (user : string) (st : Storage) (l : list value),
    Dashboard.userNotes user st = Return (VArr l) ->
    (forall this note w w',
        username (config this) = user -> localStorage w = st ->
        saveToLocalStorage this note w = (Return true, w') ->
        exists stored,
          Dashboard.userNotes user (localStorage w') = Return (VArr (l ++ [stored]))
          /\ is_fallback_record note stored
          /\ forall k, plain (get k (noteData note)) -> get k stored = get k (noteData note))
    /\ (forall clock noteTitle noteContent duration thumbnail s s' record,
           CreateNoteDialog.storage s = st ->
           JSString.truthy (JSString.trim (finalTitle noteTitle s)) = true ->
           CreateNoteDialog.newNote (CreateNoteDialog.form s) clock (finalTitle noteTitle s)
             noteContent duration thumbnail = Return record ->
           CreateNoteDialog.handleSave user clock noteTitle noteContent duration thumbnail s
           = Return s' ->
           exists stored,
             Dashboard.userNotes user (CreateNoteDialog.storage s')
             = Return (VArr (l ++ [stored]))
             /\ forall k, plain (get k record) -> get k stored = get k record).
Proof.
  intros user st l Hread. unfold Dashboard.userNotes in *. split.
  - intros this note w w' <- <- Hsave.
    apply saveToLocalStorage_true in Hsave as [Htry _].
    rewrite saveToLocalStorage_try_eq, (append_to_list_array _ _ _ _ Hread) in Htry.
    exists (clean (noteData note)). split; [|split].
    + eapply append_read_back; [exact Hread|discriminate|exact Htry].
    + apply noteData_stored.
    + intros k Hk. apply get_clean_json, Hk.
  - intros clock noteTitle noteContent duration thumbnail s s' record <- Htitle Hnew Hsave.
    rewrite (handleSave_titled _ _ _ _ _ _ _ _ Htitle Hnew) in Hsave.
    rewrite (append_to_list_array _ _ _ _ Hread) in Hsave.
    destruct (setItem _ _ _) as [st'|] eqn:Hset; [|discriminate].
    injection Hsave as <-. cbn.
    exists (clean record). split.
    + eapply append_read_back; [exact Hread|eapply newNote_defined, Hnew|exact Hset].
    + intros k Hk. apply get_clean_json, Hk.
Qed.

Lemma append_then_readAll_witness :
  exists stored,
    Dashboard.userNotes "alice"
      (localStorage (snd (saveToLocalStorage alice hello_note (world None empty_store))))
    = Return (VArr [stored])
    /\ get "content" stored = VStr "Dear diary"
    /\ get "tags" stored = VArr [VStr "day"; VStr "first"].
Proof.
  destruct (append_then_readAll "alice" empty_store [] eq_refl) as [Hsave _].
  destruct (Hsave alice hello_note (world None empty_store)
              (snd (saveToLocalStorage alice hello_note (world None empty_store)))
              eq_refl eq_refl) as (stored & Hnotes & Hrecord & _).
  - vm_compute. reflexivity.
  - exists stored. split; [exact Hnotes|].
    destruct Hrecord as (_ & _ & _ & Hcontent & _ & Htags & _). split; assumption.
Defined.

(** ** C1: the fallback when the export path fails *)

(** C1, counterexample.  First, there is no directory handle, so the
    export path is not available, and the store has no room: the claim
    has the note appended to the fallback store all the same; the code
    reports [false] and the user's list stays empty.  Second, there is a
    handle and the stored list is not JSON: the file is written, the
    append of the shadow record throws, the fallback throws too, and the
    code reports [false] with the file on disk and the store as it was;
    neither path has succeeded fully. *)
Lemma saveNoteToFile_full_store_counterexample :
  directoryHandle alice = None
  /\ saveNoteToFile JSDate.parseISO alice hello_note (world None full_store)
     = (Return false, world None full_store)
  /\ Dashboard.userNotes "alice" full_store = Return (VArr [])
  /\ (let result := saveNoteToFile JSDate.parseISO alice_exporting hello_note
                      (world None corrupt_store) in
      fst result = Return false
      /\ FileSystem.files (disk (snd result)) !! ("Text", "2025-01-15_Hello_World.txt")
         = Some (FileSystem.utf8 "Dear diary")
      /\ localStorage (snd result) = corrupt_store).
Proof. vm_compute. repeat split; reflexivity. Qed.

(** C1, amended.  When the export path fails (no directory handle, or
    one of its calls throws), [saveNoteToFile] makes one call of the
    fallback and none again of the export path; localStorage is then as it was
    before the call.  If the user's stored list reads as a list [l] and
    the write of [l] followed by the note's record is accepted, the call
    answers [true] and the list read afterwards is [l] followed by that
    record: id, title, type, text content, date, tags, mood and duration
    of the note, and [savedToFile] false.  If the fallback fails, the
    call answers [false] and the store is as before. *)
Theorem saveNoteToFile_fallback :
  forall (Date_parse : string -> JSDate.Date) (this : FileStorageManager) (note : NoteFile)
         (w w1 : World),
    export_fails Date_parse this note w w1 ->
    localStorage w1 = localStorage w
    /\ saveNoteToFile Date_parse this note w = saveToLocalStorage this note w1
    /\ (forall l st',
           Dashboard.userNotes (username (config this)) (localStorage w) = Return (VArr l) ->
           setItem (notes_key (username (config this)))
                   (JSON.stringify 0 (VArr (l ++ [noteData note]))) (localStorage w)
           = Return st' ->
           exists stored,
             saveNoteToFile Date_parse this note w
             = (Return true, {| disk := disk w1; localStorage := st' |})
             /\ Dashboard.userNotes (username (config this)) st'
                = Return (VArr (l ++ [stored]))
             /\ is_fallback_record note stored)
    /\ (forall e,
           saveToLocalStorage_try this note (localStorage w) = Throw e ->
           saveNoteToFile Date_parse this note w = (Return false, w1)).
Proof.
  intros Date_parse this note w w1 Hfails.
  pose proof (export_fails_storage _ _ _ _ _ Hfails) as Hstore.
  pose proof (export_fails_fallback _ _ _ _ _ Hfails) as Hcall.
  split; [exact Hstore|]. split; [exact Hcall|]. split.
  - intros l st' Hread Hset. unfold Dashboard.userNotes in *.
    exists (clean (noteData note)). split; [|split].
    + rewrite Hcall, saveToLocalStorage_run, Hstore, saveToLocalStorage_try_eq.
      rewrite (append_to_list_array _ _ _ _ Hread), Hset. reflexivity.
    + eapply append_read_back; [exact Hread|discriminate|exact Hset].
    + apply noteData_stored.
  - intros e Htry. rewrite Hcall, saveToLocalStorage_run, Hstore, Htry. reflexivity.
Qed.

(** The write to the file fails half way: the note goes to the store. *)
Lemma saveNoteToFile_fallback_witness :
  exists stored,
    fst (saveNoteToFile JSDate.parseISO alice_exporting hello_note
           (world (Some FileSystem.AtWrite) empty_store))
    = Return true
    /\ Dashboard.userNotes "alice"
         (localStorage (snd (saveNoteToFile JSDate.parseISO alice_exporting hello_note
                               (world (Some FileSystem.AtWrite) empty_store))))
       = Return (VArr [stored])
    /\ get "savedToFile" stored = VBool false
    /\ get "content" stored = VStr "Dear diary".
Proof.
  pose (w := world (Some FileSystem.AtWrite) empty_store).
  pose (w1 := snd (export JSDate.parseISO alice_exporting hello_note w)).
  pose (st' := localStorage (snd (saveToLocalStorage alice_exporting hello_note w))).
  assert (export_fails JSDate.parseISO alice_exporting hello_note w w1) as Hfails.
  { right. exists {| FileSystem.name := "Diary" |}, FileSystemError.
    split; [reflexivity|]. vm_compute. reflexivity. }
  destruct (saveNoteToFile_fallback JSDate.parseISO alice_exporting hello_note w w1 Hfails)
    as (_ & _ & Hstored & _).
  destruct (Hstored [] st') as (stored & Hrun & Hnotes & Hrecord).
  - vm_compute. reflexivity.
  - vm_compute. reflexivity.
  - exists stored. fold w. rewrite Hrun. cbn [fst snd localStorage].
    split; [reflexivity|]. split; [exact Hnotes|].
    destruct Hrecord as (_ & _ & _ & Hcontent & _ & _ & _ & _ & Hflag).
    split; assumption.
Defined.

(** ** C8: the boolean answer of saveNoteToFile *)

(** C8, counterexample.  The store has room: 27 of its 2000 code units
    are used, and it would take the list with the note.  The text under
    the user's key is not JSON, or is JSON and not an array.  The claim has
    [false] only for a store that is full or disabled; the code answers
    [false] here, with and without a directory handle, and in the first
    case the file is on disk. *)
Lemma saveNoteToFile_unreadable_list_counterexample :
  (used (items corrupt_store) = 27%nat /\ quota corrupt_store = 2000%nat)
  /\ setItem (notes_key "alice") (JSON.stringify 0 (VArr [noteData hello_note])) corrupt_store
     <> Throw QuotaExceededError
  /\ JSONText.is_json_text "not json" = false
  /\ saveNoteToFile JSDate.parseISO alice hello_note (world None corrupt_store)
     = (Return false, world None corrupt_store)
  /\ Dashboard.userNotes "alice" object_store = Return (VObj [])
  /\ saveNoteToFile JSDate.parseISO alice hello_note (world None object_store)
     = (Return false, world None object_store)
  /\ (let result := saveNoteToFile JSDate.parseISO alice_exporting hello_note
                      (world None object_store) in
      fst result = Return false
      /\ FileSystem.files (disk (snd result)) !! ("Text", "2025-01-15_Hello_World.txt")
         = Some (FileSystem.utf8 "Dear diary")
      /\ localStorage (snd result) = object_store).
Proof. vm_compute. repeat split; try reflexivity. discriminate. Qed.

(** C8, amended.  For a stored list within the model, [saveNoteToFile]
    never throws; it answers one boolean.

    - The answer is [true] exactly when the export path runs to its end
      or the fallback write succeeds.  In the first case the file named by
      [generateFilename] in the folder of the note's type holds the note's
      bytes and the user's list has the shadow record at its end; in the
      second the export path has failed and the user's list has the
      note's record at its end.
    - The answer is [false] only when the export path has failed and the
      fallback has failed too; localStorage is then as it was, and the
      stored text is not JSON, or is JSON and not an array, or the store
      refuses the new list (it is full or disabled).  The first two give
      [false] whatever room the store has.
    - Without a directory handle the call is the fallback alone: the
      directory is not touched and the answer is that of the fallback
      write. *)
Theorem saveNoteToFile_answer :
  forall (Date_parse : string -> JSDate.Date) (this : FileStorageManager) (note : NoteFile)
         (w : World),
    let user := username (config this) in
    let key := notes_key user in
    let stored := getItem_or key "[]" (localStorage w) in
    JSONText.modelled stored = true ->
    exists b w',
      saveNoteToFile Date_parse this note w = (Return b, w')
      /\ (b = true
          <-> (exists w1, export_completes Date_parse this note w w1)
              \/ (exists st', saveToLocalStorage_try this note (localStorage w) = Return st'))
      /\ (b = true ->
          (export_completes Date_parse this note w w'
           /\ exists l filename record,
               generateFilename (title note) (type note) (Date_parse (date note))
               = Return filename
               /\ FileSystem.files (disk w')
                    !! (JSString.capitalize (type_string (type note)), filename)
                  = Some (written_bytes note)
               /\ Dashboard.userNotes user (localStorage w) = Return (VArr l)
               /\ Dashboard.userNotes user (localStorage w') = Return (VArr (l ++ [record]))
               /\ is_shadow_record note filename record)
          \/ (exists w1 l record,
                 export_fails Date_parse this note w w1
                 /\ disk w' = disk w1
                 /\ Dashboard.userNotes user (localStorage w) = Return (VArr l)
                 /\ setItem key (JSON.stringify 0 (VArr (l ++ [noteData note]))) (localStorage w)
                    = Return (localStorage w')
                 /\ Dashboard.userNotes user (localStorage w') = Return (VArr (l ++ [record]))
                 /\ is_fallback_record note record))
      /\ (b = false ->
          export_fails Date_parse this note w w'
          /\ localStorage w' = localStorage w
          /\ (JSONText.is_json_text stored = false
              \/ (exists v, Dashboard.userNotes user (localStorage w) = Return v
                            /\ JSONText.is_array v = false)
              \/ (exists l, Dashboard.userNotes user (localStorage w) = Return (VArr l)
                            /\ setItem key (JSON.stringify 0 (VArr (l ++ [noteData note])))
                                 (localStorage w)
                               = Throw QuotaExceededError)))
      /\ (JSONText.is_json_text stored = false -> b = false)
      /\ (forall v, Dashboard.userNotes user (localStorage w) = Return v ->
                    JSONText.is_array v = false -> b = false)
      /\ (directoryHandle this = None ->
          disk w' = disk w
          /\ (b = true
              <-> exists st', saveToLocalStorage_try this note (localStorage w) = Return st')).
Proof.
  intros Date_parse this note w user key stored Hmodel.
  unfold Dashboard.userNotes. fold key. fold stored.
  assert (forall st', saveToLocalStorage_try this note (localStorage w) = Return st' ->
            exists l, JSON.parse stored = Return (VArr l)
                      /\ setItem key (JSON.stringify 0 (VArr (l ++ [noteData note])))
                           (localStorage w) = Return st'
                      /\ JSON.parse (getItem_or key "[]" st')
                         = Return (VArr (l ++ [clean (noteData note)]))) as Hfallback.
  { intros st' Htry. rewrite saveToLocalStorage_try_eq in Htry.
    destruct (append_to_list_returns _ _ _ _ Htry) as (l & Hread & Hset).
    exists l. split; [exact Hread|]. split; [exact Hset|].
    eapply append_read_back; [exact Hread|discriminate|exact Hset]. }
  assert (forall e, saveToLocalStorage_try this note (localStorage w) = Throw e ->
            JSONText.is_json_text stored = false
            \/ (exists v, JSON.parse stored = Return v /\ JSONText.is_array v = false)
            \/ (exists l, JSON.parse stored = Return (VArr l)
                          /\ setItem key (JSON.stringify 0 (VArr (l ++ [noteData note])))
                               (localStorage w)
                             = Throw QuotaExceededError)) as Hwhy.
  { intros e Htry. rewrite saveToLocalStorage_try_eq in Htry.
    apply JSONTextFacts.append_to_list_failure in Htry
      as [[_ Hread]|[[_ Hread]|[_ Hread]]]; [left|right; left|right; right]; try exact Hread.
    eapply JSONTextFacts.modelled_throws; [exact Hmodel | exact Hread]. }
  assert (forall st', JSON.parse stored = Throw SyntaxError ->
            saveToLocalStorage_try this note (localStorage w) <> Return st') as Hunread.
  { intros st' Hread Htry. destruct (Hfallback st' Htry) as (l & Hl & _). congruence. }
  assert (forall st' v, JSON.parse stored = Return v -> JSONText.is_array v = false ->
            saveToLocalStorage_try this note (localStorage w) <> Return st') as Hother.
  { intros st' v Hread Hv Htry. destruct (Hfallback st' Htry) as (l & Hl & _).
    rewrite Hl in Hread. injection Hread as <-. discriminate Hv. }
  destruct (export_outcome Date_parse this note w) as [[w1 Hfails]|[w1 Hdone]].
  - pose proof (export_fails_storage _ _ _ _ _ Hfails) as Hstore.
    pose proof (export_fails_fallback _ _ _ _ _ Hfails) as Hcall.
    rewrite saveToLocalStorage_run, Hstore in Hcall.
    assert (forall w2, ~ export_completes Date_parse this note w w2) as Hnot.
    { intros w2 (h & Hh & He). destruct Hfails as [[Hn _]|(h' & e & _ & He')]; congruence. }
    assert (directoryHandle this = None -> disk w1 = disk w) as Hdisk.
    { intros Hnone. destruct Hfails as [[_ ->]|(h & ? & Hh & _)]; [reflexivity|congruence]. }
    destruct (saveToLocalStorage_try this note (localStorage w)) as [st'|e] eqn:Htry.
    + exists true, {| disk := disk w1; localStorage := st' |}. cbn [disk localStorage].
      destruct (Hfallback st' eq_refl) as (l & Hread & Hset & Hafter).
      split; [exact Hcall|]. split; [split; eauto|]. split.
      { intros _. right. exists w1, l, (clean (noteData note)).
        split; [exact Hfails|]. split; [reflexivity|]. split; [exact Hread|].
        split; [exact Hset|]. split; [exact Hafter | apply noteData_stored]. }
      split; [discriminate|].
      split.
      { intros Hjson.
        destruct (Hunread st' (JSONTextFacts.not_json_text_throws _ Hjson) eq_refl). }
      split; [intros v Hv Harr; destruct (Hother st' v Hv Harr eq_refl)|].
      intros Hnone. split; [exact (Hdisk Hnone)|]. split; eauto.
    + exists false, w1. split; [exact Hcall|]. split; [|split; [|split; [|split; [|split]]]].
      * split; [discriminate|]. intros [[w2 H]|[st' H]]; [destruct (Hnot w2 H)|discriminate].
      * discriminate.
      * intros _. split; [exact Hfails|]. split; [exact Hstore|]. exact (Hwhy e eq_refl).
      * reflexivity.
      * reflexivity.
      * intros Hnone. split; [exact (Hdisk Hnone)|].
        split; [discriminate|]. intros [st' H]. discriminate.
  - exists true, w1. pose proof Hdone as (h & Hh & He).
    split; [eapply saveNoteToFile_exported; eassumption|].
    split; [split; [|reflexivity]; intros _; left; exists w1; exact Hdone|].
    apply export_inv in He as [(e & ? & _)|(_ & filename & Hname & Hmeta & Hfile)];
      [discriminate|].
    rewrite saveMetadataToLocalStorage_eq in Hmeta.
    destruct (append_to_list_returns _ _ _ _ Hmeta) as (l & Hread & Hset).
    split.
    { intros _. left. split; [exact Hdone|].
      exists l, filename, (clean (metadata note filename)).
      split; [exact Hname|]. split; [exact Hfile|]. split; [exact Hread|].
      split; [|apply metadata_stored].
      eapply append_read_back; [exact Hread|discriminate|exact Hset]. }
    split; [discriminate|].
    split.
    { intros Hjson. fold user key stored in Hread.
      rewrite (JSONTextFacts.not_json_text_throws _ Hjson) in Hread. discriminate Hread. }
    split.
    { intros v Hv Harr. fold user key stored in Hread. rewrite Hread in Hv.
      injection Hv as <-. discriminate Harr. }
    congruence.
Qed.

(** A note saved without a directory handle into an empty store, into
    a store without room, and into one whose list is not JSON. *)
Lemma saveNoteToFile_answer_witness :
  (exists record,
      fst (saveNoteToFile JSDate.parseISO alice hello_note (world None empty_store))
      = Return true
      /\ Dashboard.userNotes "alice"
           (localStorage (snd (saveNoteToFile JSDate.parseISO alice hello_note
                                 (world None empty_store))))
         = Return (VArr [record])
      /\ get "title" record = VStr "Hello, World!")
  /\ fst (saveNoteToFile JSDate.parseISO alice hello_note (world None full_store))
     = Return false
  /\ fst (saveNoteToFile JSDate.parseISO alice hello_note (world None corrupt_store))
     = Return false.
Proof.
  split; [|split].
  - destruct (saveNoteToFile_answer JSDate.parseISO alice hello_note (world None empty_store))
      as (b & w' & Hrun & Htrue & Hdetail & _); [vm_compute; reflexivity|].
    assert (b = true) as ->.
    { apply Htrue. right.
      exists (localStorage (snd (saveToLocalStorage alice hello_note (world None empty_store)))).
      vm_compute. reflexivity. }
    destruct (Hdetail eq_refl)
      as [((h & Hh & _) & _)|(w1 & l & record & _ & _ & Hbefore & _ & Hafter & Hrecord)];
      [discriminate Hh|].
    assert (l = []) as -> by (vm_compute in Hbefore; congruence).
    exists record. rewrite Hrun. cbn [fst snd].
    split; [reflexivity|]. split; [exact Hafter|].
    destruct Hrecord as (_ & Htitle & _). exact Htitle.
  - destruct (saveNoteToFile_answer JSDate.parseISO alice hello_note (world None full_store))
      as (b & w' & Hrun & _ & _ & _ & _ & _ & Hnone); [vm_compute; reflexivity|].
    rewrite Hrun. cbn [fst]. f_equal.
    destruct (Hnone eq_refl) as [_ Hiff]. destruct b; [|reflexivity].
    destruct (proj1 Hiff eq_refl) as [st' Hst]. vm_compute in Hst. discriminate Hst.
  - destruct (saveNoteToFile_answer JSDate.parseISO alice hello_note (world None corrupt_store))
      as (b & w' & Hrun & _ & _ & _ & Hjson & _); [vm_compute; reflexivity|].
    rewrite Hrun. cbn [fst]. f_equal. apply Hjson. vm_compute. reflexivity.
Defined.

(** ** C9: the shadow record of a successful export *)

(** C9.  When the export path runs to its end, [saveNoteToFile]
    answers [true]; the file named by [generateFilename] in the folder of
    the note's type holds the note's bytes; and the user's list read
    afterwards is the list from before followed by one record, which
    holds id, title, type, file name, date, tags, mood and duration of
    the note and [savedToFile] true, and no other field: no content and
    no binary payload. *)
Theorem saveNoteToFile_shadow_record :
  forall (Date_parse : string -> JSDate.Date) (this : FileStorageManager) (note : NoteFile)
         (w w' : World),
    export_completes Date_parse this note w w' ->
    exists l filename stored,
      saveNoteToFile Date_parse this note w = (Return true, w')
      /\ generateFilename (title note) (type note) (Date_parse (date note)) = Return filename
      /\ FileSystem.files (disk w')
           !! (JSString.capitalize (type_string (type note)), filename)
         = Some (written_bytes note)
      /\ Dashboard.userNotes (username (config this)) (localStorage w) = Return (VArr l)
      /\ Dashboard.userNotes (username (config this)) (localStorage w')
         = Return (VArr (l ++ [stored]))
      /\ is_shadow_record note filename stored
      /\ get "content" stored = VUndef
      /\ get "audioData" stored = VUndef
      /\ get "videoData" stored = VUndef
      /\ get "blob" stored = VUndef.
Proof.
  intros Date_parse this note w w' (h & Hh & He).
  pose proof (saveNoteToFile_exported _ _ _ _ _ _ _ Hh He) as Hrun.
  apply export_inv in He as [(e & ? & _)|(_ & filename & Hname & Hmeta & Hfile)];
    [discriminate|].
  rewrite saveMetadataToLocalStorage_eq in Hmeta.
  destruct (append_to_list_returns _ _ _ _ Hmeta) as (l & Hread & Hset).
  pose proof (metadata_stored note filename) as Hrecord.
  exists l, filename, (clean (metadata note filename)).
  split; [exact Hrun|]. split; [exact Hname|]. split; [exact Hfile|].
  split; [exact Hread|]. split.
  { eapply append_read_back; [exact Hread|discriminate|exact Hset]. }
  split; [exact Hrecord|].
  destruct Hrecord as (_ & _ & _ & _ & _ & _ & _ & _ & _ & Hnone).
  repeat split; apply Hnone, not_a_shadow_key; cbn [In]; tauto.
Qed.

Lemma saveNoteToFile_shadow_record_witness :
  exists stored,
    Dashboard.userNotes "alice"
      (localStorage (snd (saveNoteToFile JSDate.parseISO alice_exporting hello_note
                            (world None empty_store))))
    = Return (VArr [stored])
    /\ get "filename" stored = VStr "2025-01-15_Hello_World.txt"
    /\ get "savedToFile" stored = VBool true
    /\ get "content" stored = VUndef.
Proof.
  pose (w := world None empty_store).
  pose (w' := snd (export JSDate.parseISO alice_exporting hello_note w)).
  assert (export_completes JSDate.parseISO alice_exporting hello_note w w') as Hdone.
  { exists {| FileSystem.name := "Diary" |}. split; [reflexivity|]. vm_compute. reflexivity. }
  destruct (saveNoteToFile_shadow_record JSDate.parseISO alice_exporting hello_note w w' Hdone)
    as (l & filename & stored & Hrun & Hname & _ & Hbefore & Hafter & Hrecord & Hcontent & _).
  assert (l = []) as -> by (vm_compute in Hbefore; congruence).
  assert (filename = "2025-01-15_Hello_World.txt") as ->
    by (vm_compute in Hname; congruence).
  exists stored. fold w. rewrite Hrun. cbn [snd].
  split; [exact Hafter|].
  destruct Hrecord as (_ & _ & _ & Hfile & _ & _ & _ & _ & Hflag & _).
  repeat split; assumption.
Defined.

(** ** C4: a binary payload in the fallback store *)

(** C4, the code at the failing input.  Access to the directory is
    denied, so the audio note with the payload bytes 1, 2, 3 goes to the
    fallback store.  It is read back with [savedToFile] false, but its
    [audioData] is the empty object: the bytes are gone. *)
Theorem fallback_loses_binary_payload :
  let result := saveNoteToFile JSDate.parseISO alice_exporting voice_note
                  (world (Some FileSystem.AtGetDirectoryHandle) empty_store) in
  get "audioData" (noteData voice_note) = VBlob [Byte.x01; Byte.x02; Byte.x03]
  /\ fst result = Return true
  /\ Dashboard.userNotes "alice" (localStorage (snd result))
     = Return (VArr [VObj [("id", VStr "1736937000001"); ("title", VStr "Voice memo");
                           ("type", VStr "audio"); ("audioData", VObj []);
                           ("date", VStr "2025-01-15T10:31:00.000Z");
                           ("tags", VArr []); ("duration", VNum 3);
                           ("savedToFile", VBool false)]]).
Proof. vm_compute. repeat split; reflexivity. Qed.

(** The same for every audio or video note with a payload: what the
    fallback stores under [audioData] or [videoData] is [{}]. *)
Lemma fallback_payload_is_empty_object :
  forall (this : FileStorageManager) (note : NoteFile) (b : Blob) (w w' : World) (l : list value),
    blob note = Some b -> type note <> text ->
    Dashboard.userNotes (username (config this)) (localStorage w) = Return (VArr l) ->
    saveToLocalStorage this note w = (Return true, w') ->
    exists stored,
      Dashboard.userNotes (username (config this)) (localStorage w')
      = Return (VArr (l ++ [stored]))
      /\ get "savedToFile" stored = VBool false
      /\ get (type_string (type note) +:+ "Data") (noteData note) = VBlob b
      /\ get (type_string (type note) +:+ "Data") stored = VObj [].
Proof.
  intros this note b w w' l Hblob Htype Hread Hsave.
  apply saveToLocalStorage_true in Hsave as [Htry _].
  rewrite saveToLocalStorage_try_eq in Htry. unfold Dashboard.userNotes in Hread.
  rewrite (append_to_list_array _ _ _ _ Hread) in Htry.
  exists (clean (noteData note)). split.
  { eapply append_read_back; [exact Hread|discriminate|exact Htry]. }
  split; [apply noteData_stored|].
  destruct (noteData_payload_lost note b Hblob) as [Haudio Hvideo].
  destruct (type note); [congruence|apply Haudio|apply Hvideo]; reflexivity.
Qed.

(** ** C6: export, then import *)

(** C6, counterexample.  First, a local state whose note list is not
    JSON: the export throws and there is no document.  Second, the import
    of a document into a store with little room: the write of the notes
    is accepted and the write of the settings is refused, so the stored
    list is replaced (the note that was there is gone), the stored
    settings are not, and the user is told of an error: the import is not
    all-or-nothing. *)
Lemma export_import_counterexample :
  SettingsView.exportData "alice" export_clock (settings_state false corrupt_store)
  = Throw SyntaxError
  /\ Dashboard.userNotes "alice" tight_store = Return (VArr [clean (noteData hello_note)])
  /\ (let after := SettingsView.importData "alice" (Some empty_backup)
                     (settings_state false tight_store) in
      Dashboard.userNotes "alice" (SettingsView.storage after) = Return (VArr [])
      /\ getItem (SettingsView.settings_key "alice") (SettingsView.storage after) = None
      /\ SettingsView.alerts after
         = ["Error importing data. Please check the file format."]).
Proof. vm_compute. repeat split; reflexivity. Qed.

(** C6, amended.  For a local state whose note list reads as a list
    and whose settings are plain data, [exportData] yields one JSON
    document holding the username, the settings, the whole list, the
    export time and the version [1.0].  Importing that document into a
    store that accepts both writes leaves the stored list and the stored
    settings equal to the exported ones, whatever was stored before (a
    replacement, not a merge), sets the settings cell to the exported
    settings and reports success. *)
Theorem export_import_round_trip :
  forall (username : string) (clock : SettingsView.Clock) (st : SettingsView.State)
         (l : list value),
    Z.abs (SettingsView.exportDate_now clock) <= JSDate.maxTime ->
    Z.abs (SettingsView.filename_now clock) <= JSDate.maxTime ->
    is_json (SettingsView.settings st) = true ->
    truthy (SettingsView.settings st) = true ->
    Dashboard.userNotes username (SettingsView.storage st) = Return (VArr l) ->
    exists name doc exportDate,
      SettingsView.exportData username clock st = Return (name, doc)
      /\ JSDate.toISOString (JSDate.ofTime (SettingsView.exportDate_now clock))
         = Return exportDate
      /\ JSON.parse doc
         = Return (VObj [("username", VStr username);
                         ("settings", SettingsView.settings st);
                         ("notes", VArr l);
                         ("exportDate", VStr exportDate);
                         ("version", VStr "1.0")])
      /\ (forall user' st2 s1 s2,
             setItem (notes_key user') (JSON.stringify 0 (VArr l)) (SettingsView.storage st2)
             = Return s1 ->
             setItem (SettingsView.settings_key user')
                     (JSON.stringify 0 (SettingsView.settings st)) s1
             = Return s2 ->
             let st3 := SettingsView.importData user' (Some doc) st2 in
             SettingsView.storage st3 = s2
             /\ Dashboard.userNotes user' (SettingsView.storage st3) = Return (VArr l)
             /\ JSON.parse (getItem_or (SettingsView.settings_key user') "{}"
                              (SettingsView.storage st3))
                = Return (SettingsView.settings st)
             /\ SettingsView.settings st3 = SettingsView.settings st
             /\ SettingsView.alerts st3
                = SettingsView.alerts st2 ++ ["Data imported successfully!"]).
Proof.
  intros username clock st l Hdate Hname Hjson Htruthy Hread.
  unfold Dashboard.userNotes in Hread.
  pose proof (parse_is_json _ _ Hread) as Hlist.
  set (exportDate := JSDate.date_string (SettingsView.exportDate_now clock) +:+ "T"
                     +:+ JSDate.time_string (SettingsView.exportDate_now clock) +:+ "Z").
  set (document := export_document username (SettingsView.settings st) (VArr l) exportDate).
  assert (JSON.parse (JSON.stringify 2 document) = Return document) as Hparse.
  { rewrite parse_stringify by discriminate.
    unfold document. rewrite export_document_clean by assumption. reflexivity. }
  eexists _, (JSON.stringify 2 document), exportDate.
  split; [|split; [apply toISOString_valid, Hdate|split; [exact Hparse|]]].
  { unfold SettingsView.exportData, SettingsView.day_of.
    rewrite Hread, !toISOString_valid by assumption. reflexivity. }
  intros user' st2 s1 s2 Hs1 Hs2.
  assert (SettingsView.importData user' (Some (JSON.stringify 2 document)) st2
          = SettingsView.alert "Data imported successfully!"
              (SettingsView.with_storage s2
                 (SettingsView.setSettings (SettingsView.settings st)
                    (SettingsView.with_storage s1 st2)))) as ->.
  { unfold SettingsView.importData, SettingsView.importData_try. rewrite Hparse.
    assert (get "notes" document = VArr l) as Hnotes by reflexivity.
    assert (get "settings" document = SettingsView.settings st) as Hsettings
      by (apply export_document_settings; assumption).
    change (get_property "notes" document) with (Return (get "notes" document)).
    rewrite Hnotes, Hsettings. cbn [truthy]. rewrite Hs1, Htruthy.
    cbn [SettingsView.storage SettingsView.setSettings SettingsView.with_storage].
    rewrite Hs2. reflexivity. }
  cbn. repeat split.
  - unfold Dashboard.userNotes.
    rewrite (getItem_or_ne _ _ _ _ _ _
               (fun H => keys_differ user' (eq_sym H)) Hs2).
    rewrite (getItem_or_setItem _ _ _ _ _ _ Hs1).
    rewrite parse_stringify by discriminate. rewrite clean_json by exact Hlist. reflexivity.
  - rewrite (getItem_or_setItem _ _ _ _ _ _ Hs2).
    rewrite parse_stringify by (intros H; rewrite H in Hjson; discriminate).
    rewrite clean_json by exact Hjson. reflexivity.
Qed.

(** Export on one device, import into an empty store on another. *)
Lemma export_import_round_trip_witness :
  exists name doc,
    SettingsView.exportData "alice" export_clock (settings_state false alice_store)
    = Return (name, doc)
    /\ Dashboard.userNotes "alice"
         (SettingsView.storage
            (SettingsView.importData "alice" (Some doc) (settings_state false empty_store)))
       = Return (VArr [clean (noteData hello_note)]).
Proof.
  pose (s1 := match setItem (notes_key "alice")
                      (JSON.stringify 0 (VArr [clean (noteData hello_note)]))
                      empty_store with
              | Return s => s
              | Throw _ => empty_store
              end).
  pose (s2 := match setItem (SettingsView.settings_key "alice")
                      (JSON.stringify 0 SettingsView.defaultSettings) s1 with
              | Return s => s
              | Throw _ => empty_store
              end).
  destruct (export_import_round_trip "alice" export_clock (settings_state false alice_store)
              [clean (noteData hello_note)])
    as (name & doc & exportDate & Hexport & _ & _ & Himport).
  - vm_compute. discriminate.
  - vm_compute. discriminate.
  - reflexivity.
  - reflexivity.
  - vm_compute. reflexivity.
  - exists name, doc. split; [exact Hexport|].
    destruct (Himport "alice" (settings_state false empty_store) s1 s2)
      as (_ & Hnotes & _).
    + vm_compute. reflexivity.
    + vm_compute. reflexivity.
    + exact Hnotes.
Defined.

(** * Further properties of the code

    The rest of [src/lib/file-storage.ts] and of the settings view, the
    dashboard, and the editors behind the dialog. *)

Local Set Warnings "-clear-no-such-hyp".

Module SetupFacts.
Import JSON LocalStorage FileStorage DirectoryAccess SetupVocabulary.

Lemma getDirectoryHandle_create_disk taken sub d :
  snd (getDirectoryHandle_create taken sub d) = after_create taken sub d.
Proof.
  unfold getDirectoryHandle_create, after_create.
  destruct (FileSystem.rejects _ d); [reflexivity|].
  destruct d as [s f flt]; cbn [FileSystem.subdirs FileSystem.files FileSystem.fault].
  repeat case_bool_decide; cbn [snd]; f_equal; set_solver.
Qed.

(** One round of the loop of [createSubdirectories]. *)
Lemma create_round taken sub w :
  try_catch (_ <~ on_disk (getDirectoryHandle_create taken sub) ;; ret tt)
            (fun error => ret tt) w
  = (Return tt, {| disk := after_create taken sub (disk w);
                   localStorage := localStorage w |}).
Proof.
  unfold try_catch, then_, on_disk, ret.
  rewrite <- getDirectoryHandle_create_disk.
  destruct (getDirectoryHandle_create taken sub (disk w)) as [[a|e] d]; reflexivity.
Qed.

Lemma for_of_rounds taken l w :
  for_of l (fun subdir =>
              try_catch (_ <~ on_disk (getDirectoryHandle_create taken subdir) ;; ret tt)
                        (fun error => ret tt)) w
  = (Return tt, {| disk := fold_left (fun d sub => after_create taken sub d) l (disk w);
                   localStorage := localStorage w |}).
Proof.
  revert w; induction l as [|sub l IH]; intros w.
  - destruct w; reflexivity.
  - cbn [for_of fold_left]. unfold then_ at 1. rewrite create_round, IH. reflexivity.
Qed.

Lemma createSubdirectories_run taken this w h :
  directoryHandle this = Some h ->
  createSubdirectories taken this w
  = (Return tt,
     {| disk := after_create taken "Video"
                  (after_create taken "Audio" (after_create taken "Text" (disk w)));
        localStorage := localStorage w |}).
Proof.
  intros Hh. unfold createSubdirectories. rewrite Hh. apply for_of_rounds.
Qed.

Lemma after_create_fault taken sub d :
  FileSystem.fault (after_create taken sub d) = FileSystem.fault d.
Proof. unfold after_create. destruct (FileSystem.rejects _ d); reflexivity. Qed.

Lemma after_create_files taken sub d :
  FileSystem.files (after_create taken sub d) = FileSystem.files d.
Proof. unfold after_create. destruct (FileSystem.rejects _ d); reflexivity. Qed.

Lemma after_create_rejects taken sub step d :
  FileSystem.rejects step (after_create taken sub d) = FileSystem.rejects step d.
Proof. unfold FileSystem.rejects. rewrite after_create_fault. reflexivity. Qed.

Lemma after_create_subdirs taken sub d x :
  x ∈ FileSystem.subdirs (after_create taken sub d)
  <-> x ∈ FileSystem.subdirs d
      \/ (FileSystem.rejects FileSystem.AtGetDirectoryHandle d = false
          /\ x = sub /\ sub ∉ taken).
Proof.
  unfold after_create.
  destruct (FileSystem.rejects _ d); cbn [FileSystem.subdirs].
  - intuition discriminate.
  - case_bool_decide; set_solver.
Qed.

Lemma after_create_open taken sub d :
  FileSystem.rejects FileSystem.AtGetDirectoryHandle d = false ->
  after_create taken sub d
  = {| FileSystem.subdirs :=
         FileSystem.subdirs d ∪ (if bool_decide (sub ∈ taken) then ∅ else {[ sub ]});
       FileSystem.files := FileSystem.files d;
       FileSystem.fault := FileSystem.fault d |}.
Proof. intros Hr. unfold after_create. rewrite Hr. reflexivity. Qed.

Lemma after_create_closed taken sub d :
  FileSystem.rejects FileSystem.AtGetDirectoryHandle d = true ->
  after_create taken sub d = d.
Proof. intros Hr. unfold after_create. rewrite Hr. reflexivity. Qed.

Lemma after_create_twice taken sub sub' d :
  after_create taken sub (after_create taken sub' (after_create taken sub d))
  = after_create taken sub' (after_create taken sub d).
Proof.
  destruct (FileSystem.rejects FileSystem.AtGetDirectoryHandle d) eqn:Hr.
  - rewrite (after_create_closed taken sub d Hr), (after_create_closed taken sub' d Hr).
    apply after_create_closed, Hr.
  - assert (Hr1 : FileSystem.rejects FileSystem.AtGetDirectoryHandle
                    (after_create taken sub d) = false)
      by (rewrite after_create_rejects; exact Hr).
    assert (Hr2 : FileSystem.rejects FileSystem.AtGetDirectoryHandle
                    (after_create taken sub' (after_create taken sub d)) = false)
      by (rewrite after_create_rejects; exact Hr1).
    rewrite (after_create_open _ sub _ Hr2), (after_create_open _ sub' _ Hr1),
      (after_create_open _ sub _ Hr).
    cbn [FileSystem.subdirs FileSystem.files FileSystem.fault].
    f_equal. repeat case_bool_decide; set_solver.
Qed.

Lemma directory_key_not_notes user user' : directory_key user <> notes_key user'.
Proof. unfold directory_key, notes_key. cbn. discriminate. Qed.

Lemma directory_key_not_settings user user' :
  directory_key user <> SettingsView.settings_key user'.
Proof. unfold directory_key, SettingsView.settings_key. cbn. discriminate. Qed.

Lemma storeDirectoryReference_run this w :
  storeDirectoryReference this w
  = (Return tt,
     match setItem (directory_key (username (config this))) "true" (localStorage w) with
     | Return st => {| disk := disk w; localStorage := st |}
     | Throw _ => w
     end).
Proof.
  unfold storeDirectoryReference, try_catch, on_storage, ret.
  destruct (setItem _ _ _); reflexivity.
Qed.

Lemma initializeDirectoryStructure_picked window taken this w handle :
  showDirectoryPicker window = Some (Return handle) ->
  initializeDirectoryStructure window taken this w
  = let this' := {| config := config this; directoryHandle := Some handle |} in
    (true, (this', snd (storeDirectoryReference this'
                          (snd (createSubdirectories taken this' w))))).
Proof.
  intros Hp. unfold initializeDirectoryStructure, initializeDirectoryStructure_try,
    isFileSystemAccessSupported.
  rewrite Hp. cbn [negb]. cbv zeta. unfold then_.
  erewrite !createSubdirectories_run by reflexivity.
  rewrite !storeDirectoryReference_run. reflexivity.
Qed.

Lemma initializeDirectoryStructure_not_picked window taken this w :
  picked window = None ->
  initializeDirectoryStructure window taken this w = (false, (this, w)).
Proof.
  unfold picked, initializeDirectoryStructure, initializeDirectoryStructure_try,
    isFileSystemAccessSupported.
  destruct (showDirectoryPicker window) as [[h|e]|]; [discriminate| |]; reflexivity.
Qed.

Lemma getFileStorageManager_username username diaryPath instance :
  FileStorage.username
    (config (getFileStorageManager username diaryPath instance))
  = username.
Proof.
  unfold getFileStorageManager. destruct instance as [m|]; [|reflexivity].
  destruct (String.eqb (FileStorage.username (config m)) username) eqn:He; [|reflexivity].
  apply String.eqb_eq, He.
Qed.

Lemma getFileStorageManager_same username diaryPath m :
  FileStorage.username (config m) = username ->
  getFileStorageManager username diaryPath (Some m) = m.
Proof.
  intros Hu. unfold getFileStorageManager.
  rewrite Hu, String.eqb_refl. reflexivity.
Qed.

Section ExportRuns.

Variable Date_parse : string -> JSDate.Date.

Lemma rejects_no_fault step d :
  FileSystem.fault d = None -> FileSystem.rejects step d = false.
Proof. intros H. unfold FileSystem.rejects. rewrite H. reflexivity. Qed.

(** The export path runs to its end in a folder that rejects no call and
    has the sub-folder of the note's type, when the date is valid and the
    shadow record can be stored. *)
Lemma export_runs this note w filename st' :
  FileSystem.fault (disk w) = None ->
  JSString.capitalize (type_string (type note)) ∈ FileSystem.subdirs (disk w) ->
  generateFilename (title note) (type note) (Date_parse (date note)) = Return filename ->
  saveMetadataToLocalStorage this note filename (localStorage w) = Return st' ->
  exists w', export Date_parse this note w = (Return true, w')
             /\ FileSystem.files (disk w')
                  !! (JSString.capitalize (type_string (type note)), filename)
                = Some (written_bytes note)
             /\ FileSystem.subdirs (disk w') = FileSystem.subdirs (disk w)
             /\ localStorage w' = st'.
Proof.
  intros Hf Hsub Hname Hmeta.
  destruct w as [[s f flt] st]. cbn [disk localStorage FileSystem.fault FileSystem.subdirs] in *.
  subst flt.
  unfold export, then_, on_disk, of_completion.
  cbn [disk localStorage].
  unfold FileSystem.getDirectoryHandle at 1. cbn [FileSystem.rejects FileSystem.fault FileSystem.subdirs].
  rewrite (bool_decide_eq_true_2 _ Hsub). rewrite Hname.
  cbn [disk localStorage].
  remember (JSString.capitalize (type_string (type note))) as sub eqn:Esub. clear Esub Hsub.
  unfold FileSystem.getFileHandle.
  cbn [FileSystem.rejects FileSystem.fault FileSystem.files FileSystem.subdirs].
  unfold written_bytes.
  destruct (f !! (sub, filename)) as [old|] eqn:Hold;
    cbn [disk localStorage];
    unfold FileSystem.createWritable;
    cbn [FileSystem.rejects FileSystem.fault disk localStorage];
    (destruct (type note); [|destruct (blob note)..]);
    unfold FileSystem.write, FileSystem.close, ret, on_storage;
    cbn [FileSystem.rejects FileSystem.fault FileSystem.files FileSystem.subdirs
         FileSystem.target FileSystem.swap disk localStorage app];
    rewrite Hmeta;
    (eexists; split; [reflexivity|]);
    cbn [FileSystem.files FileSystem.subdirs disk localStorage];
    rewrite lookup_insert_eq; auto.
Qed.

End ExportRuns.

End SetupFacts.

Module ObjectFacts.
Import JSON JSObject ObjectVocabulary.

Lemma lookup_prop_cons k k' v ps :
  lookup_prop k ((k', v) :: ps)
  = or_default (lookup_prop k ps) (if String.eqb k k' then v else VUndef).
Proof. cbn [lookup_prop]. destruct (lookup_prop k ps); reflexivity. Qed.

Lemma lookup_prop_no_key k ps : has_key k ps = false -> lookup_prop k ps = VUndef.
Proof.
  induction ps as [|[k' v] ps IH]; [reflexivity|].
  cbn [has_key existsb fst]. intros H. apply orb_false_iff in H as [Hk Hr].
  rewrite lookup_prop_cons, (IH Hr), Hk. reflexivity.
Qed.

Lemma lookup_insert_prop k k' v ps :
  has_key k' ps = false ->
  lookup_prop k (insert_prop k' v ps) = if String.eqb k k' then v else lookup_prop k ps.
Proof.
  induction ps as [|[k0 v0] ps IH]; intros Hno.
  - cbn. destruct (String.eqb k k'); reflexivity.
  - cbn [has_key existsb fst] in Hno. apply orb_false_iff in Hno as [Hk0 Hr].
    fold (has_key k' ps) in Hr.
    assert (Hhere : lookup_prop k ((k', v) :: (k0, v0) :: ps)
                    = if String.eqb k k' then v else lookup_prop k ((k0, v0) :: ps)).
    { rewrite (lookup_prop_cons k k' v).
      destruct (String.eqb k k') eqn:Hkk.
      - apply String.eqb_eq in Hkk. subst k'.
        rewrite lookup_prop_no_key; [reflexivity|].
        cbn [has_key existsb fst]. rewrite Hk0. exact Hr.
      - destruct (lookup_prop k ((k0, v0) :: ps)); reflexivity. }
    assert (Hlater : lookup_prop k ((k0, v0) :: insert_prop k' v ps)
                     = if String.eqb k k' then v else lookup_prop k ((k0, v0) :: ps)).
    { rewrite !lookup_prop_cons, (IH Hr).
      destruct (String.eqb k k') eqn:Hkk; [|reflexivity].
      apply String.eqb_eq in Hkk. subst k'. rewrite Hk0.
      destruct v; reflexivity. }
    cbn [insert_prop].
    destruct (array_index k') as [n|]; [|exact Hlater].
    destruct (array_index k0) as [n0|]; [|exact Hhere].
    destruct (n <? n0)%N; [exact Hhere | exact Hlater].
Qed.

Lemma or_default_same v : or_default v v = v.
Proof. destruct v; reflexivity. Qed.

Lemma or_default_undefined v : or_default v VUndef = v.
Proof. destruct v; reflexivity. Qed.

Lemma lookup_replace k k' v ps :
  lookup_prop k (List.map (fun kv => if String.eqb k' (fst kv) then (fst kv, v) else kv) ps)
  = if String.eqb k k' && has_key k' ps then v else lookup_prop k ps.
Proof.
  induction ps as [|[k0 v0] ps IH]; [cbn; rewrite andb_false_r; reflexivity|].
  cbn [List.map fst has_key existsb]. fold (has_key k' ps).
  destruct (String.eqb k' k0) eqn:H0.
  - apply String.eqb_eq in H0. subst k0.
    rewrite !lookup_prop_cons, IH. cbn [orb]. rewrite andb_true_r.
    destruct (String.eqb k k') eqn:Hkk; cbn [andb].
    + destruct (has_key k' ps) eqn:Hin; [apply or_default_same|].
      apply String.eqb_eq in Hkk. subst k'.
      rewrite (lookup_prop_no_key _ _ Hin). reflexivity.
    + reflexivity.
  - rewrite !lookup_prop_cons, IH. cbn [orb].
    destruct (String.eqb k k' && has_key k' ps) eqn:Hc; [|reflexivity].
    apply andb_true_iff in Hc as [Hkk _]. apply String.eqb_eq in Hkk. subst k'.
    rewrite H0. apply or_default_undefined.
Qed.

(** Reading after an assignment. *)
Lemma lookup_set_prop k k' v ps :
  lookup_prop k (set_prop k' v ps) = if String.eqb k k' then v else lookup_prop k ps.
Proof.
  unfold set_prop. destruct (has_key k' ps) eqn:Hin.
  - rewrite lookup_replace, Hin, andb_true_r. reflexivity.
  - apply lookup_insert_prop, Hin.
Qed.

Lemma has_key_insert_prop k k' v ps :
  has_key k (insert_prop k' v ps) = String.eqb k k' || has_key k ps.
Proof.
  induction ps as [|[k0 v0] ps IH]; [reflexivity|].
  assert (Hlater : has_key k ((k0, v0) :: insert_prop k' v ps)
                   = String.eqb k k' || has_key k ((k0, v0) :: ps)).
  { cbn [has_key existsb fst]. fold (has_key k (insert_prop k' v ps)). rewrite IH.
    fold (has_key k ps).
    destruct (String.eqb k k0), (String.eqb k k'), (has_key k ps); reflexivity. }
  cbn [insert_prop].
  destruct (array_index k') as [n|]; [|exact Hlater].
  destruct (array_index k0) as [n0|]; [|reflexivity].
  destruct (n <? n0)%N; [reflexivity | exact Hlater].
Qed.

Lemma has_key_replace k k' v ps :
  has_key k (List.map (fun kv => if String.eqb k' (fst kv) then (fst kv, v) else kv) ps)
  = has_key k ps.
Proof.
  induction ps as [|[k0 v0] ps IH]; [reflexivity|].
  cbn [List.map has_key existsb fst].
  fold (has_key k ps).
  fold (has_key k (List.map (fun kv => if String.eqb k' (fst kv) then (fst kv, v) else kv) ps)).
  rewrite IH. destruct (String.eqb k' k0); reflexivity.
Qed.

Lemma has_key_set_prop k k' v ps :
  has_key k (set_prop k' v ps) = String.eqb k k' || has_key k ps.
Proof.
  unfold set_prop. destruct (has_key k' ps) eqn:Hin.
  - rewrite has_key_replace. destruct (String.eqb k k') eqn:Hkk; [|reflexivity].
    apply String.eqb_eq in Hkk. subst k'. exact Hin.
  - apply has_key_insert_prop.
Qed.

(** An assignment of [bindings] leaves each key its last binding. *)
Lemma lookup_fold_set_prop k bindings target :
  lookup_prop k (fold_left (fun acc kv => set_prop (fst kv) (snd kv) acc) bindings target)
  = match last_binding k bindings with
    | Some v => v
    | None => lookup_prop k target
    end.
Proof.
  revert target. induction bindings as [|[k0 v0] bs IH]; intros target; [reflexivity|].
  cbn [fold_left last_binding fst snd]. rewrite IH.
  destruct (last_binding k bs) as [v|]; [reflexivity|].
  rewrite lookup_set_prop. destruct (String.eqb k k0); reflexivity.
Qed.

(** In a list of properties without [undefined], the last binding of a
    key is what [lookup_prop] reads. *)
Lemma last_binding_lookup k ps :
  forallb (fun kv => is_json (snd kv)) ps = true ->
  last_binding k ps
  = match lookup_prop k ps with
    | VUndef => None
    | v => Some v
    end.
Proof.
  induction ps as [|[k0 v0] ps IH]; intros Hj; [reflexivity|].
  cbn [forallb snd] in Hj. apply andb_true_iff in Hj as [Hv Hps].
  cbn [last_binding]. rewrite lookup_prop_cons, (IH Hps).
  destruct (lookup_prop k ps); try reflexivity.
  cbn [or_default]. destruct (String.eqb k k0); [|reflexivity].
  pose proof (JSONFacts.json_defined v0 Hv). destruct v0; congruence.
Qed.

End ObjectFacts.

Module SettingsControlsFacts.
Import JSON LocalStorage FileStorage SettingsView SettingsControls.
Import JSObject ObjectVocabulary ObjectFacts SettingsVocabulary.

(** A copy of an object that holds JSON data reads like the object. *)
Lemma lookup_copy k ps :
  forallb (fun kv => is_json (snd kv)) ps = true ->
  lookup_prop k (assign [] (VObj ps)) = lookup_prop k ps.
Proof.
  intros Hj. unfold assign. cbn [own_props].
  rewrite lookup_fold_set_prop, (last_binding_lookup k ps Hj).
  destruct (lookup_prop k ps); reflexivity.
Qed.

Lemma lookup_merge k target ps :
  forallb (fun kv => is_json (snd kv)) ps = true ->
  lookup_prop k (assign target (VObj ps))
  = or_default (lookup_prop k ps) (lookup_prop k target).
Proof.
  intros Hj. unfold assign. cbn [own_props].
  rewrite lookup_fold_set_prop, (last_binding_lookup k ps Hj).
  destruct (lookup_prop k ps); reflexivity.
Qed.

Lemma defaultSettings_json : is_json defaultSettings = true.
Proof. reflexivity. Qed.

Lemma get_spread_default k ps :
  forallb (fun kv => is_json (snd kv)) ps = true ->
  get k (spread [defaultSettings; VObj ps])
  = or_default (lookup_prop k ps) (get k defaultSettings).
Proof.
  intros Hj. unfold spread. cbn [fold_left get].
  rewrite (lookup_merge k _ ps Hj). reflexivity.
Qed.

Lemma parse_not_empty v : JSON.parse EmptyString <> Return v.
Proof. discriminate. Qed.

Lemma loadSettings_object username p text ps :
  getItem (settings_key username) (storage (view p)) = Some text ->
  JSON.parse text = Return (VObj ps) ->
  loadSettings username p
  = Return (with_view (setSettings (spread [defaultSettings; VObj ps]) (view p)) p).
Proof.
  intros Hget Hparse. unfold loadSettings. rewrite Hget.
  destruct text as [|c text]; [discriminate|].
  cbn [JSString.truthy]. rewrite Hparse. reflexivity.
Qed.

Lemma loadSettings_reads username p text ps :
  getItem (settings_key username) (storage (view p)) = Some text ->
  JSON.parse text = Return (VObj ps) ->
  exists p',
    loadSettings username p = Return p'
    /\ forall k, get k (settings (view p'))
                 = or_default (lookup_prop k ps) (get k defaultSettings).
Proof.
  intros Hget Hparse.
  rewrite (loadSettings_object username p text ps Hget Hparse).
  eexists. split; [reflexivity|].
  intros k. cbn [with_view view setSettings settings].
  apply get_spread_default.
  exact (JSONFacts.parse_is_json text (VObj ps) Hparse).
Qed.

Lemma split_not_empty sep s : JSString.split sep s <> [].
Proof.
  destruct s as [|c s]; [discriminate|]. cbn [JSString.split].
  destruct (Ascii.eqb c sep); [discriminate|].
  destruct (JSString.split sep s); discriminate.
Qed.

Lemma get_path_cons k keys v : get_path (k :: keys) v = get_path keys (get k v).
Proof. reflexivity. Qed.

Lemma update_path_last k value current :
  update_path [k] value current = set_prop k value current.
Proof. reflexivity. Qed.

Lemma update_path_cons k k' keys value current :
  update_path (k :: k' :: keys) value current
  = set_prop k (VObj (update_path (k' :: keys) value
                        (assign [] (lookup_prop k current)))) current.
Proof. reflexivity. Qed.

Lemma get_path_update keys value current :
  keys <> [] -> get_path keys (VObj (update_path keys value current)) = value.
Proof.
  revert current. induction keys as [|k keys IH]; intros current Hne; [congruence|].
  destruct keys as [|k' keys].
  - rewrite update_path_last. cbn [get_path fold_left get].
    rewrite lookup_set_prop, String.eqb_refl. reflexivity.
  - rewrite update_path_cons, get_path_cons. cbn [get].
    rewrite lookup_set_prop, String.eqb_refl. apply IH. discriminate.
Qed.

Lemma get_path_beside pre a b keys q value ps :
  a <> b ->
  objects_along pre (VObj ps) = true ->
  get_path (pre ++ a :: q)
    (VObj (update_path (pre ++ b :: keys) value (assign [] (VObj ps))))
  = get_path (pre ++ a :: q) (VObj ps).
Proof.
  intros Hab. revert ps. induction pre as [|k pre IH]; intros ps Hobj.
  - cbn [objects_along] in Hobj. rewrite andb_true_r in Hobj.
    cbn [app]. rewrite !get_path_cons. f_equal. cbn [get].
    assert (Hne : String.eqb a b = false) by (apply String.eqb_neq, Hab).
    destruct keys as [|k' keys].
    + rewrite update_path_last, lookup_set_prop, Hne. apply lookup_copy, Hobj.
    + rewrite update_path_cons, lookup_set_prop, Hne. apply lookup_copy, Hobj.
  - cbn [objects_along] in Hobj. apply andb_true_iff in Hobj as [Hj Hobj].
    cbn [app]. rewrite !get_path_cons. cbn [get].
    assert (Hshape : exists k' keys', pre ++ b :: keys = k' :: keys').
    { destruct pre; cbn; eauto. }
    destruct Hshape as (k' & keys' & Hshape). rewrite Hshape, update_path_cons, <- Hshape.
    rewrite lookup_set_prop, String.eqb_refl, (lookup_copy k ps Hj).
    destruct (lookup_prop k ps) as [| | | | | |inner|] eqn:Hin;
      try (destruct pre; discriminate Hobj).
    apply IH, Hobj.
Qed.

Lemma fileStorage_of_defined username settings p :
  settings <> VNull -> settings <> VUndef ->
  fileStorage_of username settings p
  = Return (DirectoryAccess.getFileStorageManager username
              (path_text (get "diaryPath" settings)) (fileStorageInstance p)).
Proof.
  intros Hn Hu. unfold fileStorage_of, get_property.
  destruct settings; try congruence; reflexivity.
Qed.

End SettingsControlsFacts.

Module DashboardFacts.
Import JSON LocalStorage DashboardStats DashboardVocabulary.

Lemma count_of_type_returns t notes :
  existsb nullish notes = false ->
  exists n, count_of_type t notes = Return n
            /\ 0 <= n <= Z.of_nat (length notes)
            /\ n = Z.of_nat (length (List.filter (fun note => is_string t (get "type" note)) notes)).
Proof.
  induction notes as [|note notes IH]; intros Hn.
  - exists 0. cbn. repeat split; lia.
  - cbn [existsb] in Hn. apply orb_false_iff in Hn as [Hnote Hrest].
    destruct (IH Hrest) as (n & Hc & Hb & Hf).
    cbn [count_of_type]. rewrite Hc.
    assert (Hg : get_property "type" note = Return (get "type" note))
      by (destruct note; try reflexivity; discriminate).
    rewrite Hg. cbn [bind List.filter].
    destruct (is_string t (get "type" note)); eexists; (split; [reflexivity|]);
      cbn [length]; split; lia.
Qed.

Lemma count_of_type_throws t notes :
  existsb nullish notes = true -> count_of_type t notes = Throw TypeError.
Proof.
  induction notes as [|note notes IH]; intros Hn; [discriminate|].
  cbn [existsb] in Hn. cbn [count_of_type].
  destruct note; try reflexivity; cbn [nullish orb] in Hn; cbn [get_property bind];
    rewrite (IH Hn); reflexivity.
Qed.

Lemma count_of_type_app t l x :
  get_property "type" x = Return (get "type" x) ->
  count_of_type t (l ++ [x])
  = (n <- count_of_type t l ;; Return (if is_string t (get "type" x) then n + 1 else n)).
Proof.
  intros Hx. induction l as [|note l IH].
  - cbn. rewrite Hx. cbn. destruct (is_string t (get "type" x)); reflexivity.
  - cbn [app count_of_type]. destruct (get_property "type" note) as [ty|e]; [|reflexivity].
    cbn [bind]. rewrite IH. destruct (count_of_type t l) as [n|e]; [|reflexivity].
    cbn [bind]. destruct (is_string t ty), (is_string t (get "type" x)); f_equal; lia.
Qed.

Lemma is_string_text_only ty :
  is_string "text" ty = true ->
  is_string "audio" ty = false /\ is_string "video" ty = false.
Proof.
  destruct ty; try discriminate. cbn. intros H. apply String.eqb_eq in H. subst.
  split; reflexivity.
Qed.

Lemma is_string_audio_only ty :
  is_string "audio" ty = true -> is_string "video" ty = false.
Proof.
  destruct ty; try discriminate. cbn. intros H. apply String.eqb_eq in H. subst.
  reflexivity.
Qed.

(** The notes of the three types are counted apart. *)
Lemma typed_notes_counted notes :
  let count t :=
    Z.of_nat (length (List.filter (fun note => is_string t (get "type" note)) notes)) in
  count "text" + count "audio" + count "video" <= Z.of_nat (length notes)
  /\ (count "text" + count "audio" + count "video" = Z.of_nat (length notes)
      <-> forallb typed_note notes = true).
Proof.
  cbv beta zeta. induction notes as [|note notes IH]; [cbn; split; [lia|split; [reflexivity|lia]]|].
  destruct IH as (Hle & Hall & Hsum).
  cbn [List.filter forallb length]. unfold typed_note at 1.
  destruct (is_string "text" (get "type" note)) eqn:Etext.
  - destruct (is_string_text_only _ Etext) as [-> ->]. cbn [length orb andb].
    split; [lia|]. split; intros H; [apply Hall; lia | apply Hsum in H; lia].
  - destruct (is_string "audio" (get "type" note)) eqn:Eaudio.
    + rewrite (is_string_audio_only _ Eaudio). cbn [length orb andb].
      split; [lia|]. split; intros H; [apply Hall; lia | apply Hsum in H; lia].
    + destruct (is_string "video" (get "type" note)) eqn:Evideo; cbn [length orb andb].
      * split; [lia|]. split; intros H; [apply Hall; lia | apply Hsum in H; lia].
      * split; [lia|]. split; intros H; [lia | discriminate].
Qed.

End DashboardFacts.

Module EditorFacts.
Import JSON LocalStorage CreateNoteDialog NoteEditors EditorVocabulary.

Lemma trimStart_starts_clean s : starts_clean (JSString.trimStart s) = true.
Proof.
  induction s as [|c s IH]; [reflexivity|]. cbn [JSString.trimStart].
  destruct (JSString.is_space c) eqn:Hc; [exact IH|]. cbn. rewrite Hc. reflexivity.
Qed.

Lemma trimStart_clean s : starts_clean s = true -> JSString.trimStart s = s.
Proof.
  destruct s as [|c s]; [reflexivity|]. cbn. intros H.
  apply negb_true_iff in H. rewrite H. reflexivity.
Qed.

Lemma trimEnd_starts_clean s : starts_clean s = true -> starts_clean (JSString.trimEnd s) = true.
Proof.
  destruct s as [|c s]; [reflexivity|]. cbn [starts_clean JSString.trimEnd]. intros H.
  destruct (JSString.trimEnd s); [|exact H].
  apply negb_true_iff in H. rewrite H. cbn. rewrite H. reflexivity.
Qed.

Lemma trimEnd_idempotent s : JSString.trimEnd (JSString.trimEnd s) = JSString.trimEnd s.
Proof.
  induction s as [|c s IH]; [reflexivity|]. cbn [JSString.trimEnd].
  destruct (JSString.trimEnd s) as [|c' r'] eqn:Hr.
  - destruct (JSString.is_space c) eqn:Hc; [reflexivity|]. cbn. rewrite Hc. reflexivity.
  - remember (String c' r') as r eqn:Er. cbn [JSString.trimEnd]. rewrite IH.
    subst r. reflexivity.
Qed.

Lemma trim_idempotent s : JSString.trim (JSString.trim s) = JSString.trim s.
Proof.
  unfold JSString.trim.
  rewrite (trimStart_clean (JSString.trimEnd (JSString.trimStart s))).
  - apply trimEnd_idempotent.
  - apply trimEnd_starts_clean, trimStart_starts_clean.
Qed.

Lemma contains_trimStart c s : contains c s = false -> contains c (JSString.trimStart s) = false.
Proof.
  induction s as [|x s IH]; [reflexivity|]. cbn [contains JSString.trimStart]. intros H.
  apply orb_false_iff in H as [Hx Hs].
  destruct (JSString.is_space x); [exact (IH Hs)|]. cbn. rewrite Hx. exact Hs.
Qed.

Lemma contains_trimEnd c s : contains c s = false -> contains c (JSString.trimEnd s) = false.
Proof.
  induction s as [|x s IH]; [reflexivity|]. cbn [contains JSString.trimEnd]. intros H.
  apply orb_false_iff in H as [Hx Hs]. specialize (IH Hs).
  destruct (JSString.trimEnd s).
  - destruct (JSString.is_space x); [reflexivity|]. cbn. rewrite Hx. reflexivity.
  - cbn [contains] in *. rewrite Hx. exact IH.
Qed.

Lemma split_pieces sep s :
  Forall (fun piece => contains sep piece = false) (JSString.split sep s).
Proof.
  induction s as [|x s IH]; [repeat constructor|]. cbn [JSString.split].
  destruct (Ascii.eqb x sep) eqn:Hx.
  - constructor; [reflexivity | exact IH].
  - destruct (JSString.split sep s) as [|h t].
    + repeat constructor. cbn. rewrite Hx. reflexivity.
    + inversion IH as [|? ? Hh Ht]; subst. constructor; [|exact Ht].
      cbn. rewrite Hx. exact Hh.
Qed.

(** The decimal numeral of a number that is not negative has one
    digit below ten and more from ten on. *)
Lemma toString_digit n :
  0 <= n < 10 ->
  JSNumber.toString n = String (ascii_of_N (48 + Z.to_N n)) EmptyString.
Proof.
  intros Hn.
  assert (Hcases : exists k, (k < 10)%nat /\ n = Z.of_nat k)
    by (exists (Z.to_nat n); lia).
  destruct Hcases as (k & Hk & ->).
  do 10 (destruct k as [|k]; [reflexivity|]). lia.
Qed.

Lemma toString_long n :
  10 <= n -> exists a b rest, JSNumber.toString n = String a (String b rest).
Proof.
  intros Hn. unfold JSNumber.toString, JSNumber.chars.
  destruct (n <? 0) eqn:Hneg; [apply Z.ltb_lt in Hneg; lia|].
  pose proof (DecimalN.Unsigned.of_to (Z.to_N n)) as Hback.
  destruct (N.to_uint (Z.to_N n)) as [|u|u|u|u|u|u|u|u|u|u] eqn:Hu;
    try (destruct u; [cbn in Hback; lia | cbn; eauto ..]).
  cbn in Hback. lia.
Qed.

Lemma padStart2_digit n :
  0 <= n < 10 -> padStart2 (JSNumber.toString n) = String "0" (JSNumber.toString n).
Proof. intros Hn. rewrite (toString_digit n Hn). reflexivity. Qed.

Lemma padStart2_long n : 10 <= n -> padStart2 (JSNumber.toString n) = JSNumber.toString n.
Proof.
  intros Hn. destruct (toString_long n Hn) as (a & b & rest & ->). reflexivity.
Qed.

Lemma padStart2_seconds n :
  0 <= n < 60 -> padStart2 (JSNumber.toString n) = JSNumber.padded 2 n.
Proof.
  intros Hn.
  assert (Hcases : exists k, (k < 60)%nat /\ n = Z.of_nat k)
    by (exists (Z.to_nat n); lia).
  destruct Hcases as (k & Hk & ->).
  do 60 (destruct k as [|k]; [reflexivity|]). lia.
Qed.

End EditorFacts.

Module DirectoryProperties.
Import DirectoryAccess SetupVocabulary SetupFacts.

(** ** Directory setup *)

(** X1.  [createSubdirectories] makes every one of the sub-folders Text,
    Audio and Video that the folder lets it make, whatever happens to the
    other two: a failure on one sub-folder does not stop the loop. *)
Theorem createSubdirectories_makes_each_folder taken this w handle sub :
  directoryHandle this = Some handle ->
  FileSystem.rejects FileSystem.AtGetDirectoryHandle (disk w) = false ->
  In sub DirectoryAccess.subdirs ->
  sub ∉ taken ->
  sub ∈ FileSystem.subdirs (disk (snd (createSubdirectories taken this w))).
Proof.
  intros Hh Hr Hin Hfree.
  rewrite (createSubdirectories_run taken this w handle Hh). cbn [snd disk].
  rewrite !after_create_subdirs, !after_create_rejects.
  cbn in Hin. destruct Hin as [<-|[<-|[<-|[]]]]; tauto.
Qed.

Lemma createSubdirectories_makes_each_folder_witness :
  "Video" ∈ FileSystem.subdirs
              (disk (snd (createSubdirectories audio_taken alice_exporting
                            (fresh_world empty_store))))
  /\ "Audio" ∉ FileSystem.subdirs
                 (disk (snd (createSubdirectories audio_taken alice_exporting
                               (fresh_world empty_store)))).
Proof.
  split.
  - apply (createSubdirectories_makes_each_folder audio_taken alice_exporting
             (fresh_world empty_store) {| FileSystem.name := "Diary" |} "Video").
    + reflexivity.
    + reflexivity.
    + simpl. tauto.
    + vm_compute. discriminate.
  - vm_compute. discriminate.
Defined.

(** X2.  [createSubdirectories] never throws.  It leaves localStorage and
    every file alone, removes no sub-folder, and adds none but Text, Audio
    and Video. *)
Theorem createSubdirectories_settles taken this w :
  let r := createSubdirectories taken this w in
  fst r = Return tt
  /\ localStorage (snd r) = localStorage w
  /\ FileSystem.files (disk (snd r)) = FileSystem.files (disk w)
  /\ FileSystem.fault (disk (snd r)) = FileSystem.fault (disk w)
  /\ FileSystem.subdirs (disk w) ⊆ FileSystem.subdirs (disk (snd r))
  /\ forall sub, sub ∈ FileSystem.subdirs (disk (snd r)) ->
                 sub ∈ FileSystem.subdirs (disk w)
                 \/ (In sub DirectoryAccess.subdirs /\ sub ∉ taken).
Proof.
  cbv zeta. destruct (directoryHandle this) as [handle|] eqn:Hh.
  - rewrite (createSubdirectories_run taken this w handle Hh). cbn [fst snd disk localStorage].
    rewrite !after_create_files, !after_create_fault.
    repeat split.
    + intros sub Hsub. rewrite !after_create_subdirs. tauto.
    + intros sub. rewrite !after_create_subdirs. cbn. intuition (subst; auto).
  - unfold createSubdirectories. rewrite Hh. unfold ret. cbn [fst snd].
    repeat split; auto.
Qed.

(** X3.  [createSubdirectories] is idempotent: a second run changes
    nothing. *)
Theorem createSubdirectories_idempotent taken this w :
  createSubdirectories taken this (snd (createSubdirectories taken this w))
  = createSubdirectories taken this w.
Proof.
  destruct (directoryHandle this) as [handle|] eqn:Hh.
  - rewrite !(createSubdirectories_run taken this _ handle Hh). cbn [snd disk localStorage].
    do 2 f_equal.
    set (d3 := after_create taken "Video"
                 (after_create taken "Audio" (after_create taken "Text" (disk w)))).
    assert (Hsettled : forall sub, In sub DirectoryAccess.subdirs ->
                                   after_create taken sub d3 = d3).
    { intros sub Hin.
      destruct (FileSystem.rejects FileSystem.AtGetDirectoryHandle d3) eqn:Hr.
      - apply after_create_closed, Hr.
      - rewrite (after_create_open _ _ _ Hr). destruct d3 as [s f flt] eqn:Hd3.
        cbn [FileSystem.subdirs FileSystem.files FileSystem.fault]. f_equal.
        case_bool_decide as Htaken; [set_solver|].
        assert (sub ∈ s); [|set_solver].
        change s with (FileSystem.subdirs {| FileSystem.subdirs := s; FileSystem.files := f;
                                             FileSystem.fault := flt |}).
        rewrite <- Hd3. subst d3.
        unfold FileSystem.rejects in Hr. rewrite <- Hd3 in Hr.
        rewrite !after_create_fault in Hr.
        rewrite !after_create_subdirs, !after_create_rejects.
        unfold FileSystem.rejects.
        cbn in Hin. destruct Hin as [<-|[<-|[<-|[]]]]; tauto. }
    rewrite !Hsettled by (cbn; tauto). reflexivity.
  - unfold createSubdirectories. rewrite Hh. reflexivity.
Qed.

(** X4.  [initializeDirectoryStructure] answers true exactly when the
    browser has the folder picker and the user picks a folder; the
    instance then holds the picked handle.  Otherwise it answers false and
    changes nothing.  Its configuration is never touched. *)
Theorem initializeDirectoryStructure_answer window taken this w :
  let r := initializeDirectoryStructure window taken this w in
  fst r = match picked window with Some _ => true | None => false end
  /\ config (fst (snd r)) = config this
  /\ directoryHandle (fst (snd r))
     = match picked window with
       | Some handle => Some handle
       | None => directoryHandle this
       end
  /\ (fst r = false -> snd r = (this, w)).
Proof.
  cbv zeta. destruct (picked window) as [handle|] eqn:Hp.
  - assert (Hs : showDirectoryPicker window = Some (Return handle)).
    { unfold picked in Hp. destruct (showDirectoryPicker window) as [[h|e]|]; congruence. }
    rewrite (initializeDirectoryStructure_picked window taken this w handle Hs).
    cbn. repeat split; auto. discriminate.
  - rewrite (initializeDirectoryStructure_not_picked window taken this w Hp).
    cbn. repeat split; auto.
Qed.

Lemma initializeDirectoryStructure_answer_witness :
  fst (initializeDirectoryStructure dismissing_window audio_taken alice
         (fresh_world empty_store)) = false
  /\ snd (initializeDirectoryStructure plain_window audio_taken alice
            (fresh_world empty_store)) = (alice, fresh_world empty_store).
Proof.
  split.
  - apply (initializeDirectoryStructure_answer dismissing_window audio_taken alice
             (fresh_world empty_store)).
  - apply (initializeDirectoryStructure_answer plain_window audio_taken alice
             (fresh_world empty_store)).
    reflexivity.
Defined.

(** X5.  When the user picks a folder, [initializeDirectoryStructure]
    answers true whether or not the flag could be stored: if localStorage
    takes the item, the instance reads as initialized afterwards; if it
    refuses, localStorage is as before. *)
Theorem initializeDirectoryStructure_flag window taken this w handle :
  showDirectoryPicker window = Some (Return handle) ->
  let r := initializeDirectoryStructure window taken this w in
  fst r = true
  /\ match setItem (directory_key (username (config this))) "true" (localStorage w) with
     | Return st =>
         localStorage (snd (snd r)) = st
         /\ isDirectoryInitialized (fst (snd r)) st = true
     | Throw _ => localStorage (snd (snd r)) = localStorage w
     end.
Proof.
  intros Hs. cbv zeta.
  rewrite (initializeDirectoryStructure_picked window taken this w handle Hs). cbv zeta.
  cbn [fst snd]. split; [reflexivity|].
  rewrite storeDirectoryReference_run.
  erewrite createSubdirectories_run by reflexivity. cbn [snd localStorage config].
  destruct (setItem _ _ (localStorage w)) as [st|e] eqn:Hset; [|reflexivity].
  split; [reflexivity|].
  unfold isDirectoryInitialized. cbn [config].
  rewrite (StoreFacts.getItem_setItem _ _ _ _ Hset). reflexivity.
Qed.

Lemma initializeDirectoryStructure_flag_witness :
  fst (initializeDirectoryStructure picking_window audio_taken alice
         (fresh_world full_store)) = true
  /\ localStorage (snd (snd (initializeDirectoryStructure picking_window audio_taken alice
                               (fresh_world full_store))))
     = full_store.
Proof.
  exact (initializeDirectoryStructure_flag picking_window audio_taken alice
           (fresh_world full_store) {| FileSystem.name := "Diary" |} eq_refl).
Defined.

Section AfterSetup.

Variable Date_parse : string -> JSDate.Date.

(** X6.  Once [initializeDirectoryStructure] has answered true in a folder
    that rejects no call, [saveNoteToFile] finds the sub-folder of every
    note whose type's name is free in the folder: the note is written to
    its file, provided its date is valid and the shadow record can be
    stored. *)
Theorem initialized_directory_takes_notes window taken this w handle note filename st' :
  showDirectoryPicker window = Some (Return handle) ->
  FileSystem.fault (disk w) = None ->
  JSString.capitalize (type_string (type note)) ∉ taken ->
  let r := initializeDirectoryStructure window taken this w in
  generateFilename (title note) (type note) (Date_parse (date note)) = Return filename ->
  saveMetadataToLocalStorage (fst (snd r)) note filename (localStorage (snd (snd r)))
  = Return st' ->
  exists w',
    saveNoteToFile Date_parse (fst (snd r)) note (snd (snd r)) = (Return true, w')
    /\ FileSystem.files (disk w')
         !! (JSString.capitalize (type_string (type note)), filename)
       = Some (written_bytes note)
    /\ localStorage w' = st'.
Proof.
  intros Hs Hf Hfree r Hname Hmeta.
  set (this' := {| config := config this; directoryHandle := Some handle |}).
  assert (Hr : r = (true, (this', snd (storeDirectoryReference this'
                                         (snd (createSubdirectories taken this' w)))))).
  { apply (initializeDirectoryStructure_picked window taken this w handle Hs). }
  assert (Hdisk : disk (snd (snd r))
                  = after_create taken "Video"
                      (after_create taken "Audio" (after_create taken "Text" (disk w)))).
  { rewrite Hr. cbn [snd]. rewrite storeDirectoryReference_run. cbn [snd].
    rewrite (createSubdirectories_run taken this' w handle eq_refl). cbn [snd].
    destruct (setItem _ _ _); reflexivity. }
  destruct (export_runs Date_parse (fst (snd r)) note (snd (snd r)) filename st')
    as (w' & Hex & Hfile & _ & Hst).
  - rewrite Hdisk, !after_create_fault. exact Hf.
  - rewrite Hdisk, !after_create_subdirs, !after_create_rejects.
    rewrite (rejects_no_fault _ _ Hf).
    destruct (type note); cbn in Hfree |- *; tauto.
  - exact Hname.
  - exact Hmeta.
  - exists w'. split; [|split; assumption].
    apply (FileStorageFacts.saveNoteToFile_exported Date_parse _ note _ handle true w');
      [rewrite Hr; reflexivity | exact Hex].
Qed.

End AfterSetup.

Lemma initialized_directory_takes_notes_witness :
  let r := initializeDirectoryStructure picking_window audio_taken alice
             (fresh_world empty_store) in
  exists w',
    saveNoteToFile JSDate.parseISO (fst (snd r)) hello_note (snd (snd r)) = (Return true, w')
    /\ FileSystem.files (disk w') !! ("Text", "2025-01-15_Hello_World.txt")
       = Some (written_bytes hello_note).
Proof.
  cbv zeta.
  destruct (initialized_directory_takes_notes JSDate.parseISO picking_window audio_taken alice
              (fresh_world empty_store) {| FileSystem.name := "Diary" |} hello_note
              "2025-01-15_Hello_World.txt"
              (localStorage
                 (snd (saveNoteToFile JSDate.parseISO alice_exporting hello_note
                         (snd (snd (initializeDirectoryStructure picking_window audio_taken
                                      alice (fresh_world empty_store))))))))
    as (w' & Hsave & Hfile & _).
  - reflexivity.
  - reflexivity.
  - vm_compute. discriminate.
  - vm_compute. reflexivity.
  - vm_compute. reflexivity.
  - exists w'. split; [exact Hsave | exact Hfile].
Defined.

(** X7.  After [resetDirectoryInitialization] the instance no longer
    reads as initialized and holds no handle, so [saveNoteToFile] goes
    straight to the localStorage fallback; no other item of localStorage
    is touched. *)
Theorem resetDirectoryInitialization_forgets (Date_parse : string -> JSDate.Date) this st :
  let r := resetDirectoryInitialization this st in
  isDirectoryInitialized (fst r) (snd r) = false
  /\ (forall note w,
         saveNoteToFile Date_parse (fst r) note w = saveToLocalStorage this note w)
  /\ (forall key, key <> directory_key (username (config this)) ->
                  getItem key (snd r) = getItem key st).
Proof.
  cbv zeta. unfold resetDirectoryInitialization. cbn [fst snd]. repeat split.
  - unfold isDirectoryInitialized. cbn [config].
    rewrite StoreFacts.getItem_removeItem. reflexivity.
  - intros note w.
    rewrite FileStorageFacts.saveNoteToFile_no_handle by reflexivity.
    reflexivity.
  - intros key Hkey. apply StoreFacts.getItem_removeItem_ne. congruence.
Qed.

(** X8.  [storeDirectoryReference] never throws, whatever localStorage
    does; it leaves the picked folder alone and touches no user's note list
    or settings. *)
Theorem storeDirectoryReference_contained this w user :
  let r := storeDirectoryReference this w in
  fst r = Return tt
  /\ disk (snd r) = disk w
  /\ getItem (notes_key user) (localStorage (snd r))
     = getItem (notes_key user) (localStorage w)
  /\ getItem (SettingsView.settings_key user) (localStorage (snd r))
     = getItem (SettingsView.settings_key user) (localStorage w).
Proof.
  cbv zeta. rewrite storeDirectoryReference_run. cbn [fst snd].
  destruct (setItem _ _ (localStorage w)) as [st|e] eqn:Hset; cbn [disk localStorage];
    repeat split; auto.
  - apply (StoreFacts.getItem_setItem_ne _ _ _ _ _ (directory_key_not_notes _ user) Hset).
  - apply (StoreFacts.getItem_setItem_ne _ _ _ _ _ (directory_key_not_settings _ user) Hset).
Qed.

(** X9.  Deleting all data in the settings view removes the notes and the
    settings but not the directory flag: whether a manager reads as
    initialized is the same before and after, on either click. *)
Theorem deleteAllData_keeps_directory_flag username this st :
  isDirectoryInitialized this (SettingsView.storage (SettingsView.deleteAllData username st))
  = isDirectoryInitialized this (SettingsView.storage st).
Proof.
  unfold SettingsView.deleteAllData.
  destruct (SettingsView.showDeleteConfirm st); [|reflexivity].
  cbn [SettingsView.alert SettingsView.setShowDeleteConfirm SettingsView.setSettings
       SettingsView.with_storage SettingsView.storage].
  unfold isDirectoryInitialized.
  rewrite !StoreFacts.getItem_removeItem_ne; [reflexivity| |].
  - intros H. exact (directory_key_not_notes _ _ (eq_sym H)).
  - intros H. exact (directory_key_not_settings _ _ (eq_sym H)).
Qed.

(** X10.  [getFileStorageManager] keeps one instance.  It hands out an
    instance for the user it is asked for, and the very same instance,
    handle and all, when asked again for that user: the directory path of
    the later call is ignored.  Asked for another user, it replaces the
    instance by a fresh one without a directory handle, so the folder
    picked for the first user is forgotten, also when the first user comes
    back. *)
Theorem getFileStorageManager_keeps_one_instance username diaryPath diaryPath'
    fileStorageInstance :
  let instance := getFileStorageManager username diaryPath fileStorageInstance in
  FileStorage.username (config instance) = username
  /\ getFileStorageManager username diaryPath' (Some instance) = instance
  /\ forall username',
      username' <> username ->
      let other := getFileStorageManager username' diaryPath' (Some instance) in
      other = {| config := {| diaryPath := diaryPath'; username := username' |};
                 directoryHandle := None |}
      /\ directoryHandle (getFileStorageManager username diaryPath (Some other)) = None.
Proof.
  cbv zeta.
  pose proof (getFileStorageManager_username username diaryPath fileStorageInstance) as Hu.
  split; [exact Hu|]. split; [apply getFileStorageManager_same, Hu|].
  intros username' Hne.
  assert (Ho : getFileStorageManager username' diaryPath'
                 (Some (getFileStorageManager username diaryPath fileStorageInstance))
               = {| config := {| diaryPath := diaryPath'; username := username' |};
                    directoryHandle := None |}).
  { unfold getFileStorageManager at 1. rewrite Hu.
    destruct (String.eqb username username') eqn:He; [|reflexivity].
    apply String.eqb_eq in He. congruence. }
  split; [exact Ho|]. rewrite Ho. unfold getFileStorageManager.
  cbn [config FileStorage.username].
  destruct (String.eqb username' username); reflexivity.
Qed.

Lemma getFileStorageManager_keeps_one_instance_witness :
  getFileStorageManager "alice" "Elsewhere" (Some alice_exporting) = alice_exporting
  /\ directoryHandle
       (getFileStorageManager "alice" "Diary"
          (Some (getFileStorageManager "bob" "Notes" (Some alice_exporting))))
     = None.
Proof.
  destruct (getFileStorageManager_keeps_one_instance "alice" "Diary" "Notes"
              (Some alice_exporting)) as (_ & _ & Hother).
  destruct (getFileStorageManager_keeps_one_instance "alice" "Diary" "Elsewhere"
              (Some alice_exporting)) as (_ & Hsame & _).
  split; [exact Hsame|].
  destruct (Hother "bob") as [_ Hback]; [discriminate|]. exact Hback.
Defined.

Section Download.

Variable Date_parse : string -> JSDate.Date.

(** X11.  [downloadFile] hands over the file that [saveNoteToFile] writes:
    when the export path runs to its end for a note that has something to
    write, the download has the name and the bytes of the exported file. *)
Theorem downloadFile_matches_export this note w w' downloads :
  export Date_parse this note w = (Return true, w') ->
  type note = text \/ blob note <> None ->
  exists filename,
    downloadFile Date_parse this note downloads
    = Return (downloads ++ [(filename, written_bytes note)])
    /\ FileSystem.files (disk w') !! (JSString.capitalize (type_string (type note)), filename)
       = Some (written_bytes note).
Proof.
  intros Hex Hpayload.
  destruct (FileStorageFacts.export_inv Date_parse this note w _ w' Hex)
    as [(e & He & _)|(_ & filename & Hname & _ & Hfile)]; [discriminate|].
  exists filename. split; [|exact Hfile].
  unfold downloadFile, written_bytes, triggerDownload. rewrite Hname. cbn [bind].
  destruct (type note) eqn:Ht; [reflexivity| |];
    (destruct (blob note); [reflexivity|]);
    destruct Hpayload as [H|H]; congruence.
Qed.

(** X12.  [downloadFile] has no guard: it throws, a [RangeError], exactly
    when the note's date is invalid, and then hands nothing over.  When it
    returns it has handed over one file, or none for an audio or video note
    without a payload. *)
Theorem downloadFile_throws_on_invalid_date this note downloads :
  (downloadFile Date_parse this note downloads = Throw RangeError
   <-> Date_parse (date note) = JSDate.InvalidDate)
  /\ (forall e, downloadFile Date_parse this note downloads = Throw e -> e = RangeError)
  /\ (forall result,
         downloadFile Date_parse this note downloads = Return result ->
         if match type note with text => true | _ => false end
            || match blob note with Some _ => true | None => false end
         then exists file, result = downloads ++ [file]
         else result = downloads).
Proof.
  unfold downloadFile, generateFilename, triggerDownload.
  destruct (Date_parse (date note)) as [|ms]; cbn [JSDate.toISOString bind].
  - split; [tauto|]. split; [congruence | discriminate].
  - destruct (type note); [|destruct (blob note)..]; cbn [orb];
      (split; [split; discriminate|]);
      (split; [discriminate|]);
      intros result [= <-]; eauto.
Qed.

End Download.

Lemma downloadFile_matches_export_witness :
  exists filename,
    downloadFile JSDate.parseISO alice_exporting hello_note []
    = Return ([] ++ [(filename, written_bytes hello_note)])
    /\ FileSystem.files
         (disk (snd (export JSDate.parseISO alice_exporting hello_note
                       (world None empty_store))))
         !! (JSString.capitalize (type_string (type hello_note)), filename)
       = Some (written_bytes hello_note).
Proof.
  apply (downloadFile_matches_export JSDate.parseISO alice_exporting hello_note
           (world None empty_store)).
  - vm_compute. reflexivity.
  - left. reflexivity.
Defined.

Lemma downloadFile_throws_on_invalid_date_witness :
  downloadFile JSDate.parseISO alice undated_note [] = Throw RangeError.
Proof.
  apply (downloadFile_throws_on_invalid_date JSDate.parseISO alice undated_note []).
  reflexivity.
Defined.

End DirectoryProperties.

Module SettingsProperties.
Import DirectoryAccess SettingsControls.
Import JSObject ObjectVocabulary ObjectFacts SettingsVocabulary SettingsControlsFacts.
Import SetupVocabulary SetupFacts.

(** ** The settings view *)

(** X13.  [loadSettings] merges the saved settings over the defaults one
    level deep: each top-level key reads what was saved under it, or the
    default when nothing was saved under it.  A saved group replaces the
    default group as a whole.  localStorage is not touched. *)
Theorem loadSettings_merges_top_level username p text ps :
  getItem (SettingsView.settings_key username) (SettingsView.storage (view p)) = Some text ->
  JSON.parse text = Return (VObj ps) ->
  exists p',
    loadSettings username p = Return p'
    /\ (forall k, get k (SettingsView.settings (view p'))
                  = or_default (lookup_prop k ps) (get k SettingsView.defaultSettings))
    /\ SettingsView.storage (view p') = SettingsView.storage (view p).
Proof.
  intros Hget Hparse.
  rewrite (loadSettings_object username p text ps Hget Hparse).
  eexists. split; [reflexivity|]. split; [|reflexivity].
  intros k. cbn [with_view view SettingsView.setSettings SettingsView.settings].
  apply get_spread_default.
  exact (JSONFacts.parse_is_json text (VObj ps) Hparse).
Qed.

Lemma loadSettings_merges_top_level_witness :
  exists p',
    loadSettings "alice" (settings_page partial_settings_store) = Return p'
    /\ get "fontFamily" (SettingsView.settings (view p')) = VStr "Inter"
    /\ get "notifications" (SettingsView.settings (view p')) = VObj [("enabled", VBool true)].
Proof.
  destruct (loadSettings_merges_top_level "alice" (settings_page partial_settings_store)
              (JSON.stringify 0 partial_settings)
              [("theme", VStr "dark"); ("notifications", VObj [("enabled", VBool true)])])
    as (p' & Hload & Hkeys & _).
  - reflexivity.
  - vm_compute. reflexivity.
  - exists p'. split; [exact Hload|]. rewrite !Hkeys. split; reflexivity.
Defined.

(** X14.  What [saveSettings] stores, [loadSettings] reads back: after a
    save that the store accepts, nothing is left to save, and loading gives
    under each key what the settings held under it, as JSON keeps it, or
    the default. *)
Theorem saveSettings_then_loadSettings browser username p p1 props :
  SettingsView.settings (view p) = VObj props ->
  saveSettings browser username p = (Return tt, p1) ->
  hasChanges p1 = false
  /\ exists p2,
      loadSettings username p1 = Return p2
      /\ forall k, get k (SettingsView.settings (view p2))
                   = or_default (clean (lookup_prop k props))
                                (get k SettingsView.defaultSettings).
Proof.
  intros Hobj Hsave. unfold saveSettings in Hsave.
  destruct (setItem _ _ _) as [st|e] eqn:Hset; [|discriminate].
  cbv zeta in Hsave.
  cbn [setHasChanges with_view view SettingsView.with_storage SettingsView.settings] in Hsave.
  rewrite Hobj in Hsave, Hset. cbn [get_property] in Hsave.
  injection Hsave as <-. split; [reflexivity|].
  assert (Hparse : JSON.parse (JSON.stringify 0 (VObj props)) = Return (VObj (clean_props props))).
  { rewrite JSONFacts.parse_stringify by discriminate. rewrite JSONFacts.clean_object.
    reflexivity. }
  destruct (fun H => loadSettings_reads username
              (with_dark (applyTheme browser (get "theme" (VObj props)))
                 (setHasChanges false (with_view (SettingsView.with_storage st (view p)) p)))
              _ _ H Hparse) as (p2 & Hload & Hkeys).
  { cbn [with_dark setHasChanges with_view view SettingsView.with_storage
         SettingsView.storage].
    apply (StoreFacts.getItem_setItem _ _ _ _ Hset). }
  exists p2. split; [exact Hload|]. intros k. rewrite Hkeys, StoreFacts.lookup_clean.
  reflexivity.
Qed.

Lemma saveSettings_then_loadSettings_witness :
  exists p2,
    loadSettings "alice" (snd (saveSettings picking_browser "alice"
                                 (settings_page empty_store))) = Return p2
    /\ get "theme" (SettingsView.settings (view p2)) = VStr "system".
Proof.
  destruct (saveSettings_then_loadSettings picking_browser "alice" (settings_page empty_store)
              (snd (saveSettings picking_browser "alice" (settings_page empty_store)))
              default_props)
    as (_ & p2 & Hload & Hkeys).
  - reflexivity.
  - vm_compute. reflexivity.
  - exists p2. split; [exact Hload|]. rewrite Hkeys. reflexivity.
Defined.

(** X15.  [updateSettings(path, value)] puts the value at the path:
    reading the new settings along the keys of the path gives the value,
    whatever the settings held before, and the view has changes to save.
    (A key [__proto__] is outside the model of objects.) *)
Theorem updateSettings_reads_back path value p :
  ~ In "__proto__" (JSString.split "." path) ->
  get_path (JSString.split "." path)
           (SettingsView.settings (view (updateSettings path value p))) = value
  /\ hasChanges (updateSettings path value p) = true.
Proof.
  intros _. split; [|reflexivity].
  unfold updateSettings.
  cbn [setHasChanges with_view view SettingsView.setSettings SettingsView.settings].
  apply get_path_update, split_not_empty.
Qed.

Lemma updateSettings_reads_back_witness :
  get_path ["notifications"; "enabled"]
           (SettingsView.settings
              (view (updateSettings "notifications.enabled" (VBool true)
                       (settings_page empty_store))))
  = VBool true.
Proof.
  apply (updateSettings_reads_back "notifications.enabled" (VBool true)
           (settings_page empty_store)).
  vm_compute. intros [H|[H|[]]]; discriminate H.
Defined.

(** X16.  [updateSettings(path, value)] changes nothing beside the path:
    in settings that are objects of JSON data down to the place where
    another path leaves the updated one, that other path reads what it
    read before. *)
Theorem updateSettings_leaves_the_rest path value p props pre a b keys q :
  SettingsView.settings (view p) = VObj props ->
  JSString.split "." path = pre ++ b :: keys ->
  ~ In "__proto__" (JSString.split "." path) ->
  a <> b ->
  objects_along pre (VObj props) = true ->
  get_path (pre ++ a :: q) (SettingsView.settings (view (updateSettings path value p)))
  = get_path (pre ++ a :: q) (SettingsView.settings (view p)).
Proof.
  intros Hobj Hsplit _ Hab Halong. unfold updateSettings.
  cbn [setHasChanges with_view view SettingsView.setSettings SettingsView.settings].
  rewrite Hobj, Hsplit. apply get_path_beside; assumption.
Qed.

Lemma updateSettings_leaves_the_rest_witness :
  get_path ["notifications"; "reminderTime"]
           (SettingsView.settings
              (view (updateSettings "notifications.enabled" (VBool true)
                       (settings_page empty_store))))
  = VStr "21:00".
Proof.
  apply (updateSettings_leaves_the_rest "notifications.enabled" (VBool true)
           (settings_page empty_store) default_props ["notifications"]
           "reminderTime" "enabled" [] []).
  - reflexivity.
  - reflexivity.
  - vm_compute. intros [H|[H|[]]]; discriminate H.
  - discriminate.
  - reflexivity.
Defined.

(** X17.  The button of the settings view that sets the directory up
    always ends with the view idle and one more alert, and the alert is
    never the one of the [catch] branch: the manager's method does not
    throw.  The view shows the directory as initialized exactly when the
    user picked a folder (or it showed so before), and the shared instance
    then holds the picked handle. *)
Theorem initializeDirectoryStructure_reports browser username p :
  SettingsView.settings (view p) <> VNull ->
  SettingsView.settings (view p) <> VUndef ->
  let p' := initializeDirectoryStructure browser username p in
  isInitializingDirectory p' = false
  /\ isDirectoryInitialized p'
     = match picked (window browser) with
       | Some _ => true
       | None => isDirectoryInitialized p
       end
  /\ (exists message,
         SettingsView.alerts (view p') = SettingsView.alerts (view p) ++ [message]
         /\ message <> "Error initializing directory structure. Please try again.")
  /\ exists m,
      fileStorageInstance p' = Some m
      /\ FileStorage.username (config m) = username
      /\ forall handle, picked (window browser) = Some handle ->
                        directoryHandle m = Some handle.
Proof.
  intros Hn Hu. cbv zeta. unfold initializeDirectoryStructure.
  cbn [setIsInitializingDirectory view fileStorageInstance].
  rewrite (fileStorage_of_defined username _ _ Hn Hu).
  cbn [fileStorageInstance].
  set (m := DirectoryAccess.getFileStorageManager username
              (path_text (get "diaryPath" (SettingsView.settings (view p))))
              (fileStorageInstance p)).
  assert (Hm : FileStorage.username (config m) = username)
    by apply getFileStorageManager_username.
  unfold picked, DirectoryAccess.isFileSystemAccessSupported.
  destruct (showDirectoryPicker (window browser)) as [[handle|e]|] eqn:Hp; cbn [negb].
  - rewrite (initializeDirectoryStructure_picked _ _ _ _ handle Hp). cbv zeta.
    cbn. split; [reflexivity|]. split; [reflexivity|]. split.
    + eexists. split; [reflexivity|]. discriminate.
    + eexists. split; [reflexivity|]. split; [exact Hm|]. intros h [= <-]. reflexivity.
  - rewrite initializeDirectoryStructure_not_picked by (unfold picked; rewrite Hp; reflexivity).
    cbn. split; [reflexivity|]. split; [reflexivity|]. split.
    + eexists. split; [reflexivity|]. discriminate.
    + eexists. split; [reflexivity|]. split; [exact Hm|]. intros h [=].
  - cbn. split; [reflexivity|]. split; [reflexivity|]. split.
    + eexists. split; [reflexivity|]. discriminate.
    + eexists. split; [reflexivity|]. split; [exact Hm|]. intros h [=].
Qed.

Lemma initializeDirectoryStructure_reports_witness :
  isDirectoryInitialized
    (initializeDirectoryStructure picking_browser "alice" (settings_page empty_store)) = true
  /\ isInitializingDirectory
       (initializeDirectoryStructure picking_browser "alice" (settings_page empty_store))
     = false.
Proof.
  destruct (initializeDirectoryStructure_reports picking_browser "alice"
              (settings_page empty_store)) as (Hidle & Hcell & _).
  - discriminate.
  - discriminate.
  - split; [exact Hcell | exact Hidle].
Defined.

(** X18.  After the user has picked a folder the view shows the
    directory as initialized, but [checkDirectoryStatus] reads the flag in
    localStorage: it confirms what the view shows only when the store took
    the flag (or held it already); when the store refused it, the next
    check shows the directory as not initialized although the instance
    holds the handle. *)
Theorem initialize_then_checkDirectoryStatus browser username p handle :
  SettingsView.settings (view p) <> VNull ->
  SettingsView.settings (view p) <> VUndef ->
  showDirectoryPicker (window browser) = Some (Return handle) ->
  let p' := initializeDirectoryStructure browser username p in
  isDirectoryInitialized p' = true
  /\ exists p'',
      checkDirectoryStatus username p' = Return p''
      /\ fileStorageInstance p'' = fileStorageInstance p'
      /\ isDirectoryInitialized p''
         = match setItem (directory_key username) "true" (SettingsView.storage (view p)) with
           | Return _ => true
           | Throw _ =>
               match getItem (directory_key username) (SettingsView.storage (view p)) with
               | Some flag => String.eqb flag "true"
               | None => false
               end
           end.
Proof.
  intros Hn Hu Hp. cbv zeta. unfold initializeDirectoryStructure.
  cbn [setIsInitializingDirectory view fileStorageInstance].
  rewrite (fileStorage_of_defined username _ _ Hn Hu).
  unfold DirectoryAccess.isFileSystemAccessSupported. rewrite Hp. cbn [negb].
  rewrite (initializeDirectoryStructure_picked _ _ _ _ handle Hp). cbv zeta.
  rewrite storeDirectoryReference_run.
  erewrite createSubdirectories_run by reflexivity.
  cbn [snd localStorage config disk fileStorageInstance setIsInitializingDirectory world_of
       with_instance view directory SettingsView.storage SettingsView.with_storage].
  set (m := DirectoryAccess.getFileStorageManager username
              (path_text (get "diaryPath" (SettingsView.settings (view p))))
              (fileStorageInstance p)).
  assert (Hm : FileStorage.username (config m) = username)
    by apply getFileStorageManager_username.
  rewrite Hm.
  split; [reflexivity|].
  unfold checkDirectoryStatus.
  rewrite fileStorage_of_defined; [|exact Hn|exact Hu].
  cbn [bind].
  match goal with
  | |- context [DirectoryAccess.getFileStorageManager username ?path (fileStorageInstance ?q)] =>
      assert (Hsame : DirectoryAccess.getFileStorageManager username path (fileStorageInstance q)
                      = {| config := config m; directoryHandle := Some handle |})
  end.
  { cbn [fileStorageInstance setIsInitializingDirectory alert_page with_view
         setIsDirectoryInitialized with_instance].
    apply getFileStorageManager_same. exact Hm. }
  rewrite Hsame. eexists. split; [reflexivity|]. split; [reflexivity|].
  cbn [isDirectoryInitialized setIsDirectoryInitialized].
  unfold DirectoryAccess.isDirectoryInitialized. cbn [config]. rewrite Hm.
  cbn [world_of view directory SettingsView.storage setIsInitializingDirectory alert_page
       with_view setIsDirectoryInitialized with_instance SettingsView.alert
       SettingsView.with_storage localStorage disk].
  destruct (setItem (directory_key username) "true" (SettingsView.storage (view p)))
    as [st|e] eqn:Hset; cbn [localStorage].
  - rewrite (StoreFacts.getItem_setItem _ _ _ _ Hset). reflexivity.
  - reflexivity.
Qed.

Lemma initialize_then_checkDirectoryStatus_witness :
  isDirectoryInitialized
    (initializeDirectoryStructure picking_browser "alice" (settings_page full_store)) = true
  /\ exists p'',
      checkDirectoryStatus "alice"
        (initializeDirectoryStructure picking_browser "alice" (settings_page full_store))
      = Return p''
      /\ isDirectoryInitialized p'' = false.
Proof.
  destruct (initialize_then_checkDirectoryStatus picking_browser "alice"
              (settings_page full_store) {| FileSystem.name := "Diary" |})
    as (Hshown & p'' & Hcheck & _ & Hcell).
  - discriminate.
  - discriminate.
  - reflexivity.
  - split; [exact Hshown|]. exists p''. split; [exact Hcheck | exact Hcell].
Defined.

(** X19.  The reset button of the settings view leaves the view and the
    store in agreement: the view shows the directory as not initialized,
    the shared instance holds no handle, one alert is shown, and a check of
    the directory status afterwards reads the same. *)
Theorem resetDirectoryInitialization_agrees username p :
  SettingsView.settings (view p) <> VNull ->
  SettingsView.settings (view p) <> VUndef ->
  exists p' m,
    resetDirectoryInitialization username p = Return p'
    /\ isDirectoryInitialized p' = false
    /\ fileStorageInstance p' = Some m
    /\ directoryHandle m = None
    /\ length (SettingsView.alerts (view p')) = S (length (SettingsView.alerts (view p)))
    /\ exists p'',
        checkDirectoryStatus username p' = Return p''
        /\ isDirectoryInitialized p'' = false.
Proof.
  intros Hn Hu. unfold resetDirectoryInitialization.
  rewrite (fileStorage_of_defined username _ _ Hn Hu). cbn [bind].
  set (m := DirectoryAccess.getFileStorageManager username
              (path_text (get "diaryPath" (SettingsView.settings (view p))))
              (fileStorageInstance p)).
  assert (Hm : FileStorage.username (config m) = username)
    by apply getFileStorageManager_username.
  unfold DirectoryAccess.resetDirectoryInitialization.
  eexists. exists {| config := config m; directoryHandle := None |}.
  split; [reflexivity|]. split; [reflexivity|]. split; [reflexivity|].
  split; [reflexivity|]. split.
  { cbn. rewrite length_app. cbn. lia. }
  unfold checkDirectoryStatus.
  rewrite fileStorage_of_defined; [|exact Hn|exact Hu]. cbn [bind].
  eexists. split; [reflexivity|].
  cbn [isDirectoryInitialized setIsDirectoryInitialized fileStorageInstance alert_page
       with_view with_instance].
  rewrite getFileStorageManager_same by exact Hm.
  unfold DirectoryAccess.isDirectoryInitialized. cbn [config].
  cbn [view SettingsView.storage SettingsView.alert SettingsView.with_storage localStorage
       world_of setIsDirectoryInitialized].
  cbn [view SettingsView.storage SettingsView.alert SettingsView.with_storage localStorage
       with_view with_instance alert_page setIsDirectoryInitialized].
  rewrite StoreFacts.getItem_removeItem. reflexivity.
Qed.

Lemma resetDirectoryInitialization_agrees_witness :
  exists p' m,
    resetDirectoryInitialization "alice"
      (initializeDirectoryStructure picking_browser "alice" (settings_page empty_store))
    = Return p'
    /\ isDirectoryInitialized p' = false
    /\ fileStorageInstance p' = Some m
    /\ directoryHandle m = None.
Proof.
  destruct (resetDirectoryInitialization_agrees "alice"
              (initializeDirectoryStructure picking_browser "alice"
                 (settings_page empty_store)))
    as (p' & m & Hreset & Hcell & Hinstance & Hhandle & _).
  - vm_compute. discriminate.
  - vm_compute. discriminate.
  - exists p', m. split; [exact Hreset|]. split; [exact Hcell|].
    split; [exact Hinstance | exact Hhandle].
Defined.

End SettingsProperties.

Module DashboardProperties.
Import DirectoryAccess DashboardStats DashboardVocabulary DashboardFacts.

(** ** The dashboard *)

(** X20.  The dashboard's [checkDirectorySetup] reads the flag that
    [storeDirectoryReference] writes.  [storeDirectoryReference] never
    throws and leaves the directory and the user's settings as they were.
    Once the store has taken the flag, [isDirectoryInitialized] answers
    [true], and so does [checkDirectorySetup] when the user's stored
    settings are absent or read as JSON; after
    [resetDirectoryInitialization] it answers [false].  On settings that
    are not JSON text [checkDirectorySetup] throws a [SyntaxError] though
    the flag is stored: it parses the settings first, without using them.
    When the store refuses the flag, nothing has changed. *)
Theorem checkDirectorySetup_reads_stored_flag this w :
  let user := username (config this) in
  let settings_text st := getItem_or (SettingsView.settings_key user) "{}" st in
  let after := localStorage (snd (storeDirectoryReference this w)) in
  fst (storeDirectoryReference this w) = Return tt
  /\ disk (snd (storeDirectoryReference this w)) = disk w
  /\ settings_text after = settings_text (localStorage w)
  /\ (forall st',
         setItem (directory_key user) "true" (localStorage w) = Return st' ->
         after = st'
         /\ getItem (directory_key user) after = Some "true"
         /\ DirectoryAccess.isDirectoryInitialized this after = true
         /\ (forall v,
                JSON.parse (settings_text (localStorage w)) = Return v ->
                checkDirectorySetup user after = Return true
                /\ checkDirectorySetup user (snd (resetDirectoryInitialization this after))
                   = Return false)
         /\ (JSONText.is_json_text (settings_text (localStorage w)) = false ->
             checkDirectorySetup user after = Throw SyntaxError))
  /\ (forall e,
         setItem (directory_key user) "true" (localStorage w) = Throw e ->
         snd (storeDirectoryReference this w) = w).
Proof.
  intros user settings_text after. subst after.
  rewrite SetupFacts.storeDirectoryReference_run. cbn [fst snd]. fold user.
  split; [reflexivity|].
  destruct (setItem (directory_key user) "true" (localStorage w)) as [st|e] eqn:Hset;
    cbn [disk localStorage].
  - assert (settings_text st = settings_text (localStorage w)) as Hsame.
    { unfold settings_text. eapply getItem_or_ne; [|exact Hset].
      apply SetupFacts.directory_key_not_settings. }
    pose proof (getItem_setItem _ _ _ _ Hset) as Hflag.
    split; [reflexivity|]. split; [exact Hsame|]. split; [|discriminate].
    intros st' [= <-]. split; [reflexivity|]. split; [exact Hflag|]. split.
    { unfold DirectoryAccess.isDirectoryInitialized. fold user. rewrite Hflag. reflexivity. }
    split.
    + intros v Hread. split.
      * unfold checkDirectorySetup. fold (settings_text st).
        rewrite Hsame, Hread, Hflag. reflexivity.
      * unfold checkDirectorySetup, resetDirectoryInitialization. cbn [snd]. fold user.
        rewrite getItem_removeItem. unfold getItem_or.
        rewrite getItem_removeItem_ne by apply SetupFacts.directory_key_not_settings.
        fold (getItem_or (SettingsView.settings_key user) "{}" st). fold (settings_text st).
        rewrite Hsame, Hread. reflexivity.
    + intros Hnot. unfold checkDirectorySetup. fold (settings_text st).
      rewrite Hsame, (JSONTextFacts.not_json_text_throws _ Hnot). reflexivity.
  - split; [reflexivity|]. split; [reflexivity|]. split; [discriminate|].
    intros e' _. reflexivity.
Qed.

(** The flag is stored over an empty store, where the dashboard then
    answers [true], and over settings that are not JSON, where it
    throws. *)
Lemma checkDirectorySetup_reads_stored_flag_witness :
  checkDirectorySetup "alice"
    (localStorage (snd (storeDirectoryReference alice (fresh_world empty_store))))
  = Return true
  /\ DirectoryAccess.isDirectoryInitialized alice
       (localStorage (snd (storeDirectoryReference alice (fresh_world corrupt_settings_store))))
     = true
  /\ checkDirectorySetup "alice"
       (localStorage (snd (storeDirectoryReference alice (fresh_world corrupt_settings_store))))
     = Throw SyntaxError.
Proof.
  destruct (checkDirectorySetup_reads_stored_flag alice (fresh_world empty_store))
    as (_ & _ & _ & Hstored & _).
  destruct (checkDirectorySetup_reads_stored_flag alice (fresh_world corrupt_settings_store))
    as (_ & _ & _ & Hcorrupt & _).
  split; [|split].
  - edestruct Hstored as (_ & _ & _ & Hread & _); [vm_compute; reflexivity|].
    apply (Hread (VObj [])). reflexivity.
  - edestruct Hcorrupt as (_ & _ & Hflag & _); [vm_compute; reflexivity|]. exact Hflag.
  - edestruct Hcorrupt as (_ & _ & _ & _ & Hthrows); [vm_compute; reflexivity|].
    apply Hthrows. vm_compute. reflexivity.
Defined.

(** X21.  The three counts of [loadUserStats] are defined exactly when
    no element of the note list is [null]; they are then the numbers of
    notes of type text, audio and video, and add up to the total exactly
    when every note has one of the three types. *)
Theorem counts_add_up notes :
  (existsb nullish notes = true ->
   filter_count "text" (VArr notes) = Throw TypeError)
  /\ (existsb nullish notes = false ->
      exists textNotes audioNotes videoNotes,
        filter_count "text" (VArr notes) = Return textNotes
        /\ filter_count "audio" (VArr notes) = Return audioNotes
        /\ filter_count "video" (VArr notes) = Return videoNotes
        /\ 0 <= textNotes /\ 0 <= audioNotes /\ 0 <= videoNotes
        /\ textNotes + audioNotes + videoNotes <= Z.of_nat (length notes)
        /\ (textNotes + audioNotes + videoNotes = Z.of_nat (length notes)
            <-> forallb typed_note notes = true)).
Proof.
  split; [apply count_of_type_throws|]. intros Hn.
  destruct (count_of_type_returns "text" notes Hn) as (t & Ht & Hbt & Hft).
  destruct (count_of_type_returns "audio" notes Hn) as (a & Ha & Hba & Hfa).
  destruct (count_of_type_returns "video" notes Hn) as (v & Hv & Hbv & Hfv).
  exists t, a, v. cbn [filter_count].
  pose proof (typed_notes_counted notes) as Hcount. cbv beta zeta in Hcount.
  rewrite <- Hft, <- Hfa, <- Hfv in Hcount. destruct Hcount as [Hle Hiff].
  split; [exact Ht|]. split; [exact Ha|]. split; [exact Hv|].
  split; [lia|]. split; [lia|]. split; [lia|]. split; [exact Hle | exact Hiff].
Qed.

Lemma counts_add_up_witness :
  filter_count "text" (VArr [noteData hello_note; VNull]) = Throw TypeError
  /\ exists textNotes audioNotes videoNotes,
      filter_count "text" (VArr [noteData hello_note; noteData voice_note; VObj []])
      = Return textNotes
      /\ filter_count "audio" (VArr [noteData hello_note; noteData voice_note; VObj []])
         = Return audioNotes
      /\ filter_count "video" (VArr [noteData hello_note; noteData voice_note; VObj []])
         = Return videoNotes
      /\ textNotes + audioNotes + videoNotes <= 3.
Proof.
  split.
  - apply (counts_add_up [noteData hello_note; VNull]). reflexivity.
  - destruct (proj2 (counts_add_up [noteData hello_note; noteData voice_note; VObj []])
                eq_refl)
      as (t & a & v & Ht & Ha & Hv & _ & _ & _ & Hle & _).
    exists t, a, v. split; [exact Ht|]. split; [exact Ha|]. split; [exact Hv | exact Hle].
Defined.

(** X22.  A note that [saveToLocalStorage] has appended is counted by the
    dashboard: the count of its type goes up by one, the counts of the
    other types stay, and the total goes up by one. *)
Theorem saved_note_is_counted this note st st' l t n :
  Dashboard.userNotes (username (config this)) st = Return (VArr l) ->
  saveToLocalStorage_try this note st = Return st' ->
  count_of_type t l = Return n ->
  exists l',
    Dashboard.userNotes (username (config this)) st' = Return (VArr l')
    /\ length l' = S (length l)
    /\ count_of_type t l'
       = Return (if String.eqb (type_string (type note)) t then n + 1 else n).
Proof.
  intros Hread Hsave Hcount. unfold Dashboard.userNotes in *.
  rewrite FileStorageFacts.saveToLocalStorage_try_eq in Hsave.
  rewrite (FileStorageFacts.append_to_list_array _ _ _ _ Hread) in Hsave.
  exists (l ++ [clean (noteData note)]).
  split.
  - apply (StoreFacts.append_read_back _ _ _ _ _ Hread); [discriminate | exact Hsave].
  - split; [rewrite length_app; cbn; lia|].
    rewrite count_of_type_app by reflexivity. rewrite Hcount. cbn [bind].
    destruct (FileStorageFacts.noteData_stored note) as (_ & _ & Htype & _).
    rewrite Htype. reflexivity.
Qed.

Lemma saved_note_is_counted_witness :
  exists l',
    Dashboard.userNotes "alice"
      (localStorage (snd (saveToLocalStorage alice voice_note (world None alice_store))))
    = Return (VArr l')
    /\ length l' = 2%nat
    /\ count_of_type "audio" l' = Return 1.
Proof.
  apply (saved_note_is_counted alice voice_note alice_store
           (localStorage (snd (saveToLocalStorage alice voice_note (world None alice_store))))
           [clean (noteData hello_note)] "audio" 0).
  - vm_compute. reflexivity.
  - vm_compute. reflexivity.
  - reflexivity.
Defined.

(** X23.  Between 1024 and 1024 * 1024 code units the dashboard shows
    the size of the notes in KB, rounded to the nearest whole number with
    halves going up; the number shown lies between 1 and 1024, and 1024 KB
    (not 1 MB) is shown from 1048064 code units on. *)
Theorem storageUsed_kilobytes storageSize :
  1024 <= storageSize < 1024 * 1024 ->
  exists kb,
    storageUsed storageSize = JSNumber.toString kb +:+ " KB"
    /\ 1 <= kb <= 1024
    /\ 1024 * kb - 512 <= storageSize < 1024 * kb + 512
    /\ (kb = 1024 <-> 1048064 <= storageSize).
Proof.
  intros Hsize. exists (round_div storageSize 1024). unfold storageUsed.
  destruct (storageSize <? 1024) eqn:Hb; [apply Z.ltb_lt in Hb; lia|].
  destruct (storageSize <? 1024 * 1024) eqn:Hk; [|apply Z.ltb_ge in Hk; lia].
  split; [reflexivity|]. unfold round_div.
  assert (Hdiv : 2 * storageSize + 1024
                 = 2 * 1024 * ((2 * storageSize + 1024) / (2 * 1024))
                   + (2 * storageSize + 1024) mod (2 * 1024))
    by (apply Z.div_mod; lia).
  pose proof (Z.mod_pos_bound (2 * storageSize + 1024) (2 * 1024) ltac:(lia)) as Hmod.
  repeat split; lia.
Qed.

Lemma storageUsed_kilobytes_witness :
  exists kb,
    storageUsed 1048064 = JSNumber.toString kb +:+ " KB"
    /\ 1 <= kb <= 1024
    /\ 1024 * kb - 512 <= 1048064 < 1024 * kb + 512
    /\ (kb = 1024 <-> 1048064 <= 1048064).
Proof. apply (storageUsed_kilobytes 1048064). lia. Defined.

(** X24.  The preview of a text note whose content is a string is the
    first hundred code units of the content followed by three dots, also
    when the content is shorter than that; a text note without content
    previews as the word undefined followed by the dots. *)
Theorem preview_of_text_note note :
  get "type" note = VStr "text" ->
  (forall content, get "content" note = VStr content ->
     preview note = Return (substring0 100 content +:+ "...")
     /\ String.length (substring0 100 content +:+ "...")
        = (Nat.min 100 (String.length content) + 3)%nat)
  /\ (get "content" note = VUndef -> preview note = Return "undefined...").
Proof.
  intros Htype.
  assert (Hg : get_property "type" note = Return (VStr "text")).
  { destruct note; try discriminate. cbn [get_property]. rewrite Htype. reflexivity. }
  unfold preview. rewrite Hg. cbn [bind is_string]. split.
  - intros content ->. split; [reflexivity|].
    rewrite FilenameFacts.append_length. cbn [String.length]. f_equal.
    generalize 100%nat as n. intros n. revert content.
    induction n as [|n IH]; intros [|c content]; cbn [substring0 String.length]; try reflexivity.
    rewrite IH. reflexivity.
  - intros ->. reflexivity.
Qed.

Lemma preview_of_text_note_witness :
  preview (noteData hello_note) = Return "Dear diary...".
Proof.
  destruct (preview_of_text_note (noteData hello_note) eq_refl) as [Hstring _].
  exact (proj1 (Hstring "Dear diary" eq_refl)).
Defined.

(** X25.  After [handleLogout] the home page shows the login form on the
    next visit, whatever was stored; the logout removes the session items
    only: every user's notes, settings and directory flag stay. *)
Theorem handleLogout_ends_session st user :
  isAuthenticated (handleLogout st) = false
  /\ getItem (notes_key user) (handleLogout st) = getItem (notes_key user) st
  /\ getItem (SettingsView.settings_key user) (handleLogout st)
     = getItem (SettingsView.settings_key user) st
  /\ getItem (directory_key user) (handleLogout st) = getItem (directory_key user) st.
Proof.
  unfold handleLogout, isAuthenticated. split.
  - rewrite StoreFacts.getItem_removeItem_ne by discriminate.
    rewrite StoreFacts.getItem_removeItem. reflexivity.
  - repeat split; rewrite !StoreFacts.getItem_removeItem_ne; try reflexivity;
      unfold notes_key, SettingsView.settings_key, directory_key; cbn; discriminate.
Qed.

End DashboardProperties.

Module EditorProperties.
Import CreateNoteDialog NoteEditors EditorVocabulary EditorFacts.

(** ** The dialog and its editors *)

(** X26.  Every tag that [handleSave] stores is non-empty, carries no
    white space at either end and no comma, whatever was typed in the tags
    field. *)
Theorem tag_list_tags_are_clean tags tag :
  In tag (tag_list tags) ->
  tag <> EmptyString /\ JSString.trim tag = tag /\ contains "," tag = false.
Proof.
  unfold tag_list. intros Hin. apply filter_In in Hin as [Hin Htruthy].
  apply in_map_iff in Hin as (piece & <- & Hpiece).
  split; [|split].
  - intros Hempty. rewrite Hempty in Htruthy. discriminate.
  - apply trim_idempotent.
  - unfold JSString.trim. apply contains_trimEnd, contains_trimStart.
    pose proof (split_pieces "," tags) as Hall.
    rewrite List.Forall_forall in Hall. apply Hall, Hpiece.
Qed.

Lemma tag_list_tags_are_clean_witness :
  tag_list " day ,, first," = ["day"; "first"]
  /\ JSString.trim "first" = "first".
Proof.
  split; [reflexivity|].
  apply (tag_list_tags_are_clean " day ,, first," "first").
  simpl. tauto.
Defined.

(** X27.  What the audio recorder hands over is not dropped by the
    dialog: the recorder calls [onSave] only with a payload and a title
    that is not blank, and then the dialog's [handleSave], if it returns,
    has stored one more note, titled with the recorder's trimmed title, of
    type audio and with empty content, has counted it and has reset the
    form.  The stored payload reads back as an empty object. *)
Theorem audio_recorder_save_is_kept username clock st audioBlob title0 duration
    noteTitle blob d st' :
  audio_handleSave audioBlob title0 duration = Some (noteTitle, blob, d) ->
  onSave_audio username clock noteTitle blob d (handleOpenAudioRecorder st) = Return st' ->
  created st' = S (created st)
  /\ form st' = form (resetForm st)
  /\ exists l record,
      JSON.parse (getItem_or (FileStorage.notes_key username) "[]" (storage st))
      = Return (VArr l)
      /\ JSON.parse (getItem_or (FileStorage.notes_key username) "[]" (storage st'))
         = Return (VArr (l ++ [record]))
      /\ get "title" record = VStr (JSString.trim title0)
      /\ get "type" record = VStr "audio"
      /\ get "content" record = VStr EmptyString
      /\ get "audioData" record = VObj []
      /\ get "duration" record = VNum d.
Proof.
  intros Hrec Hsave. unfold audio_handleSave in Hrec.
  destruct audioBlob as [b|]; [|discriminate].
  destruct (JSString.truthy (JSString.trim title0)) eqn:Htitle; [|discriminate].
  injection Hrec as <- <- <-.
  unfold onSave_audio in Hsave.
  assert (Hfinal : finalTitle (Some (JSString.trim title0)) (handleOpenAudioRecorder st)
                   = JSString.trim title0).
  { unfold finalTitle, FileStorage.or_else. rewrite Htitle. reflexivity. }
  destruct (newNote (form (handleOpenAudioRecorder st)) clock (JSString.trim title0)
              (VBlob b) (Some duration) VUndef) as [record|e] eqn:Hnote.
  2:{ unfold handleSave in Hsave. fold (finalTitle (Some (JSString.trim title0))
                                          (handleOpenAudioRecorder st)) in Hsave.
      rewrite Hfinal, trim_idempotent, Htitle in Hsave. cbn [negb] in Hsave.
      rewrite Hnote in Hsave. discriminate. }
  rewrite (DialogFacts.handleSave_titled username clock _ _ _ _ _ record) in Hsave.
  2:{ rewrite Hfinal, trim_idempotent. exact Htitle. }
  2:{ rewrite Hfinal. exact Hnote. }
  destruct (append_to_list (FileStorage.notes_key username) record
              (storage (handleOpenAudioRecorder st))) as [storage'|e] eqn:Happend;
    [|discriminate].
  cbn [bind] in Hsave. injection Hsave as <-.
  split; [reflexivity|]. split; [reflexivity|].
  destruct (FileStorageFacts.append_to_list_returns _ _ _ _ Happend) as (l & Hparse & Hset).
  exists l, (clean record). split; [exact Hparse|]. split.
  - cbn [onNoteCreated resetForm storage].
    apply (StoreFacts.append_read_back _ _ _ _ _ Hparse); [|exact Hset].
    apply (DialogFacts.newNote_defined _ _ _ _ _ _ _ Hnote).
  - unfold newNote in Hnote.
    destruct (JSDate.toISOString (JSDate.ofTime (date_now clock))) as [date|e];
      [|discriminate].
    cbn [bind] in Hnote. injection Hnote as <-.
    rewrite !StoreFacts.get_clean. cbn [handleOpenAudioRecorder open_editor form noteType].
    rewrite trim_idempotent.
    repeat split; try reflexivity.
    cbn. unfold or_value. cbn. destruct (duration =? 0) eqn:Hz; cbn; [|reflexivity].
    apply Z.eqb_eq in Hz. subst. reflexivity.
Qed.

Lemma audio_recorder_save_is_kept_witness :
  created after_recording = 1%nat
  /\ exists l record,
      JSON.parse (getItem_or (FileStorage.notes_key "alice") "[]" (storage after_recording))
      = Return (VArr (l ++ [record]))
      /\ get "title" record = VStr "Voice memo"
      /\ get "audioData" record = VObj [].
Proof.
  destruct (audio_recorder_save_is_kept "alice" sample_clock (titled_dialog empty_store)
              (Some [Byte.x01; Byte.x02; Byte.x03]) "  Voice memo " 3
              "Voice memo" [Byte.x01; Byte.x02; Byte.x03] 3 after_recording)
    as (Hcount & _ & l & record & _ & Hread & Htitle & _ & _ & Hdata & _).
  - reflexivity.
  - vm_compute. reflexivity.
  - split; [exact Hcount|]. exists l, record.
    split; [exact Hread|]. split; [exact Htitle | exact Hdata].
Defined.

(** X28.  The text editor hands its title over as it is, and the
    dialog settles on [noteTitle || title]: an empty editor title falls
    back to the title typed in the dialog, while an editor title made of
    white space only is taken, found blank and the save is dropped without
    a trace, whatever the dialog's title is. *)
Theorem text_editor_title_fallback username clock html st :
  text_handleSave (Some html) EmptyString = Some (EmptyString, html)
  /\ onSave_text username clock EmptyString html st
     = handleSave username clock None (VStr html) None VUndef st
  /\ forall noteTitle,
      noteTitle <> EmptyString ->
      JSString.trim noteTitle = EmptyString ->
      text_handleSave (Some html) noteTitle = Some (noteTitle, html)
      /\ onSave_text username clock noteTitle html st = Return st.
Proof.
  split; [reflexivity|]. split; [reflexivity|].
  intros noteTitle Hne Hblank. split; [reflexivity|].
  unfold onSave_text. apply DialogFacts.handleSave_blank.
  unfold finalTitle, FileStorage.or_else.
  destruct noteTitle as [|c r]; [congruence|]. exact Hblank.
Qed.

Lemma text_editor_title_fallback_witness :
  onSave_text "alice" sample_clock "   " "<p>Dear diary</p>" (titled_dialog empty_store)
  = Return (titled_dialog empty_store).
Proof.
  destruct (text_editor_title_fallback "alice" sample_clock "<p>Dear diary</p>"
              (titled_dialog empty_store)) as (_ & _ & Hblank).
  destruct (Hblank "   ") as [_ Hdropped]; [discriminate | reflexivity | exact Hdropped].
Defined.

(** ** Small helpers of the views *)

(** X29.  For a duration from zero up to the largest safe whole number,
    the recorders' [formatTime] and the search view's [formatDuration]
    write the minutes, a colon and the seconds on two digits; they differ
    by the leading zero that [formatTime] gives to minutes below ten. *)
Theorem formatTime_and_formatDuration seconds :
  0 <= seconds <= MAX_SAFE_INTEGER ->
  formatDuration seconds
  = Some (JSNumber.toString (seconds / 60) +:+ ":" +:+ JSNumber.padded 2 (seconds mod 60))
  /\ formatTime seconds
     = Some ((if seconds <? 600 then "0" else EmptyString)
             +:+ JSNumber.toString (seconds / 60) +:+ ":"
             +:+ JSNumber.padded 2 (seconds mod 60)).
Proof.
  intros Hs. unfold formatTime, formatDuration.
  assert ((Z.abs seconds <=? MAX_SAFE_INTEGER) = true) as -> by (apply Z.leb_le; lia).
  cbv zeta.
  rewrite Z.rem_mod_nonneg by lia.
  pose proof (Z.mod_pos_bound seconds 60 ltac:(lia)) as Hsecs.
  pose proof (Z.div_pos seconds 60 ltac:(lia) ltac:(lia)) as Hmins.
  rewrite (padStart2_seconds (seconds mod 60)) by lia.
  split; [reflexivity|].
  destruct (seconds <? 600) eqn:Hlt.
  - apply Z.ltb_lt in Hlt.
    assert (seconds / 60 < 10) by (apply Z.div_lt_upper_bound; lia).
    rewrite (padStart2_digit (seconds / 60)) by lia. reflexivity.
  - apply Z.ltb_ge in Hlt.
    assert (10 <= seconds / 60) by (apply Z.div_le_lower_bound; lia).
    rewrite (padStart2_long (seconds / 60)) by lia. reflexivity.
Qed.

Lemma formatTime_and_formatDuration_witness :
  formatTime 65 = Some "01:05" /\ formatDuration 65 = Some "1:05".
Proof.
  destruct (formatTime_and_formatDuration 65) as [Hduration Htime];
    [unfold MAX_SAFE_INTEGER; lia|].
  split; [rewrite Htime | rewrite Hduration]; reflexivity.
Defined.

(** X30.  [toggleType] and [toggleTag] switch the membership of the
    chosen entry and of no other, and keep a selection free of
    duplicates. *)
Theorem toggle_switches_one x prev :
  (In x (toggle x prev) <-> ~ In x prev)
  /\ (forall y, y <> x -> (In y (toggle x prev) <-> In y prev))
  /\ (List.NoDup prev -> List.NoDup (toggle x prev)).
Proof.
  unfold toggle.
  destruct (existsb (String.eqb x) prev) eqn:Hin.
  - apply existsb_exists in Hin as (x' & Hx' & Heq). apply String.eqb_eq in Heq. subst x'.
    split; [|split].
    + rewrite filter_In, String.eqb_refl. cbn. intuition discriminate.
    + intros y Hy. rewrite filter_In.
      assert (String.eqb y x = false) as -> by (apply String.eqb_neq, Hy).
      cbn. tauto.
    + intros Hnd. apply List.NoDup_filter, Hnd.
  - assert (Hnot : ~ In x prev).
    { intros Hx. assert (existsb (String.eqb x) prev = true); [|congruence].
      apply existsb_exists. exists x. split; [exact Hx | apply String.eqb_refl]. }
    split; [|split].
    + rewrite in_app_iff. cbn. tauto.
    + intros y Hy. rewrite in_app_iff. cbn. intuition congruence.
    + intros Hnd. apply List.NoDup_app; [exact Hnd | |].
      * apply List.NoDup_cons; [intros [] | apply List.NoDup_nil].
      * intros y Hy [<-|[]]. exact (Hnot Hy).
Qed.

Lemma toggle_switches_one_witness :
  ~ In "audio" (toggle "audio" ["text"; "audio"])
  /\ In "audio" (toggle "audio" (toggle "audio" ["text"; "audio"])).
Proof.
  split.
  - intros Hin.
    apply (proj1 (proj1 (toggle_switches_one "audio" ["text"; "audio"])) Hin).
    simpl. tauto.
  - apply (proj1 (toggle_switches_one "audio" (toggle "audio" ["text"; "audio"]))).
    vm_compute. intros [H|[]]. discriminate H.
Defined.

End EditorProperties.
